(** * ESB artifact classification and extraction: the parsers and their registry

    A shallow embedding of [server/parsers/base-parser.ts], [osb-parser.ts],
    [boomi-parser.ts], [tibco-parser.ts], [mulesoft-parser.ts] and of the
    [ParserRegistry], followed by the properties of platform detection and
    extraction established on it.

    Conventions of the embedding.
    - Text is a [string] holding the UTF-8 bytes of the JavaScript string.  A
      [Buffer] is the sequence of its bytes, taken to be well-formed UTF-8,
      and [content.toString('utf8')] reads it as it is.  The markers,
      delimiters and tag names of the parsers are ASCII.  [trim] removes the
      white space of ECMAScript, in its UTF-8 form.  The case mappings are
      those of the ASCII letters, which is what [toUpperCase] and
      [toLowerCase] do on ASCII text; the parsers compare their results with
      ASCII texts only, and the properties that speak of the letter case of a
      text take that text to be ASCII.
    - A value of TypeScript type [any] is a [value]; an absent property and a
      property holding [undefined] are both [Undefined].
    - A computation that may throw returns an [outcome].
    - [JSON.parse] belongs to the runtime: the parsers are defined over an
      arbitrary decoder [JSON_parse]; module [JSON] supplies a decoder of the
      JSON grammar for the concrete runs.
    - [new RegExp(source, flags)] belongs to the runtime too.  The patterns
      written in the sources are modelled by the matcher of module [RegExp].
      A pattern whose source is computed from a name found in the document is
      matched by that matcher when the name is free of syntax characters, and
      is handed to an arbitrary constructor [RegExp_new] otherwise.
    - [new Date().toISOString()] is the argument [now]. *)

From Stdlib Require Import String Ascii List Bool Arith NArith Lia DecimalString.
Import ListNotations.
Open Scope list_scope.
Open Scope string_scope.

(** ** Strings, as the parsers use them *)

Module Js.

(** [c.toUpperCase()] and [c.toLowerCase()] on one character. *)
Definition upper (c : ascii) : ascii :=
  let n := nat_of_ascii c in
  if ((97 <=? n) && (n <=? 122))%nat then ascii_of_nat (n - 32) else c.

Definition lower (c : ascii) : ascii :=
  let n := nat_of_ascii c in
  if ((65 <=? n) && (n <=? 90))%nat then ascii_of_nat (n + 32) else c.

Fixpoint map (f : ascii -> ascii) (s : string) : string :=
  match s with
  | EmptyString => EmptyString
  | String c s' => String (f c) (map f s')
  end.

Definition toUpperCase : string -> string := map upper.
Definition toLowerCase : string -> string := map lower.

(** [s.startsWith(p)] *)
Definition startsWith (s p : string) : bool := String.prefix p s.

(** [s.includes(p)] *)
Fixpoint includes (s p : string) : bool :=
  startsWith s p ||
  match s with
  | EmptyString => false
  | String _ s' => includes s' p
  end.

(** [s.split(sep)] for a one-character separator: never empty. *)
Fixpoint split (sep : ascii) (s : string) : list string :=
  match s with
  | EmptyString => [EmptyString]
  | String c s' =>
      if Ascii.eqb c sep then EmptyString :: split sep s'
      else match split sep s' with
           | h :: t => String c h :: t
           | [] => [String c EmptyString]
           end
  end.

(** [a.pop()]: the last element, [undefined] on the empty array. *)
Fixpoint pop (l : list string) : option string :=
  match l with
  | [] => None
  | [x] => Some x
  | _ :: l' => pop l'
  end.

(** The white space [trim] removes.  One byte: the characters 09 to 0D and
    20.  Two bytes: A0.  Three bytes: 1680, 2000 to 200A, 2028, 2029, 202F,
    205F, 3000 and FEFF. *)
Definition isSpace (c : ascii) : bool :=
  let n := nat_of_ascii c in
  (((9 <=? n) && (n <=? 13)) || (n =? 32))%nat.

Definition isSpace2 (a b : ascii) : bool :=
  ((nat_of_ascii a =? 194) && (nat_of_ascii b =? 160))%nat.

Definition isSpace3 (a b c : ascii) : bool :=
  let x := nat_of_ascii a in
  let y := nat_of_ascii b in
  let z := nat_of_ascii c in
  (((x =? 225) && (y =? 154) && (z =? 128)) ||
   ((x =? 226) && (y =? 128) &&
    (((128 <=? z) && (z <=? 138)) || (z =? 168) || (z =? 169) || (z =? 175))) ||
   ((x =? 226) && (y =? 129) && (z =? 159)) ||
   ((x =? 227) && (y =? 128) && (z =? 128)) ||
   ((x =? 239) && (y =? 187) && (z =? 191)))%nat.

Fixpoint trimStart (s : string) : string :=
  match s with
  | EmptyString => EmptyString
  | String a s1 =>
      if isSpace a then trimStart s1
      else
        match s1 with
        | String b s2 =>
            if isSpace2 a b then trimStart s2
            else
              match s2 with
              | String c s3 => if isSpace3 a b c then trimStart s3 else s
              | EmptyString => s
              end
        | EmptyString => s
        end
  end.

(** A text of white space only. *)
Definition blank (s : string) : bool :=
  match trimStart s with
  | EmptyString => true
  | String _ _ => false
  end.

(** The text up to the white space it ends with. *)
Fixpoint trimEnd (s : string) : string :=
  match s with
  | EmptyString => EmptyString
  | String c s' => if blank s then EmptyString else String c (trimEnd s')
  end.

Definition trim (s : string) : string := trimEnd (trimStart s).

(** [s.substring(0, n)] on a text read from [n] bytes at most. *)
Definition take (n : nat) (s : string) : string := String.substring 0 n s.

(** A byte that continues a character begun before it. *)
Definition continues (c : ascii) : bool :=
  let n := nat_of_ascii c in ((128 <=? n) && (n <? 192))%nat.

(** The longest prefix of a text that holds [n] UTF-16 code units at most: a
    character of four bytes counts for two, any other for one. *)
Fixpoint units (n : nat) (s : string) : string :=
  match s with
  | EmptyString => EmptyString
  | String c s' =>
      if continues c then String c (units n s')
      else
        match n with
        | O => EmptyString
        | S n' =>
            if (240 <=? nat_of_ascii c)%nat then
              match n' with
              | O => EmptyString
              | S n'' => String c (units n'' s')
              end
            else String c (units n' s')
        end
  end.

(** [s.substring(start, start + n)], [start] counting bytes and [n] code
    units.  (Where the runtime would end the text between the two halves of a
    character of four bytes, the character is left out; no pattern applied to
    the result can tell.) *)
Definition substring (start n : nat) (s : string) : string :=
  units n (String.substring start (String.length s - start) s).

(** The characters of a text, each with the bytes that continue it: what a
    [for ... of] over the text visits. *)
Fixpoint characters (s : string) : list string :=
  match s with
  | EmptyString => []
  | String c s' =>
      let rest := characters s' in
      match rest with
      | h :: t =>
          if match s' with String d _ => continues d | EmptyString => false end
          then String c h :: t
          else String c EmptyString :: rest
      | [] => [String c EmptyString]
      end
  end.

(** [`${n}`] for a non-negative integer. *)
Definition ofNat (n : nat) : string := NilEmpty.string_of_uint (Nat.to_uint n).

End Js.

(** ** Regular expressions

    The patterns of the parsers are sequences of literal text and starred
    character classes, with at most one capture group, itself a starred class.
    [exec] is the backtracking matcher of ECMAScript on that fragment: a
    greedy star tries the longest run first, a lazy one the shortest. *)

Module RegExp.

Inductive class :=
| Any                 (* [\s\S] *)
| Not (c : ascii).    (* [^c] *)

Inductive atom :=
| Lit (s : string)    (* the characters of s *)
| Star (k : class)    (* k starred, greedy *)
| Lazy (k : class)    (* k starred, lazy: followed by ? *)
| Group (k : class).  (* k starred, greedy, in capturing parentheses *)

Definition regex := list atom.

(** The text matched and the capture of group 1. *)
Definition result := option (string * option string).

Section Matcher.

(** The flag [i]. *)
Variable ignoreCase : bool.

Definition same (a b : ascii) : bool :=
  if ignoreCase then Ascii.eqb (Js.upper a) (Js.upper b) else Ascii.eqb a b.

Definition member (k : class) (c : ascii) : bool :=
  match k with
  | Any => true
  | Not x => negb (same x c)
  end.

Definition consumed (c : ascii) (r : result) : result :=
  match r with
  | Some (m, g) => Some (String c m, g)
  | None => None
  end.

Fixpoint lit (p : string) (k : string -> result) (s : string) : result :=
  match p with
  | EmptyString => k s
  | String a p' =>
      match s with
      | String c s' => if same a c then consumed c (lit p' k s') else None
      | EmptyString => None
      end
  end.

Fixpoint greedy (cl : class) (k : string -> result) (s : string) : result :=
  match s with
  | String c s' =>
      if member cl c
      then match greedy cl k s' with
           | Some (m, g) => Some (String c m, g)
           | None => k s
           end
      else k s
  | EmptyString => k s
  end.

Fixpoint lazy (cl : class) (k : string -> result) (s : string) : result :=
  match k s with
  | Some r => Some r
  | None =>
      match s with
      | String c s' => if member cl c then consumed c (lazy cl k s') else None
      | EmptyString => None
      end
  end.

(** A capturing group followed by the continuation: the captured run and the
    text the continuation matched. *)
Fixpoint group (cl : class) (k : string -> result) (s : string)
  : option (string * string) :=
  let stop := match k s with
              | Some (m, _) => Some (EmptyString, m)
              | None => None
              end in
  match s with
  | String c s' =>
      if member cl c
      then match group cl k s' with
           | Some (g, m) => Some (String c g, m)
           | None => stop
           end
      else stop
  | EmptyString => stop
  end.

(** A match of [r] that starts at the first character of [s]. *)
Fixpoint exec (r : regex) (s : string) : result :=
  match r with
  | [] => Some (EmptyString, None)
  | Lit p :: r' => lit p (exec r') s
  | Star cl :: r' => greedy cl (exec r') s
  | Lazy cl :: r' => lazy cl (exec r') s
  | Group cl :: r' =>
      match group cl (exec r') s with
      | Some (g, m) => Some (g ++ m, Some g)
      | None => None
      end
  end.

(** [s.match(r)] without the flag [g]: the leftmost match, [null] as [None]. *)
Fixpoint search (r : regex) (s : string) : result :=
  match exec r s with
  | Some m => Some m
  | None =>
      match s with
      | String _ s' => search r s'
      | EmptyString => None
      end
  end.

(** [s.match(r)] with the flag [g]: the successive matches from left to
    right, each search resuming where the previous match ended (one character
    further after an empty match); [null] as [[]].  [skip] counts the
    characters of the previous match still to pass. *)
Fixpoint scan (r : regex) (skip : nat) (s : string) : list string :=
  match skip with
  | S n =>
      match s with
      | String _ s' => scan r n s'
      | EmptyString => []
      end
  | O =>
      match exec r s with
      | Some (m, _) =>
          m :: match s with
               | String _ s' => scan r (pred (String.length m)) s'
               | EmptyString => []
               end
      | None =>
          match s with
          | String _ s' => scan r 0 s'
          | EmptyString => []
          end
      end
  end.

Definition matchAll (r : regex) (s : string) : list string := scan r 0 s.

End Matcher.

(** [new RegExp(source, flags)] of the runtime, where the parsers apply it to
    a source computed from the document: [None] when the constructor throws
    its [SyntaxError]; otherwise the pattern, as what [s.match(pattern)] gives
    for each subject [s], [null] as [None] and a match as the text matched. *)
Definition constructor : Type := string -> string -> option (string -> option string).

(** The characters with a meaning in a pattern ([SyntaxCharacter] of the
    grammar). *)
Definition syntaxCharacter (c : ascii) : bool :=
  existsb (Ascii.eqb c)
    ["^"; "$"; "\"; "."; "*"; "+"; "?"; "("; ")"; "["; "]"; "{"; "}"; "|"]%char.

(** A text that, spliced into a pattern source, stands for itself: ASCII and
    free of syntax characters. *)
Fixpoint plain (s : string) : bool :=
  match s with
  | EmptyString => true
  | String c s' =>
      (nat_of_ascii c <? 128)%nat && negb (syntaxCharacter c) && plain s'
  end.

(** A constructor for the concrete runs.  It reads the sources made of ASCII
    characters that stand for themselves, of syntax characters escaped by a
    backslash, of a negated class of one character under a star, and of the
    class of all characters in its two-escape form under a star; a star
    followed by a question mark is lazy.  Any other source is refused: the
    ill-formed ones, which the runtime refuses too, and those of the rest of
    the grammar, which no run below contains. *)
Definition literally (c : ascii) (r : option regex) : option regex :=
  option_map (cons (Lit (String c EmptyString))) r.

(** What follows a starred class: a question mark makes the star lazy. *)
Definition star (k : class) (lazily : bool) : atom :=
  if lazily then Lazy k else Star k.

Fixpoint compile (source : string) : option regex :=
  match source with
  | EmptyString => Some []
  | String c rest =>
      if Ascii.eqb c "\" then
        match rest with
        | String e rest' =>
            if syntaxCharacter e || Ascii.eqb e "/"
            then literally e (compile rest') else None
        | EmptyString => None
        end
      else if Ascii.eqb c "[" then
        match rest with
        | String a1 (String a2 (String a3 (String a4 rest4))) =>
            if Ascii.eqb a1 "^" && plain (String a2 EmptyString)
               && Ascii.eqb a3 "]" && Ascii.eqb a4 "*"
            then
              match rest4 with
              | String a5 rest5 =>
                  if Ascii.eqb a5 "?"
                  then option_map (cons (star (Not a2) true)) (compile rest5)
                  else option_map (cons (star (Not a2) false)) (compile rest4)
              | EmptyString => Some [star (Not a2) false]
              end
            else
              match rest4 with
              | String a5 (String a6 rest6) =>
                  if Ascii.eqb a1 "\" && Ascii.eqb a2 "s" && Ascii.eqb a3 "\"
                     && Ascii.eqb a4 "S" && Ascii.eqb a5 "]" && Ascii.eqb a6 "*"
                  then
                    match rest6 with
                    | String a7 rest7 =>
                        if Ascii.eqb a7 "?"
                        then option_map (cons (star Any true)) (compile rest7)
                        else option_map (cons (star Any false)) (compile rest6)
                    | EmptyString => Some [star Any false]
                    end
                  else None
              | _ => None
              end
        | _ => None
        end
      else if plain (String c EmptyString) then literally c (compile rest)
      else None
  end.

Definition construct : constructor :=
  fun source flags =>
    match compile source with
    | Some r =>
        Some (fun s => match search (Js.includes flags "i") r s with
                       | Some (m, _) => Some m
                       | None => None
                       end)
    | None => None
    end.

End RegExp.

(** ** Values of type [any], exceptions, results *)

#[local] Set Warnings "-register-all,-abstract-large-number".

Inductive value :=
| Undefined
| Null
| Bool (b : bool)
| Num (nonzero : bool) (literal : string)
| Str (s : string)
| Arr (elements : list value)
| Obj (members : list (string * value)).

(** The exceptions raised inside the parsers and the processor: four
    [TypeError]s, and the [SyntaxError] of [JSON.parse] and of [new RegExp]. *)
Inductive exception :=
| CannotRead (property : string)   (* a property of null or undefined *)
| NotIterable                      (* for-of over a value that is not iterable *)
| NotAFunction (method : string)   (* a call of a method the value lacks *)
| CannotConvert                    (* an object with no primitive value *)
| SyntaxError.

(** The two [throw new Error(...)] of the sources, by their template:
    [`No parser found for file: ${filename}`] and
    [`Failed to parse ${platform} file: ${error.message}`]. *)
Inductive Error :=
| NoParserFound (filename : string)
| FailedToParse (platform : string) (cause : exception).

(** A run returns or throws. *)
Inductive outcome (E A : Type) :=
| Return (a : A)
| Throw (e : E).

Arguments Return {E A} a.
Arguments Throw {E A} e.

Definition bind {E A B} (m : outcome E A) (k : A -> outcome E B) : outcome E B :=
  match m with
  | Return a => k a
  | Throw e => Throw e
  end.

Notation "x <- m ;; k" := (bind m (fun x => k))
  (at level 61, m at next level, right associativity).

(** [for (const x of l) { ... }] over a state. *)
Fixpoint forOf {E S A} (body : S -> A -> outcome E S) (l : list A) (st : S)
  : outcome E S :=
  match l with
  | [] => Return st
  | x :: l' => st' <- body st x ;; forOf body l' st'
  end.

(** [l.map(f)] where [f] may throw. *)
Fixpoint mapM {E A B} (f : A -> outcome E B) (l : list A) : outcome E (list B) :=
  match l with
  | [] => Return []
  | x :: l' => y <- f x ;; ys <- mapM f l' ;; Return (y :: ys)
  end.

(** [l.map((x, index) => f x index)], the indices starting at [i]. *)
Fixpoint mapi {A B} (f : A -> nat -> B) (i : nat) (l : list A) : list B :=
  match l with
  | [] => []
  | x :: l' => f x i :: mapi f (S i) l'
  end.

(** [try { body } catch (error) { throw new Error(`Failed to parse ...`) }] *)
Definition catch {A} (platform : string) (body : outcome exception A)
  : outcome Error A :=
  match body with
  | Return a => Return a
  | Throw e => Throw (FailedToParse platform e)
  end.

Definition truthy (v : value) : bool :=
  match v with
  | Undefined | Null => false
  | Bool b => b
  | Num nonzero _ => nonzero
  | Str s => negb (String.eqb s "")
  | Arr _ | Obj _ => true
  end.

(** [a || b] *)
Definition or (a b : value) : value := if truthy a then a else b.

(** The value of a member, the last one when a key is repeated. *)
Fixpoint lookup (key : string) (members : list (string * value)) : option value :=
  match members with
  | [] => None
  | (k, v) :: rest =>
      match lookup key rest with
      | Some v' => Some v'
      | None => if String.eqb k key then Some v else None
      end
  end.

(** [v.key], for the keys the parsers read: none of them is a property of the
    prototypes of strings, numbers, booleans, arrays or objects. *)
Definition get (v : value) (key : string) : outcome exception value :=
  match v with
  | Undefined | Null => Throw (CannotRead key)
  | Obj members =>
      Return match lookup key members with Some x => x | None => Undefined end
  | _ => Return Undefined
  end.

(** [v?.key] *)
Definition getOpt (v : value) (key : string) : outcome exception value :=
  match v with
  | Undefined | Null => Return Undefined
  | _ => get v key
  end.

(** [o.key] on an object literal built by the parser itself. *)
Definition field (o : value) (key : string) : value :=
  match o with
  | Obj members => match lookup key members with Some x => x | None => Undefined end
  | _ => Undefined
  end.

(** The elements a [for ... of] visits: those of an array, the characters of
    a string. *)
Definition iterate (v : value) : outcome exception (list value) :=
  match v with
  | Arr l => Return l
  | Str s => Return (List.map Str (Js.characters s))
  | _ => Throw NotIterable
  end.

(** The double quote. *)
Definition dq : ascii := "034"%char.
Definition q : string := String dq EmptyString.

(** [l.includes(x)] on an array of strings. *)
Definition oneOf (l : list string) (x : string) : bool := existsb (String.eqb x) l.

(** ** The unified model (as the parsers build it) *)

Module Service.
Record t := mk {
  name : value;
  type : string;
  platform : string;
  endpoint : value;
  methods : value;
  description : value;
  requestSchema : value;
  responseSchema : value
}.
End Service.

Module Proxy.
Record t := mk {
  name : value;
  serviceUri : value;
  endpointUri : value;
  wsdlResource : value;
  configuration : value
}.
End Proxy.

Module Transformation.
Record t := mk {
  name : value;
  type : value;
  sourceSchema : value;
  targetSchema : value;
  mappingConfiguration : value
}.
End Transformation.

Module Metadata.
Record t := mk {
  platform : string;
  filename : string;
  parsedAt : string;
  serviceCount : nat;
  proxyServiceCount : nat;
  transformationCount : nat
}.
End Metadata.

Module ParseResult.
Record t := mk {
  services : list Service.t;
  proxyServices : list Proxy.t;
  transformations : list Transformation.t;
  metadata : Metadata.t
}.
End ParseResult.

(** The three arrays a [parse] fills. *)
Definition arrays : Type :=
  (list Service.t * list Proxy.t * list Transformation.t)%type.

(** The object every [parse] returns. *)
Definition resultOf (platform now filename : string) (a : arrays) : ParseResult.t :=
  let '(services, proxyServices, transformations) := a in
  ParseResult.mk services proxyServices transformations
    (Metadata.mk platform filename now
       (List.length services) (List.length proxyServices)
       (List.length transformations)).

(** ** base-parser.ts *)

Definition Buffer : Type := string.

Module BaseParser.

(** [content.toString('utf8')] *)
Definition toString (content : Buffer) : string := content.

Definition extractFileExtension (filename : string) : string :=
  match Js.pop (Js.split "." filename) with
  | Some segment => Js.toLowerCase segment
  | None => ""
  end.

Definition isXmlContent (content : Buffer) : bool :=
  let contentStr := Js.take (Nat.min 1000 (String.length content)) content in
  Js.startsWith (Js.trim contentStr) "<?xml" || Js.includes contentStr "<".

Section Decoder.
Variable JSON_parse : string -> option value.

Definition isJsonContent (content : Buffer) : bool :=
  match JSON_parse (toString content) with
  | Some _ => true
  | None => false
  end.

End Decoder.

(** [extractValue], which the OSB, Tibco and MuleSoft parsers each repeat.
    Its pattern, with the flag i: the opening tag up to its [>], the group of
    the characters before the next [<], the closing tag.  Every tag name the
    parsers pass is free of syntax characters. *)
Definition extractValue (xml tagName : string) : value :=
  let regex := [RegExp.Lit ("<" ++ tagName); RegExp.Star (RegExp.Not ">");
                RegExp.Lit ">"; RegExp.Group (RegExp.Not "<");
                RegExp.Lit ("</" ++ tagName ++ ">")] in
  match RegExp.search true regex xml with
  | Some (_, Some g) => Str (Js.trim g)
  | _ => Undefined
  end.

(** Group 1 of the pattern that reads the text between [>] and [<] in a
    matched tag, [undefined] as [None]. *)
Definition tagText (m : string) : option string :=
  match RegExp.search false
          [RegExp.Lit ">"; RegExp.Group (RegExp.Not "<"); RegExp.Lit "<"] m with
  | Some (_, g) => g
  | None => None
  end.

(** Group 1 of the pattern that reads the value of the attribute [name] in a
    matched tag, a failed match as [None]. *)
Definition nameMatch (m : string) : option string :=
  match RegExp.search false
          [RegExp.Lit ("name=" ++ q); RegExp.Group (RegExp.Not dq);
           RegExp.Lit q] m with
  | Some (_, g) => g
  | None => None
  end.

End BaseParser.

(** ** osb-parser.ts *)

Module OSBParser.
Import RegExp.

Definition platform : string := "OSB".

Definition canParse (filename : string) (content : Buffer) : bool :=
  let ext := BaseParser.extractFileExtension filename in
  if oneOf ["ear"; "jar"] ext then true
  else if String.eqb ext "xml" && BaseParser.isXmlContent content then
    let contentStr := BaseParser.toString content in
    Js.includes contentStr "xmlns:osb" ||
    Js.includes contentStr "proxy-service" ||
    Js.includes contentStr "business-service"
  else false.

Definition extractValue := BaseParser.extractValue.

(** The pattern of [methodMatches], flags g and i: an [http:method] element
    and, as group 1, its text. *)
Definition methodTag : regex :=
  [Lit "<http:method>"; Group (Not "<"); Lit "</http:method>"].

Definition extractRestMethods (xml : string) : value :=
  let methodMatches := matchAll true methodTag xml in
  let methods :=
    flat_map (fun m => match BaseParser.tagText m with
                       | Some method =>
                           if String.eqb method "" then []
                           else [Str (Js.toUpperCase method)]
                       | None => []
                       end) methodMatches in
  match methods with
  | [] => Arr [Str "GET"; Str "POST"]
  | _ => Arr methods
  end.

(** The pattern built around [serviceName], flag i: a [proxy-service] tag
    with that name, then lazily any characters up to the closing tag. *)
Definition serviceRegex (serviceName : string) : regex :=
  [Lit "<proxy-service"; Star (Not ">"); Lit ("name=" ++ q); Lit serviceName;
   Lit q; Lazy Any; Lit "</proxy-service>"].

(** The object literal [extractServiceConfig] returns for the block found. *)
Definition configOf (serviceXml : string) : value :=
  let rest := Js.includes serviceXml "rest-" in
  Obj [("type", Str (if rest then "REST" else "SOAP"));
       ("endpoint", or (extractValue serviceXml "endpoint-uri")
                       (extractValue serviceXml "uri"));
       ("serviceUri", extractValue serviceXml "service-uri");
       ("endpointUri", extractValue serviceXml "endpoint-uri");
       ("wsdlResource", extractValue serviceXml "wsdl-resource");
       ("description", extractValue serviceXml "description");
       ("methods", if rest then extractRestMethods serviceXml
                   else Arr [Str "POST"]);
       ("requestSchema", extractValue serviceXml "request-type");
       ("responseSchema", extractValue serviceXml "response-type")].

(** The source of that pattern, as the template literal gives it. *)
Definition serviceSource (serviceName : string) : string :=
  "<proxy-service[^>]*name=" ++ q ++ serviceName ++ q
  ++ "[\s\S]*?</proxy-service>".

Section Runtime.
Variable RegExp_new : constructor.

(** [content.match(serviceRegex)]: the block matched, [null] as [None].  A
    name free of syntax characters stands for itself in the source, which is
    then the pattern [serviceRegex serviceName]; any other source goes to the
    constructor of the runtime, which may throw. *)
Definition serviceMatch (content serviceName : string)
  : outcome exception (option string) :=
  if plain serviceName then
    Return (option_map fst (search true (serviceRegex serviceName) content))
  else
    match RegExp_new (serviceSource serviceName) "i" with
    | Some pattern => Return (pattern content)
    | None => Throw SyntaxError
    end.

Definition extractServiceConfig (content serviceName : string)
  : outcome exception value :=
  found <- serviceMatch content serviceName ;;
  match found with
  | None => Return (Obj [])
  | Some serviceXml => Return (configOf serviceXml)
  end.

(** The pattern of [proxyMatches], flag g: an opening [proxy-service] tag
    with an attribute [name], whose value is group 1. *)
Definition proxyTag : regex :=
  [Lit "<proxy-service"; Star (Not ">"); Lit ("name=" ++ q); Group (Not dq);
   Lit q; Star (Not ">"); Lit ">"].

(** The pattern of [xsltMatches], flag g: an opening [xsl:stylesheet] tag. *)
Definition stylesheetTag : regex :=
  [Lit "<xsl:stylesheet"; Star (Not ">"); Lit ">"].

(** [serviceConfig.type || 'SOAP'] *)
Definition typeOr (config : value) (default : string) : string :=
  match field config "type" with
  | Str s => if String.eqb s "" then default else s
  | _ => default
  end.

(** The service and the proxy record pushed for one configuration. *)
Definition serviceOf (serviceName : string) (serviceConfig : value) : Service.t :=
  Service.mk (Str serviceName) (typeOr serviceConfig "SOAP") "OSB"
    (field serviceConfig "endpoint") (field serviceConfig "methods")
    (field serviceConfig "description") (field serviceConfig "requestSchema")
    (field serviceConfig "responseSchema").

Definition proxyOf (serviceName : string) (serviceConfig : value) : Proxy.t :=
  Proxy.mk (Str serviceName) (field serviceConfig "serviceUri")
    (field serviceConfig "endpointUri") (field serviceConfig "wsdlResource")
    serviceConfig.

(** The body of the loop over [proxyMatches]. *)
Definition proxyStep (contentStr : string)
    (st : list Service.t * list Proxy.t) (m : string)
  : outcome exception (list Service.t * list Proxy.t) :=
  match BaseParser.nameMatch m with
  | Some serviceName =>
      serviceConfig <- extractServiceConfig contentStr serviceName ;;
      Return ((fst st ++ [serviceOf serviceName serviceConfig])%list,
              (snd st ++ [proxyOf serviceName serviceConfig])%list)
  | None => Return st
  end.

Definition xslt (m : string) (index : nat) : Transformation.t :=
  Transformation.mk (Str ("XSLT_Transform_" ++ Js.ofNat (index + 1)))
    (Str "XSLT") (Str "auto-detected") (Str "auto-detected")
    (Obj [("xslt", Str m)]).

Definition extract (content : Buffer) : outcome exception arrays :=
  if BaseParser.isXmlContent content then
    let contentStr := BaseParser.toString content in
    sp <- forOf (proxyStep contentStr) (matchAll false proxyTag contentStr) ([], []) ;;
    Return (fst sp, snd sp,
            mapi xslt 0 (matchAll false stylesheetTag contentStr))
  else Return ([], [], []).

Definition parse (now filename : string) (content : Buffer)
  : outcome Error ParseResult.t :=
  catch "OSB" (a <- extract content ;; Return (resultOf "OSB" now filename a)).

End Runtime.
End OSBParser.

(** ** tibco-parser.ts *)

Module TibcoParser.
Import RegExp.

Definition platform : string := "Tibco".

Definition canParse (filename : string) (content : Buffer) : bool :=
  let ext := BaseParser.extractFileExtension filename in
  if oneOf ["ear"; "xml"; "process"] ext then true
  else if BaseParser.isXmlContent content then
    let contentStr := BaseParser.toString content in
    Js.includes contentStr "xmlns:tibco" ||
    Js.includes contentStr "pd:ProcessDefinition" ||
    Js.includes contentStr "tibco.plugin"
  else false.

Definition extractValue := BaseParser.extractValue.

(** The first [value] element inside a [config] element; its text is
    group 1. *)
Definition extractHttpReceiverPath (xml : string) : value :=
  match search false
          [Lit "<config"; Star (Not ">"); Lit ">"; Lazy Any; Lit "<value>";
           Group (Not "<"); Lit "</value>"; Lazy Any; Lit "</config>"] xml with
  | Some (_, Some g) => Str g
  | _ => Undefined
  end.

(** [content.indexOf(match)], [-1] as [None]. *)
Fixpoint indexOf (s p : string) : option nat :=
  if Js.startsWith s p then Some 0
  else match s with
       | EmptyString => None
       | String _ s' => option_map S (indexOf s' p)
       end.

Definition extractHttpReceiverConfig (content m : string) : value :=
  match indexOf content m with
  | Some configMatch =>
      let configSection := Js.substring configMatch 1000 content in
      match search false [Lit "<value>"; Group (Not "<"); Lit "</value>"]
              configSection with
      | Some (_, Some g) => Str g
      | _ => Str "/default-path"
      end
  | None => Str "/default-path"
  end.

(** The pattern of [methodMatches], flags g and i: a [method] element and,
    as group 1, its text. *)
Definition methodTag : regex := [Lit "<method>"; Group (Not "<"); Lit "</method>"].

Definition extractHttpMethods (xml : string) : value :=
  match matchAll true methodTag xml with
  | [] => Arr [Str "GET"; Str "POST"]
  | methodMatches =>
      Arr (List.map (fun m => match BaseParser.tagText m with
                              | Some method =>
                                  if String.eqb method "" then Str "POST"
                                  else Str (Js.toUpperCase method)
                              | None => Str "POST"
                              end) methodMatches)
  end.

(** The pattern built around [processName], flag i: a [pd:ProcessDefinition]
    tag with that name, then lazily any characters up to the closing tag. *)
Definition processRegex (processName : string) : regex :=
  [Lit "<pd:ProcessDefinition"; Star (Not ">"); Lit ("name=" ++ q);
   Lit processName; Lit q; Lazy Any; Lit "</pd:ProcessDefinition>"].

Definition configOf (processXml : string) : value :=
  Obj [("endpoint", or (extractValue processXml "endpoint")
                       (extractHttpReceiverPath processXml));
       ("description", extractValue processXml "description");
       ("methods", extractHttpMethods processXml);
       ("requestSchema", extractValue processXml "inputSchema");
       ("responseSchema", extractValue processXml "outputSchema")].

(** The source of that pattern, as the template literal gives it. *)
Definition processSource (processName : string) : string :=
  "<pd:ProcessDefinition[^>]*name=" ++ q ++ processName ++ q
  ++ "[\s\S]*?</pd:ProcessDefinition>".

Section Runtime.
Variable RegExp_new : constructor.

(** [content.match(processRegex)]: the block matched, [null] as [None]; the
    pattern of this file for a name free of syntax characters, the constructor
    of the runtime for any other. *)
Definition processMatch (content processName : string)
  : outcome exception (option string) :=
  if plain processName then
    Return (option_map fst (search true (processRegex processName) content))
  else
    match RegExp_new (processSource processName) "i" with
    | Some pattern => Return (pattern content)
    | None => Throw SyntaxError
    end.

Definition extractProcessConfig (content processName : string)
  : outcome exception value :=
  found <- processMatch content processName ;;
  match found with
  | None => Return (Obj [])
  | Some processXml => Return (configOf processXml)
  end.

End Runtime.

Definition determineServiceType (config : value) : string :=
  match field config "endpoint" with
  | Str endpoint =>
      if negb (String.eqb endpoint "") then
        if Js.includes endpoint "/rest/" || Js.includes endpoint "/api/" then "REST"
        else if Js.includes endpoint "/soap/" || Js.includes endpoint "wsdl" then "SOAP"
        else "REST"
      else "REST"
  | _ => "REST"
  end.

(** The pattern of [processMatches], flag g: an opening
    [pd:ProcessDefinition] tag with an attribute [name], whose value is
    group 1. *)
Definition processTag : regex :=
  [Lit "<pd:ProcessDefinition"; Star (Not ">"); Lit ("name=" ++ q);
   Group (Not dq); Lit q; Star (Not ">"); Lit ">"].

(** The pattern of [httpReceiverMatches], flag g: a [pd:activity] tag named
    HTTP Receiver. *)
Definition receiverTag : regex :=
  [Lit "<pd:activity"; Star (Not ">"); Lit ("name=" ++ q ++ "HTTP Receiver" ++ q);
   Star (Not ">"); Lit ">"].

(** The pattern of [mapperMatches], flag g: a [pd:activity] tag whose type
    is the mapper activity; the dots of the source are escaped, hence
    literal. *)
Definition mapperTag : regex :=
  [Lit "<pd:activity"; Star (Not ">");
   Lit ("type=" ++ q ++ "com.tibco.plugin.mapper.MapperActivity" ++ q);
   Star (Not ">"); Lit ">"].

Definition serviceOf (processName : string) (processConfig : value) : Service.t :=
  Service.mk (Str processName) (determineServiceType processConfig) "Tibco"
    (field processConfig "endpoint") (field processConfig "methods")
    (field processConfig "description") (field processConfig "requestSchema")
    (field processConfig "responseSchema").

Section Runtime.
Variable RegExp_new : constructor.

Definition processStep (contentStr : string) (st : list Service.t) (m : string)
  : outcome exception (list Service.t) :=
  match BaseParser.nameMatch m with
  | Some processName =>
      processConfig <- extractProcessConfig RegExp_new contentStr processName ;;
      Return (st ++ [serviceOf processName processConfig])%list
  | None => Return st
  end.

End Runtime.

Definition receiver (contentStr : string) (m : string) (index : nat) : Proxy.t :=
  Proxy.mk (Str ("HTTP_Receiver_" ++ Js.ofNat (index + 1)))
    (extractHttpReceiverConfig contentStr m) Undefined Undefined
    (Obj [("type", Str "HTTP Receiver"); ("xml", Str m)]).

Definition mapper (m : string) (index : nat) : Transformation.t :=
  Transformation.mk (Str ("Mapper_" ++ Js.ofNat (index + 1)))
    (Str "Tibco Mapper") (Str "auto-detected") (Str "auto-detected")
    (Obj [("xml", Str m)]).

Section Runtime.
Variable RegExp_new : constructor.

Definition extract (content : Buffer) : outcome exception arrays :=
  if BaseParser.isXmlContent content then
    let contentStr := BaseParser.toString content in
    services <- forOf (processStep RegExp_new contentStr)
                  (matchAll false processTag contentStr) [] ;;
    Return (services,
            mapi (receiver contentStr) 0 (matchAll false receiverTag contentStr),
            mapi mapper 0 (matchAll false mapperTag contentStr))
  else Return ([], [], []).

Definition parse (now filename : string) (content : Buffer)
  : outcome Error ParseResult.t :=
  catch "Tibco" (a <- extract content ;; Return (resultOf "Tibco" now filename a)).

End Runtime.
End TibcoParser.

(** ** boomi-parser.ts *)

Module BoomiParser.

Definition platform : string := "Boomi".

Section Decoder.
Variable JSON_parse : string -> option value.

Definition canParse (filename : string) (content : Buffer) : bool :=
  let ext := BaseParser.extractFileExtension filename in
  if oneOf ["zip"; "json"] ext then true
  else if String.eqb ext "json" && BaseParser.isJsonContent JSON_parse content then
    let contentStr := BaseParser.toString content in
    Js.includes contentStr (q ++ "componentType" ++ q) ||
    Js.includes contentStr (q ++ "processId" ++ q) ||
    Js.includes contentStr (q ++ "boomi")
  else false.

(** [process.connectorType.toLowerCase()] *)
Definition toLowerCase (v : value) : outcome exception string :=
  match v with
  | Str s => Return (Js.toLowerCase s)
  | _ => Throw (NotAFunction "toLowerCase")
  end.

Definition determineServiceType (process : value) : outcome exception string :=
  connectorType <- get process "connectorType" ;;
  if truthy connectorType then
    lowered <- toLowerCase connectorType ;;
    Return (if oneOf ["http"; "rest"] lowered then "REST"
            else if oneOf ["soap"; "web service"] lowered then "SOAP"
            else if String.eqb lowered "jms" then "JMS"
            else if oneOf ["file"; "ftp"; "sftp"] lowered then "FILE"
            else "REST")
  else Return "REST".

Definition extractMethods (process : value) : outcome exception value :=
  httpMethods <- get process "httpMethods" ;;
  if truthy httpMethods then
    Return match httpMethods with
           | Arr _ => httpMethods
           | _ => Arr [httpMethods]
           end
  else
    operations <- get process "operations" ;;
    if truthy operations then
      match operations with
      | Arr l =>
          methods <- mapM (fun op => method <- get op "method" ;;
                                     Return (or method (Str "POST"))) l ;;
          Return (Arr methods)
      | _ => Throw (NotAFunction "map")
      end
    else Return (Arr [Str "POST"]).

Definition serviceOf (process : value) : outcome exception Service.t :=
  name <- get process "name" ;;
  processId <- (if truthy name then Return Undefined else get process "processId") ;;
  type <- determineServiceType process ;;
  endpoint <- get process "endpoint" ;;
  methods <- extractMethods process ;;
  description <- get process "description" ;;
  inputSchema <- get process "inputSchema" ;;
  outputSchema <- get process "outputSchema" ;;
  Return (Service.mk (or name processId) type "Boomi" endpoint methods
            description inputSchema outputSchema).

Definition proxyOf (connector : value) : outcome exception Proxy.t :=
  name <- get connector "name" ;;
  serviceUri <- get connector "serviceUri" ;;
  endpointUri <- get connector "endpointUri" ;;
  Return (Proxy.mk name serviceUri endpointUri Undefined connector).

Definition transformationOf (map : value) : outcome exception Transformation.t :=
  name <- get map "name" ;;
  sourceProfile <- get map "sourceProfile" ;;
  targetProfile <- get map "targetProfile" ;;
  mappingRules <- get map "mappingRules" ;;
  Return (Transformation.mk name (Str "Boomi Map") sourceProfile targetProfile
            mappingRules).

(** [if (config.key) { for (const x of config.key) { array.push(f x) } }] *)
Definition collect {A} (config : value) (key : string)
    (f : value -> outcome exception A) : outcome exception (list A) :=
  entries <- get config key ;;
  if truthy entries then
    l <- iterate entries ;;
    forOf (fun st x => y <- f x ;; Return (st ++ [y])%list) l []
  else Return [].

Definition extract (content : Buffer) : outcome exception arrays :=
  if BaseParser.isJsonContent JSON_parse content then
    let contentStr := BaseParser.toString content in
    match JSON_parse contentStr with
    | Some boomiConfig =>
        services <- collect boomiConfig "processes" serviceOf ;;
        proxyServices <- collect boomiConfig "connectors" proxyOf ;;
        transformations <- collect boomiConfig "maps" transformationOf ;;
        Return (services, proxyServices, transformations)
    | None => Throw SyntaxError
    end
  else Return ([], [], []).

Definition parse (now filename : string) (content : Buffer)
  : outcome Error ParseResult.t :=
  catch "Boomi" (a <- extract content ;; Return (resultOf "Boomi" now filename a)).

End Decoder.
End BoomiParser.

(** ** mulesoft-parser.ts *)

Module MuleSoftParser.
Import RegExp.

Definition platform : string := "MuleSoft".

Definition extractValue := BaseParser.extractValue.

(** The [path] attribute of the first [http:listener] tag that has one
    (group 1), [undefined] when there is none. *)
Definition extractHttpListenerPath (xml : string) : value :=
  match search false
          [Lit "<http:listener"; Star (Not ">"); Lit ("path=" ++ q);
           Group (Not dq); Lit q] xml with
  | Some (_, Some g) => Str g
  | _ => Undefined
  end.

(** The [allowedMethods] attribute (group 1), split at the commas. *)
Definition extractHttpMethods (xml : string) : value :=
  match search false
          [Lit ("allowedMethods=" ++ q); Group (Not dq); Lit q] xml with
  | Some (_, Some g) =>
      Arr (List.map (fun method => Str (Js.toUpperCase (Js.trim method)))
             (Js.split "," g))
  | _ => Arr [Str "GET"; Str "POST"]
  end.

(** The pattern built around [flowName], flag i: a [flow] tag with that name,
    then lazily any characters up to the closing tag. *)
Definition flowRegex (flowName : string) : regex :=
  [Lit "<flow"; Star (Not ">"); Lit ("name=" ++ q); Lit flowName; Lit q;
   Lazy Any; Lit "</flow>"].

Definition configOf (flowXml : string) : value :=
  Obj [("endpoint", extractHttpListenerPath flowXml);
       ("description", extractValue flowXml "doc:description");
       ("methods", extractHttpMethods flowXml);
       ("requestSchema", extractValue flowXml "request-type");
       ("responseSchema", extractValue flowXml "response-type")].

(** The source of that pattern, as the template literal gives it. *)
Definition flowSource (flowName : string) : string :=
  "<flow[^>]*name=" ++ q ++ flowName ++ q ++ "[\s\S]*?</flow>".

Section Runtime.
Variable RegExp_new : constructor.

(** [content.match(flowRegex)]: the block matched, [null] as [None]; the
    pattern of this file for a name free of syntax characters, the constructor
    of the runtime for any other. *)
Definition flowMatch (content flowName : string)
  : outcome exception (option string) :=
  if plain flowName then
    Return (option_map fst (search true (flowRegex flowName) content))
  else
    match RegExp_new (flowSource flowName) "i" with
    | Some pattern => Return (pattern content)
    | None => Throw SyntaxError
    end.

Definition extractFlowConfig (content flowName : string)
  : outcome exception value :=
  found <- flowMatch content flowName ;;
  match found with
  | None => Return (Obj [])
  | Some flowXml => Return (configOf flowXml)
  end.

End Runtime.

Definition determineServiceType (config : value) : string :=
  match field config "endpoint" with
  | Str endpoint =>
      if negb (String.eqb endpoint "") then
        if Js.includes endpoint "/api/" || Js.includes endpoint "/rest/" then "REST"
        else if Js.includes endpoint "/soap/" then "SOAP"
        else "REST"
      else "REST"
  | _ => "REST"
  end.

(** The pattern of [flowMatches], flag g: an opening [flow] tag with an
    attribute [name], whose value is group 1. *)
Definition flowTag : regex :=
  [Lit "<flow"; Star (Not ">"); Lit ("name=" ++ q); Group (Not dq); Lit q;
   Star (Not ">"); Lit ">"].

(** The pattern of [httpListenerMatches], flag g. *)
Definition listenerTag : regex := [Lit "<http:listener"; Star (Not ">"); Lit ">"].

(** The pattern of [dataWeaveMatches], flag g: a [dw:transform-message]
    element up to the first closing tag. *)
Definition dataWeaveTag : regex :=
  [Lit "<dw:transform-message"; Star (Not ">"); Lit ">"; Lazy Any;
   Lit "</dw:transform-message>"].

Definition serviceOf (flowName : string) (flowConfig : value) : Service.t :=
  Service.mk (Str flowName) (determineServiceType flowConfig) "MuleSoft"
    (field flowConfig "endpoint") (field flowConfig "methods")
    (field flowConfig "description") (field flowConfig "requestSchema")
    (field flowConfig "responseSchema").

Section Runtime.
Variable RegExp_new : constructor.

Definition flowStep (contentStr : string) (st : list Service.t) (m : string)
  : outcome exception (list Service.t) :=
  match BaseParser.nameMatch m with
  | Some flowName =>
      flowConfig <- extractFlowConfig RegExp_new contentStr flowName ;;
      Return (st ++ [serviceOf flowName flowConfig])%list
  | None => Return st
  end.

End Runtime.

(** Group 1 of a pattern that reads the value of an attribute in a matched
    tag, or a default. *)
Definition attribute (name default m : string) : value :=
  match search false [Lit (name ++ "=" ++ q); Group (Not dq); Lit q] m with
  | Some (_, Some g) => Str g
  | _ => Str default
  end.

Definition listener (m : string) (index : nat) : Proxy.t :=
  Proxy.mk (Str ("HTTP_Listener_" ++ Js.ofNat (index + 1)))
    (attribute "path" "/default" m)
    (attribute "config-ref" "default-config" m)
    Undefined
    (Obj [("xml", Str m)]).

Definition dataWeave (m : string) (index : nat) : Transformation.t :=
  Transformation.mk (Str ("DataWeave_Transform_" ++ Js.ofNat (index + 1)))
    (Str "DataWeave") (Str "auto-detected") (Str "auto-detected")
    (Obj [("dataweave", Str m)]).

Section Runtime.
Variable RegExp_new : constructor.

Definition parseXmlContent (content : Buffer) : outcome exception arrays :=
  let contentStr := BaseParser.toString content in
  services <- forOf (flowStep RegExp_new contentStr)
                (matchAll false flowTag contentStr) [] ;;
  Return (services,
          mapi listener 0 (matchAll false listenerTag contentStr),
          mapi dataWeave 0 (matchAll false dataWeaveTag contentStr)).

End Runtime.

(** [flow.source?.type === t] *)
Definition sourceTypeIs (sourceType : value) (t : string) : bool :=
  match sourceType with
  | Str s => String.eqb s t
  | _ => false
  end.

Definition determineServiceTypeFromJson (flow : value) : outcome exception string :=
  source <- get flow "source" ;;
  sourceType <- getOpt source "type" ;;
  Return (if sourceTypeIs sourceType "http" then "REST"
          else if sourceTypeIs sourceType "soap" then "SOAP"
          else if sourceTypeIs sourceType "jms" then "JMS"
          else if sourceTypeIs sourceType "file" then "FILE"
          else "REST").

Definition extractMethodsFromJson (flow : value) : outcome exception value :=
  source <- get flow "source" ;;
  allowedMethods <- getOpt source "allowedMethods" ;;
  Return (if truthy allowedMethods then
            match allowedMethods with
            | Arr _ => allowedMethods
            | _ => Arr [allowedMethods]
            end
          else Arr [Str "GET"; Str "POST"]).

Definition jsonServiceOf (flow : value) : outcome exception Service.t :=
  name <- get flow "name" ;;
  type <- determineServiceTypeFromJson flow ;;
  source <- get flow "source" ;;
  path <- getOpt source "path" ;;
  endpoint <- get flow "endpoint" ;;
  methods <- extractMethodsFromJson flow ;;
  description <- get flow "description" ;;
  inputSchema <- get flow "inputSchema" ;;
  outputSchema <- get flow "outputSchema" ;;
  Return (Service.mk name type "MuleSoft" (or path endpoint) methods
            description inputSchema outputSchema).

Definition jsonProxyOf (connector : value) : outcome exception Proxy.t :=
  name <- get connector "name" ;;
  path <- get connector "path" ;;
  host <- get connector "host" ;;
  Return (Proxy.mk name path host Undefined connector).

Definition jsonTransformationOf (transform : value)
  : outcome exception Transformation.t :=
  name <- get transform "name" ;;
  type <- get transform "type" ;;
  inputMimeType <- get transform "inputMimeType" ;;
  outputMimeType <- get transform "outputMimeType" ;;
  script <- get transform "script" ;;
  Return (Transformation.mk name (or type (Str "DataWeave")) inputMimeType
            outputMimeType script).

Section Decoder.
Variable JSON_parse : string -> option value.
Variable RegExp_new : constructor.

Definition canParse (filename : string) (content : Buffer) : bool :=
  let ext := BaseParser.extractFileExtension filename in
  if oneOf ["jar"; "xml"; "json"] ext then true
  else if BaseParser.isXmlContent content then
    let contentStr := BaseParser.toString content in
    Js.includes contentStr "mule xmlns" ||
    Js.includes contentStr "http://www.mulesoft.org" ||
    Js.includes contentStr "mule-config"
  else if BaseParser.isJsonContent JSON_parse content then
    let contentStr := BaseParser.toString content in
    Js.includes contentStr (q ++ "muleVersion" ++ q) ||
    Js.includes contentStr (q ++ "flows" ++ q) ||
    Js.includes contentStr (q ++ "mule")
  else false.

Definition parseJsonContent (content : Buffer) : outcome exception arrays :=
  let contentStr := BaseParser.toString content in
  match JSON_parse contentStr with
  | Some muleConfig =>
      services <- BoomiParser.collect muleConfig "flows" jsonServiceOf ;;
      proxyServices <- BoomiParser.collect muleConfig "connectors" jsonProxyOf ;;
      transformations <-
        BoomiParser.collect muleConfig "transformations" jsonTransformationOf ;;
      Return (services, proxyServices, transformations)
  | None => Throw SyntaxError
  end.

Definition extract (content : Buffer) : outcome exception arrays :=
  if BaseParser.isXmlContent content then parseXmlContent RegExp_new content
  else if BaseParser.isJsonContent JSON_parse content then parseJsonContent content
  else Return ([], [], []).

Definition parse (now filename : string) (content : Buffer)
  : outcome Error ParseResult.t :=
  catch "MuleSoft"
    (a <- extract content ;; Return (resultOf "MuleSoft" now filename a)).

End Decoder.
End MuleSoftParser.

(** ** The registry *)

Module ParserRegistry.

(** What the registry uses of a [BaseParser]. *)
Record BaseParser := {
  platform : string;
  canParse : string -> Buffer -> bool;
  parse : string -> string -> Buffer -> outcome Error ParseResult.t
}.

Section Decoder.
Variable JSON_parse : string -> option value.
Variable RegExp_new : RegExp.constructor.

Definition parsers : list BaseParser :=
  [ {| platform := OSBParser.platform;
       canParse := OSBParser.canParse;
       parse := OSBParser.parse RegExp_new |};
    {| platform := BoomiParser.platform;
       canParse := BoomiParser.canParse JSON_parse;
       parse := BoomiParser.parse JSON_parse |};
    {| platform := TibcoParser.platform;
       canParse := TibcoParser.canParse;
       parse := TibcoParser.parse RegExp_new |};
    {| platform := MuleSoftParser.platform;
       canParse := MuleSoftParser.canParse JSON_parse;
       parse := MuleSoftParser.parse JSON_parse RegExp_new |} ].

(** [for (const parser of this.parsers) if (parser.canParse(...)) return ...] *)
Fixpoint first (ps : list BaseParser) (filename : string) (content : Buffer)
  : option BaseParser :=
  match ps with
  | [] => None
  | parser :: rest =>
      if canParse parser filename content then Some parser
      else first rest filename content
  end.

Definition detectPlatform (filename : string) (content : Buffer) : string :=
  match first parsers filename content with
  | Some parser => platform parser
  | None => "Unknown"
  end.

Definition parseFile (now filename : string) (content : Buffer)
  : outcome Error ParseResult.t :=
  match first parsers filename content with
  | Some parser => parse parser now filename content
  | None => Throw (NoParserFound filename)
  end.

Definition getSupportedPlatforms : list string := List.map platform parsers.

End Decoder.
End ParserRegistry.

(** ** A decoder of the JSON grammar

    [JSON.parse] for the concrete runs: the grammar of ECMA-404, [None] for
    the [SyntaxError].  A [\u] escape above 7F is stored as the bytes of its
    UTF-8 form, a surrogate pair as one character, consistently with text
    being bytes; a number is kept as its literal, and counts as zero when the
    runtime rounds it to zero: when it is not above half the least positive
    double, 2 to the power -1075. *)

Module JSON.

Definition isWhite (c : ascii) : bool :=
  let n := nat_of_ascii c in ((n =? 32) || (n =? 9) || (n =? 10) || (n =? 13))%nat.

Fixpoint skip (s : string) : string :=
  match s with
  | String c s' => if isWhite c then skip s' else s
  | EmptyString => EmptyString
  end.

Definition isDigit (c : ascii) : bool :=
  let n := nat_of_ascii c in ((48 <=? n) && (n <=? 57))%nat.

(** The longest run of digits at the head, and what follows. *)
Fixpoint digits (s : string) : string * string :=
  match s with
  | String c s' =>
      if isDigit c then let '(d, r) := digits s' in (String c d, r)
      else (EmptyString, s)
  | EmptyString => (EmptyString, EmptyString)
  end.

Definition fraction (s : string) : option (string * string) :=
  match s with
  | String "." s' =>
      match digits s' with
      | (EmptyString, _) => None
      | (d, r) => Some (d, r)
      end
  | _ => Some (EmptyString, s)
  end.

Definition exponent (s : string) : option (string * string) :=
  match s with
  | String e s' =>
      if Ascii.eqb e "e" || Ascii.eqb e "E" then
        let '(sign, s'') :=
          match s' with
          | String "+" t => ("+", t)
          | String "-" t => ("-", t)
          | _ => (EmptyString, s')
          end in
        match digits s'' with
        | (EmptyString, _) => None
        | (d, r) => Some (String e (sign ++ d), r)
        end
      else Some (EmptyString, s)
  | EmptyString => Some (EmptyString, s)
  end.

(** The number a run of digits denotes. *)
Fixpoint natural (acc : N) (s : string) : N :=
  match s with
  | String c s' => natural (acc * 10 + N.of_nat (nat_of_ascii c - 48)) s'
  | EmptyString => acc
  end.

(** Whether the number with the digits [int] and [frac] and the exponent part
    [ex] (empty, or the letter, a sign or none, digits) is above 2 to the
    power -1075. *)
Definition nonzero (int frac ex : string) : bool :=
  let m := natural 0 (int ++ frac) in
  let f := N.of_nat (String.length frac) in
  let above (k : N) := (10 ^ k <? m * 2 ^ 1075)%N in
  negb (N.eqb m 0) &&
  match ex with
  | String _ (String "-" d) => above (natural 0 d + f)%N
  | String _ (String "+" d) | String _ d =>
      let x := natural 0 d in
      if (f <=? x)%N then true else above (f - x)%N
  | EmptyString => above f
  end.

Definition number (s : string) : option (value * string) :=
  let '(sign, s1) := match s with
                     | String "-" t => ("-", t)
                     | _ => (EmptyString, s)
                     end in
  match digits s1 with
  | (EmptyString, _) => None
  | (int, s2) =>
      if (2 <=? String.length int)%nat && Js.startsWith int "0" then None
      else
        match fraction s2 with
        | None => None
        | Some (frac, s3) =>
            match exponent s3 with
            | None => None
            | Some (ex, s4) =>
                let point := if String.eqb frac "" then "" else "." in
                Some (Num (nonzero int frac ex)
                        (sign ++ int ++ point ++ frac ++ ex), s4)
            end
        end
  end.

Definition hex (c : ascii) : option nat :=
  let n := nat_of_ascii c in
  if ((48 <=? n) && (n <=? 57))%nat then Some (n - 48)
  else if ((97 <=? n) && (n <=? 102))%nat then Some (n - 87)
  else if ((65 <=? n) && (n <=? 70))%nat then Some (n - 55)
  else None.

Definition hex4 (a b c d : ascii) : option nat :=
  match hex a, hex b, hex c, hex d with
  | Some x, Some y, Some z, Some w => Some (((x * 16 + y) * 16 + z) * 16 + w)
  | _, _, _, _ => None
  end.

(** A character of a string literal: a byte of the text or the code unit of a
    [\u] escape. *)
Inductive unit16 :=
| Byte (c : ascii)
| Unit (n : nat).

Definition escape (e : ascii) : option ascii :=
  let n := nat_of_ascii e in
  if (n =? 34)%nat then Some dq
  else if (n =? 92)%nat then Some "\"%char
  else if (n =? 47)%nat then Some "/"%char
  else if (n =? 98)%nat then Some (ascii_of_nat 8)
  else if (n =? 102)%nat then Some (ascii_of_nat 12)
  else if (n =? 110)%nat then Some (ascii_of_nat 10)
  else if (n =? 114)%nat then Some (ascii_of_nat 13)
  else if (n =? 116)%nat then Some (ascii_of_nat 9)
  else None.

Definition more (u : unit16) (r : option (list unit16 * string))
  : option (list unit16 * string) :=
  match r with
  | Some (us, rest) => Some (u :: us, rest)
  | None => None
  end.

(** The characters of a string literal after its opening quote, and what
    follows the closing one. *)
Fixpoint literal (s : string) : option (list unit16 * string) :=
  match s with
  | EmptyString => None
  | String c s' =>
      if Ascii.eqb c dq then Some ([], s')
      else if Ascii.eqb c "\" then
        match s' with
        | String e s'' =>
            match escape e with
            | Some x => more (Byte x) (literal s'')
            | None =>
                if Ascii.eqb e "u" then
                  match s'' with
                  | String h1 (String h2 (String h3 (String h4 t))) =>
                      match hex4 h1 h2 h3 h4 with
                      | Some n => more (Unit n) (literal t)
                      | None => None
                      end
                  | _ => None
                  end
                else None
            end
        | EmptyString => None
        end
      else if (nat_of_ascii c <? 32)%nat then None
      else more (Byte c) (literal s')
  end.

Definition byte (n : nat) : string := String (ascii_of_nat n) EmptyString.

(** The UTF-8 form of a code point. *)
Definition utf8 (n : nat) : string :=
  if (n <? 128)%nat then byte n
  else if (n <? 2048)%nat then byte (192 + n / 64) ++ byte (128 + n mod 64)
  else if (n <? 65536)%nat then
    byte (224 + n / 4096) ++ byte (128 + (n / 64) mod 64) ++ byte (128 + n mod 64)
  else
    byte (240 + n / 262144) ++ byte (128 + (n / 4096) mod 64) ++
    byte (128 + (n / 64) mod 64) ++ byte (128 + n mod 64).

Definition isHigh (n : nat) : bool := ((55296 <=? n) && (n <? 56320))%nat.
Definition isLow (n : nat) : bool := ((56320 <=? n) && (n <? 57344))%nat.

Fixpoint encode (us : list unit16) : string :=
  match us with
  | [] => EmptyString
  | Byte c :: rest => String c (encode rest)
  | Unit n :: rest =>
      match rest with
      | Unit m :: rest' =>
          if isHigh n && isLow m
          then utf8 (65536 + (n - 55296) * 1024 + (m - 56320)) ++ encode rest'
          else utf8 n ++ encode rest
      | _ => utf8 n ++ encode rest
      end
  end.

Definition text (s : string) : option (string * string) :=
  match literal s with
  | Some (us, rest) => Some (encode us, rest)
  | None => None
  end.

Section Composite.
Variable element : string -> option (value * string).

(** The elements of an array after the first, up to the closing bracket. *)
Fixpoint elements (fuel : nat) (s : string) : option (list value * string) :=
  match fuel with
  | O => None
  | S n =>
      match skip s with
      | String "]" r => Some ([], r)
      | String "," r =>
          match element r with
          | Some (v, r') =>
              match elements n r' with
              | Some (vs, r'') => Some (v :: vs, r'')
              | None => None
              end
          | None => None
          end
      | _ => None
      end
  end.

(** One member: a string, a colon, a value. *)
Definition member (s : string) : option ((string * value) * string) :=
  match skip s with
  | String c r =>
      if Ascii.eqb c dq then
        match text r with
        | Some (key, r') =>
            match skip r' with
            | String ":" r'' =>
                match element r'' with
                | Some (v, r3) => Some ((key, v), r3)
                | None => None
                end
            | _ => None
            end
        | None => None
        end
      else None
  | EmptyString => None
  end.

(** The members of an object after the first, up to the closing brace. *)
Fixpoint members (fuel : nat) (s : string)
  : option (list (string * value) * string) :=
  match fuel with
  | O => None
  | S n =>
      match skip s with
      | String "}" r => Some ([], r)
      | String "," r =>
          match member r with
          | Some (kv, r') =>
              match members n r' with
              | Some (kvs, r'') => Some (kv :: kvs, r'')
              | None => None
              end
          | None => None
          end
      | _ => None
      end
  end.

End Composite.

(** A value, white space before it allowed, and what follows it.  Each level
    of nesting consumes a character, so [fuel] above the length of the text is
    never exhausted. *)
Fixpoint element (fuel : nat) (s : string) : option (value * string) :=
  match fuel with
  | O => None
  | S n =>
      let s0 := skip s in
      match s0 with
      | EmptyString => None
      | String c r =>
          if Ascii.eqb c "{" then
            match skip r with
            | String "}" r' => Some (Obj [], r')
            | _ =>
                match member (element n) r with
                | Some (kv, r') =>
                    match members (element n) (String.length r') r' with
                    | Some (kvs, r'') => Some (Obj (kv :: kvs), r'')
                    | None => None
                    end
                | None => None
                end
            end
          else if Ascii.eqb c "[" then
            match skip r with
            | String "]" r' => Some (Arr [], r')
            | _ =>
                match element n r with
                | Some (v, r') =>
                    match elements (element n) (String.length r') r' with
                    | Some (vs, r'') => Some (Arr (v :: vs), r'')
                    | None => None
                    end
                | None => None
                end
            end
          else if Ascii.eqb c dq then
            match text r with
            | Some (t, r') => Some (Str t, r')
            | None => None
            end
          else if Js.startsWith s0 "true" then Some (Bool true, String.substring 4 (String.length s0) s0)
          else if Js.startsWith s0 "false" then Some (Bool false, String.substring 5 (String.length s0) s0)
          else if Js.startsWith s0 "null" then Some (Null, String.substring 4 (String.length s0) s0)
          else number s0
      end
  end.

Definition parse (s : string) : option value :=
  match element (S (String.length s)) s with
  | Some (v, r) => match skip r with EmptyString => Some v | _ => None end
  | None => None
  end.

End JSON.

(** * Vocabulary of the properties *)

(** Some matcher accepts the artifact. *)
Definition accepted (JSON_parse : string -> option value)
    (filename : string) (content : Buffer) : bool :=
  OSBParser.canParse filename content ||
  BoomiParser.canParse JSON_parse filename content ||
  TibcoParser.canParse filename content ||
  MuleSoftParser.canParse JSON_parse filename content.

(** The signature markers of each platform, as its matcher reads them. *)
Definition osbMarker (c : string) : bool :=
  Js.includes c "xmlns:osb" || Js.includes c "proxy-service" ||
  Js.includes c "business-service".

Definition boomiMarker (c : string) : bool :=
  Js.includes c (q ++ "componentType" ++ q) ||
  Js.includes c (q ++ "processId" ++ q) || Js.includes c (q ++ "boomi").

Definition tibcoMarker (c : string) : bool :=
  Js.includes c "xmlns:tibco" || Js.includes c "pd:ProcessDefinition" ||
  Js.includes c "tibco.plugin".

Definition muleXmlMarker (c : string) : bool :=
  Js.includes c "mule xmlns" || Js.includes c "http://www.mulesoft.org" ||
  Js.includes c "mule-config".

Definition muleJsonMarker (c : string) : bool :=
  Js.includes c (q ++ "muleVersion" ++ q) ||
  Js.includes c (q ++ "flows" ++ q) || Js.includes c (q ++ "mule").

Definition recognizable (c : string) : bool :=
  osbMarker c || boomiMarker c || tibcoMarker c || muleXmlMarker c ||
  muleJsonMarker c.

(** The extensions on the allow-list of some matcher. *)
Definition listed : list string := ["ear"; "jar"; "zip"; "json"; "xml"; "process"].

(** The enumerated values of [type] and [platform]. *)
Definition serviceTypes : list string := ["REST"; "SOAP"; "JMS"; "FILE"].
Definition platforms : list string := ["OSB"; "Boomi"; "Tibco"; "MuleSoft"].




(** The result of a parse that found nothing. *)
Definition emptyResult (platform now filename : string) : ParseResult.t :=
  resultOf platform now filename ([], [], []).

(** The artifact is recognized: a platform is detected and [parseFile] does
    not throw the registry's error. *)
Definition recognized (JSON_parse : string -> option value)
    (RegExp_new : RegExp.constructor)
    (filename : string) (content : Buffer) : Prop :=
  ParserRegistry.detectPlatform JSON_parse RegExp_new filename content
  <> "Unknown" /\
  forall now name,
    ParserRegistry.parseFile JSON_parse RegExp_new now filename content
    <> Throw (NoParserFound name).

(** A service of a platform whose type is one of the enumerated values. *)
Definition enumerated (platform : string) (s : Service.t) : Prop :=
  In (Service.type s) serviceTypes /\ Service.platform s = platform.

(** A name that a pattern of opening tags captures in a text: the value of
    the attribute [name] of a tag it matches. *)
Definition captured (tag : RegExp.regex) (contentStr : string) (name : value)
  : Prop :=
  exists m n,
    In m (RegExp.matchAll false tag contentStr) /\
    BaseParser.nameMatch m = Some n /\ name = Str n.

(** An element that a parser visits under a key of a decoded document. *)
Definition entry (config : value) (key : string) (x : value) : Prop :=
  exists entries xs,
    get config key = Return entries /\ truthy entries = true /\
    iterate entries = Return xs /\ In x xs.

(** The name that an artifact provides for a service of a platform.  In XML:
    the name captured in an opening tag of the platform.  In a Boomi
    document: the name of a process or, when that is falsy, its [processId].
    In a MuleSoft JSON document: the name of a flow. *)
Definition named (JSON_parse : string -> option value) (platform : string)
    (content : Buffer) (name : value) : Prop :=
  let contentStr := BaseParser.toString content in
  (platform = "OSB" /\ captured OSBParser.proxyTag contentStr name) \/
  (platform = "Tibco" /\ captured TibcoParser.processTag contentStr name) \/
  (platform = "MuleSoft" /\
   (captured MuleSoftParser.flowTag contentStr name \/
    exists config flow,
      JSON_parse contentStr = Some config /\ entry config "flows" flow /\
      get flow "name" = Return name)) \/
  (platform = "Boomi" /\
   exists config process n id,
     JSON_parse contentStr = Some config /\ entry config "processes" process /\
     get process "name" = Return n /\ get process "processId" = Return id /\
     name = or n id).

(** A service of a platform, named by a name captured in the text. *)
Definition tagged (platform : string) (tag : RegExp.regex) (contentStr : string)
    (s : Service.t) : Prop :=
  enumerated platform s /\ captured tag contentStr (Service.name s).

(** The configuration that the OSB extractor reads for the block found, or
    for none. *)
Definition configFor (found : option string) : value :=
  match found with
  | Some serviceXml => OSBParser.configOf serviceXml
  | None => Obj []
  end.

(** A name that is a string with at least one character. *)
Definition nonEmptyName (v : value) : Prop :=
  exists s, v = Str s /\ s <> "".

(** A member is absent or holds a string. *)
Definition stringOrAbsent (key : string) (members : list (string * value)) : Prop :=
  lookup key members = None \/ exists s, lookup key members = Some (Str s).

(** The artifacts the properties are run on. *)
Module Sample.

Definition now : string := "2025-01-01T00:00:00.000Z".

(** The document of the end-to-end scenario. *)
Definition mulesoft_xml : Buffer :=
  "<mule xmlns=" ++ q ++ "http://www.mulesoft.org" ++ q ++ "><flow name=" ++ q
  ++ "OrderFlow" ++ q ++ "><http:listener path=" ++ q ++ "/orders" ++ q
  ++ " allowedMethods=" ++ q ++ "GET,POST" ++ q ++ "/></flow></mule>".

(** Tibco and MuleSoft markers, and an OSB one. *)
Definition three_markers : Buffer :=
  "<proxy-service/><pd:ProcessDefinition/><mule xmlns=" ++ q ++ "m" ++ q ++ "/>".

(** Tibco and MuleSoft markers only. *)
Definition two_markers : Buffer :=
  "<pd:ProcessDefinition/><mule xmlns=" ++ q ++ "m" ++ q ++ "/>".

(** An OSB proxy service without a name. *)
Definition osb_nameless : Buffer := "<proxy-service name=" ++ q ++ q ++ ">".

(** An OSB proxy service, not a REST one, without [http:method] tags. *)
Definition osb_soap : Buffer :=
  "<proxy-service name=" ++ q ++ "Billing" ++ q
  ++ "><endpoint-uri>/billing</endpoint-uri></proxy-service>".

(** An OSB proxy service, a REST one, without [http:method] tags. *)
Definition osb_rest : Buffer :=
  "<proxy-service name=" ++ q ++ "Billing" ++ q
  ++ "><rest-binding/><endpoint-uri>/billing</endpoint-uri></proxy-service>".

(** A Boomi document: one process with a name, one without. *)
Definition boomi_two : Buffer :=
  "{" ++ q ++ "processes" ++ q ++ ":[{" ++ q ++ "name" ++ q ++ ":" ++ q
  ++ "Orders" ++ q ++ "},{" ++ q ++ "endpoint" ++ q ++ ":" ++ q ++ "/x" ++ q
  ++ "}]}".

(** A Boomi marker in a JSON text. *)
Definition boomi_marker : Buffer :=
  "{" ++ q ++ "componentType" ++ q ++ ":" ++ q ++ "process" ++ q ++ "}".

(** Not JSON at all. *)
Definition garbage : Buffer := "this is not json".

(** The opening tag of [osb_rest] and of [osb_soap]. *)
Definition billing_tag : string :=
  "<proxy-service name=" ++ q ++ "Billing" ++ q ++ ">".

(** What [boomi_two] decodes to, and the two services it gives. *)
Definition boomi_two_members : list (string * value) :=
  [("processes",
    Arr [Obj [("name", Str "Orders")]; Obj [("endpoint", Str "/x")]])].

Definition orders : Service.t :=
  Service.mk (Str "Orders") "REST" "Boomi" Undefined (Arr [Str "POST"])
    Undefined Undefined Undefined.

Definition nameless : Service.t :=
  Service.mk Undefined "REST" "Boomi" (Str "/x") (Arr [Str "POST"])
    Undefined Undefined Undefined.

Definition boomi_two_result : ParseResult.t :=
  resultOf "Boomi" now "processes.json" ([orders; nameless], [], []).

End Sample.

(** * The callers of the registry *)

(** ** client/src/lib/file-utils.ts *)

Module FileUtils.

(** [filename.split('.').pop()?.toLowerCase()] *)
Definition extension (filename : string) : option string :=
  option_map Js.toLowerCase (Js.pop (Js.split "." filename)).

Definition getFileIcon (filename : string) : string :=
  match extension filename with
  | Some e =>
      if oneOf ["jar"; "ear"] e then "fas fa-file-archive"
      else if String.eqb e "xml" then "fas fa-file-code"
      else if String.eqb e "json" then "fas fa-file-alt"
      else if String.eqb e "zip" then "fas fa-file-archive"
      else "fas fa-file"
  | None => "fas fa-file"
  end.

(** [validateFileType], on the name of the file. *)
Definition validateFileType (name : string) : bool :=
  let allowedTypes := [".jar"; ".ear"; ".zip"; ".xml"; ".json"] in
  let extension := "." ++ match extension name with
                          | Some e => e
                          | None => "undefined"
                          end in
  oneOf allowedTypes extension.

End FileUtils.

(** ** The records of shared/schema.ts, as storage.ts keeps them *)

(** What [processFile] and [getProcessingStatus] throw: an error of the
    registry or of a parser, an exception raised while storing, or
    [new Error("File not found")]. *)
Inductive failure :=
| ParserError (e : Error)
| Raised (e : exception)
| FileNotFound.

(** [v || null] *)
Definition orNull (v : value) : value := if truthy v then v else Null.

Module UploadedFile.
(** [platform] and [errorMessage] are nullable; an error message is kept as
    the error it is the message of. *)
Record t := mk {
  id : nat;
  filename : string;
  originalName : string;
  size : nat;
  mimeType : string;
  platform : option string;
  status : string;
  errorMessage : option failure;
  uploadedAt : string
}.

(** [InsertUploadedFile]: no [id], no [uploadedAt]; three optional fields. *)
Record insert := mkInsert {
  i_filename : string;
  i_originalName : string;
  i_size : nat;
  i_mimeType : string;
  i_platform : option string;
  i_status : option string;
  i_errorMessage : option failure
}.

(** [Partial<UploadedFile>]: a field that is set overrides. *)
Record partial := mkPartial {
  p_id : option nat;
  p_filename : option string;
  p_originalName : option string;
  p_size : option nat;
  p_mimeType : option string;
  p_platform : option (option string);
  p_status : option string;
  p_errorMessage : option (option failure);
  p_uploadedAt : option string
}.

Definition nothing : partial :=
  mkPartial None None None None None None None None None.

Definition over {A} (update : option A) (old : A) : A :=
  match update with
  | Some x => x
  | None => old
  end.

(** [{ ...file, ...updates }] *)
Definition merge (file : t) (updates : partial) : t :=
  mk (over (p_id updates) (id file))
     (over (p_filename updates) (filename file))
     (over (p_originalName updates) (originalName file))
     (over (p_size updates) (size file))
     (over (p_mimeType updates) (mimeType file))
     (over (p_platform updates) (platform file))
     (over (p_status updates) (status file))
     (over (p_errorMessage updates) (errorMessage file))
     (over (p_uploadedAt updates) (uploadedAt file)).

End UploadedFile.

Module StoredService.
Record insert := mkInsert {
  i_fileId : nat;
  i_name : value;
  i_type : string;
  i_endpoint : value;
  i_method : value;
  i_description : value;
  i_requestSchema : value;
  i_responseSchema : value;
  i_configuration : value
}.

Record t := mk {
  id : nat;
  fileId : nat;
  name : value;
  type : string;
  endpoint : value;
  method : value;
  description : value;
  requestSchema : value;
  responseSchema : value;
  configuration : value
}.
End StoredService.

Module StoredProxy.
Record insert := mkInsert {
  i_fileId : nat;
  i_name : value;
  i_serviceUri : value;
  i_endpointUri : value;
  i_wsdlResource : value;
  i_configuration : value
}.

Record t := mk {
  id : nat;
  fileId : nat;
  name : value;
  serviceUri : value;
  endpointUri : value;
  wsdlResource : value;
  configuration : value
}.
End StoredProxy.

Module StoredTransformation.
Record insert := mkInsert {
  i_fileId : nat;
  i_name : value;
  i_type : value;
  i_sourceSchema : value;
  i_targetSchema : value;
  i_mappingConfiguration : value
}.

Record t := mk {
  id : nat;
  fileId : nat;
  name : value;
  type : value;
  sourceSchema : value;
  targetSchema : value;
  mappingConfiguration : value
}.
End StoredTransformation.

Module DocumentTemplate.
Record insert := mkInsert {
  i_name : string;
  i_description : option string;
  i_sections : value;
  i_isDefault : option bool
}.

Record t := mk {
  id : nat;
  name : string;
  description : option string;
  sections : value;
  isDefault : option bool
}.
End DocumentTemplate.

(** ** storage.ts *)

(** A [Map<number, V>]: its entries in the order of insertion, which is the
    order of [values()]; [set] on a key already there keeps its place. *)
Module NumberMap.

Definition t (V : Type) : Type := list (nat * V).

Fixpoint get {V} (m : t V) (key : nat) : option V :=
  match m with
  | [] => None
  | (k, v) :: rest => if Nat.eqb k key then Some v else get rest key
  end.

Fixpoint set {V} (m : t V) (key : nat) (v : V) : t V :=
  match m with
  | [] => [(key, v)]
  | (k, x) :: rest =>
      if Nat.eqb k key then (k, v) :: rest else (k, x) :: set rest key v
  end.

(** [m.delete(key)]: whether the key was there, and the map without it. *)
Fixpoint delete {V} (m : t V) (key : nat) : bool * t V :=
  match m with
  | [] => (false, [])
  | (k, x) :: rest =>
      if Nat.eqb k key then (true, rest)
      else let '(found, rest') := delete rest key in (found, (k, x) :: rest')
  end.

(** [Array.from(m.values())] *)
Definition values {V} (m : t V) : list V := List.map snd m.

Definition keys {V} (m : t V) : list nat := List.map fst m.

End NumberMap.

Module MemStorage.

Record t := mk {
  uploadedFiles : NumberMap.t UploadedFile.t;
  services : NumberMap.t StoredService.t;
  proxyServices : NumberMap.t StoredProxy.t;
  transformations : NumberMap.t StoredTransformation.t;
  documentTemplates : NumberMap.t DocumentTemplate.t;
  currentFileId : nat;
  currentServiceId : nat;
  currentProxyServiceId : nat;
  currentTransformationId : nat;
  currentTemplateId : nat
}.

Definition defaultTemplate : DocumentTemplate.t :=
  DocumentTemplate.mk 1 "Standard Service Design Document"
    (Some "Comprehensive service design document with all sections")
    (Arr [Str "restServiceSpecs"; Str "wsdlDocumentation";
          Str "requestResponseMapping"; Str "flowDiagrams";
          Str "errorHandlingPatterns"])
    (Some true).

Definition enterpriseTemplate : DocumentTemplate.t :=
  DocumentTemplate.mk 2 "Enterprise Integration Specification"
    (Some "Enterprise-focused integration documentation")
    (Arr [Str "restServiceSpecs"; Str "wsdlDocumentation";
          Str "requestResponseMapping"; Str "flowDiagrams"; Str "umlDiagrams";
          Str "errorHandlingPatterns"; Str "securitySpecifications"])
    (Some false).

(** [new MemStorage()], the two default templates registered.  (The map of
    generated documents, which no function modelled here reads, is left
    out.) *)
Definition create : t :=
  mk [] [] [] []
     (NumberMap.set (NumberMap.set [] 1 defaultTemplate) 2 enterpriseTemplate)
     1 1 1 1 3.

(** [s || null] on an optional string. *)
Definition textOrNull (s : option string) : option string :=
  match s with
  | Some x => if String.eqb x "" then None else Some x
  | None => None
  end.

Definition createUploadedFile (now : string) (st : t)
    (file : UploadedFile.insert) : UploadedFile.t * t :=
  let id := currentFileId st in
  let uploadedFile :=
    UploadedFile.mk id (UploadedFile.i_filename file)
      (UploadedFile.i_originalName file) (UploadedFile.i_size file)
      (UploadedFile.i_mimeType file)
      (textOrNull (UploadedFile.i_platform file))
      (match textOrNull (UploadedFile.i_status file) with
       | Some s => s
       | None => "uploaded"
       end)
      (UploadedFile.i_errorMessage file)
      now in
  (uploadedFile,
   mk (NumberMap.set (uploadedFiles st) id uploadedFile) (services st)
      (proxyServices st) (transformations st) (documentTemplates st)
      (S id) (currentServiceId st) (currentProxyServiceId st)
      (currentTransformationId st) (currentTemplateId st)).

Definition getUploadedFile (st : t) (id : nat) : option UploadedFile.t :=
  NumberMap.get (uploadedFiles st) id.

Definition getAllUploadedFiles (st : t) : list UploadedFile.t :=
  NumberMap.values (uploadedFiles st).

Definition withUploadedFiles (st : t) (m : NumberMap.t UploadedFile.t) : t :=
  mk m (services st) (proxyServices st) (transformations st)
     (documentTemplates st) (currentFileId st) (currentServiceId st)
     (currentProxyServiceId st) (currentTransformationId st)
     (currentTemplateId st).

Definition updateUploadedFile (st : t) (id : nat)
    (updates : UploadedFile.partial) : option UploadedFile.t * t :=
  match NumberMap.get (uploadedFiles st) id with
  | Some file =>
      let updatedFile := UploadedFile.merge file updates in
      (Some updatedFile,
       withUploadedFiles st (NumberMap.set (uploadedFiles st) id updatedFile))
  | None => (None, st)
  end.

Definition deleteUploadedFile (st : t) (id : nat) : bool * t :=
  let '(found, m) := NumberMap.delete (uploadedFiles st) id in
  (found, withUploadedFiles st m).

Definition createService (st : t) (service : StoredService.insert)
  : StoredService.t * t :=
  let id := currentServiceId st in
  let newService :=
    StoredService.mk id (StoredService.i_fileId service)
      (StoredService.i_name service) (StoredService.i_type service)
      (orNull (StoredService.i_endpoint service))
      (orNull (StoredService.i_method service))
      (orNull (StoredService.i_description service))
      (orNull (StoredService.i_requestSchema service))
      (orNull (StoredService.i_responseSchema service))
      (orNull (StoredService.i_configuration service)) in
  (newService,
   mk (uploadedFiles st) (NumberMap.set (services st) id newService)
      (proxyServices st) (transformations st) (documentTemplates st)
      (currentFileId st) (S id) (currentProxyServiceId st)
      (currentTransformationId st) (currentTemplateId st)).

Definition getServicesByFileId (st : t) (fileId : nat) : list StoredService.t :=
  filter (fun service => Nat.eqb (StoredService.fileId service) fileId)
    (NumberMap.values (services st)).

Definition getAllServices (st : t) : list StoredService.t :=
  NumberMap.values (services st).

Definition deleteService (st : t) (id : nat) : bool * t :=
  let '(found, m) := NumberMap.delete (services st) id in
  (found,
   mk (uploadedFiles st) m (proxyServices st) (transformations st)
      (documentTemplates st) (currentFileId st) (currentServiceId st)
      (currentProxyServiceId st) (currentTransformationId st)
      (currentTemplateId st)).

Definition createProxyService (st : t) (proxyService : StoredProxy.insert)
  : StoredProxy.t * t :=
  let id := currentProxyServiceId st in
  let newProxyService :=
    StoredProxy.mk id (StoredProxy.i_fileId proxyService)
      (StoredProxy.i_name proxyService)
      (orNull (StoredProxy.i_serviceUri proxyService))
      (orNull (StoredProxy.i_endpointUri proxyService))
      (orNull (StoredProxy.i_wsdlResource proxyService))
      (orNull (StoredProxy.i_configuration proxyService)) in
  (newProxyService,
   mk (uploadedFiles st) (services st)
      (NumberMap.set (proxyServices st) id newProxyService)
      (transformations st) (documentTemplates st)
      (currentFileId st) (currentServiceId st) (S id)
      (currentTransformationId st) (currentTemplateId st)).

Definition getProxyServicesByFileId (st : t) (fileId : nat) : list StoredProxy.t :=
  filter (fun proxy => Nat.eqb (StoredProxy.fileId proxy) fileId)
    (NumberMap.values (proxyServices st)).

Definition getAllProxyServices (st : t) : list StoredProxy.t :=
  NumberMap.values (proxyServices st).

Definition createTransformation (st : t)
    (transformation : StoredTransformation.insert)
  : StoredTransformation.t * t :=
  let id := currentTransformationId st in
  let newTransformation :=
    StoredTransformation.mk id (StoredTransformation.i_fileId transformation)
      (StoredTransformation.i_name transformation)
      (StoredTransformation.i_type transformation)
      (orNull (StoredTransformation.i_sourceSchema transformation))
      (orNull (StoredTransformation.i_targetSchema transformation))
      (orNull (StoredTransformation.i_mappingConfiguration transformation)) in
  (newTransformation,
   mk (uploadedFiles st) (services st) (proxyServices st)
      (NumberMap.set (transformations st) id newTransformation)
      (documentTemplates st)
      (currentFileId st) (currentServiceId st) (currentProxyServiceId st)
      (S id) (currentTemplateId st)).

Definition getTransformationsByFileId (st : t) (fileId : nat)
  : list StoredTransformation.t :=
  filter (fun transform => Nat.eqb (StoredTransformation.fileId transform) fileId)
    (NumberMap.values (transformations st)).

Definition getAllTransformations (st : t) : list StoredTransformation.t :=
  NumberMap.values (transformations st).

(** [b || null] on an optional boolean. *)
Definition flagOrNull (b : option bool) : option bool :=
  match b with
  | Some true => Some true
  | _ => None
  end.

Definition createDocumentTemplate (st : t) (template : DocumentTemplate.insert)
  : DocumentTemplate.t * t :=
  let id := currentTemplateId st in
  let newTemplate :=
    DocumentTemplate.mk id (DocumentTemplate.i_name template)
      (textOrNull (DocumentTemplate.i_description template))
      (orNull (DocumentTemplate.i_sections template))
      (flagOrNull (DocumentTemplate.i_isDefault template)) in
  (newTemplate,
   mk (uploadedFiles st) (services st) (proxyServices st) (transformations st)
      (NumberMap.set (documentTemplates st) id newTemplate)
      (currentFileId st) (currentServiceId st) (currentProxyServiceId st)
      (currentTransformationId st) (S id)).

Definition getAllDocumentTemplates (st : t) : list DocumentTemplate.t :=
  NumberMap.values (documentTemplates st).

(** [find(template => template.isDefault)] *)
Definition getDefaultTemplate (st : t) : option DocumentTemplate.t :=
  find (fun template => match DocumentTemplate.isDefault template with
                        | Some b => b
                        | None => false
                        end)
    (NumberMap.values (documentTemplates st)).

End MemStorage.

(** ** server/routes.ts: the upload filter and the progress figure *)

Module Routes.

Inductive verdict :=
| Accept
| Reject (message : string).   (* File type ... not supported *)

(** The [fileFilter] of the upload, on [file.originalname]. *)
Definition fileFilter (originalname : string) : verdict :=
  let allowedTypes := [".jar"; ".ear"; ".zip"; ".xml"; ".json"] in
  let ext := "." ++ match FileUtils.extension originalname with
                    | Some e => e
                    | None => "undefined"
                    end in
  if oneOf allowedTypes ext then Accept
  else Reject ("File type " ++ ext ++ " not supported").

(** [f.platform], as a condition. *)
Definition hasPlatform (f : UploadedFile.t) : bool :=
  match UploadedFile.platform f with
  | Some p => negb (String.eqb p "")
  | None => false
  end.

Definition isParsed (f : UploadedFile.t) : bool :=
  String.eqb (UploadedFile.status f) "parsed".

Definition calculateProgress {S P T : Type} (files : list UploadedFile.t)
    (services : list S) (proxyServices : list P) (transformations : list T)
  : nat :=
  if Nat.eqb (List.length files) 0 then 0
  else
    let progress := 0 in
    let progress :=
      if Nat.ltb 0 (List.length files) && forallb hasPlatform files
      then progress + 25 else progress in
    let progress :=
      if Nat.ltb 0 (List.length files) && forallb isParsed files
      then progress + 25 else progress in
    let progress :=
      if Nat.ltb 0 (List.length services) then progress + 25 else progress in
    let progress :=
      if Nat.ltb 0 (List.length services) then progress + 25 else progress in
    progress.

End Routes.

(** ** services/file-processor.ts

    [service.methods?.join(', ')] and [JSON.stringify] turn values into text
    by the rules of the runtime: the processor is defined over arbitrary
    [Array_join] and [JSON_stringify].  [join] throws a [TypeError] when an
    element has no primitive value, which is [None] here; [JSON.stringify]
    does not throw on what the parsers build. *)

Module FileProcessor.

(** The service, as the object it is ([service as any]). *)
Definition asAny (service : Service.t) : value :=
  Obj [("name", Service.name service);
       ("type", Str (Service.type service));
       ("platform", Str (Service.platform service));
       ("endpoint", Service.endpoint service);
       ("methods", Service.methods service);
       ("description", Service.description service);
       ("requestSchema", Service.requestSchema service);
       ("responseSchema", Service.responseSchema service)].

(** What a step of [processFile] leaves: the storage, and how it ended. *)
Definition step : Type := (MemStorage.t * outcome failure unit)%type.

(** [for (const x of l) { await body(x) }] over the storage. *)
Fixpoint forEach {A} (body : MemStorage.t -> A -> step) (l : list A)
    (st : MemStorage.t) : step :=
  match l with
  | [] => (st, Return tt)
  | x :: l' =>
      match body st x with
      | (st', Return _) => forEach body l' st'
      | stopped => stopped
      end
  end.

(** The status, the services and the rest of a file, as
    [getProcessingStatus] reports them. *)
Record report := mkReport {
  file : UploadedFile.t;
  services : list StoredService.t;
  proxyServices : list StoredProxy.t;
  transformations : list StoredTransformation.t;
  status : string;
  platform : option string
}.

Section Runtime.
Variable JSON_parse : string -> option value.
Variable RegExp_new : RegExp.constructor.
Variable JSON_stringify : value -> value.
Variable Array_join : list value -> string -> option string.

(** [methods?.join(', ')] *)
Definition joinMethods (methods : value) : outcome exception value :=
  match methods with
  | Undefined | Null => Return Undefined
  | Arr l =>
      match Array_join l ", " with
      | Some text => Return (Str text)
      | None => Throw CannotConvert
      end
  | _ => Throw (NotAFunction "join")
  end.

Definition storeService (fileId : nat) (st : MemStorage.t)
    (service : Service.t) : step :=
  match joinMethods (Service.methods service) with
  | Return method =>
      let insertService :=
        StoredService.mkInsert fileId (Service.name service)
          (Service.type service) (Service.endpoint service) method
          (Service.description service)
          (JSON_stringify (Service.requestSchema service))
          (JSON_stringify (Service.responseSchema service))
          (asAny service) in
      (snd (MemStorage.createService st insertService), Return tt)
  | Throw e => (st, Throw (Raised e))
  end.

Definition storeProxyService (fileId : nat) (st : MemStorage.t)
    (proxyService : Proxy.t) : step :=
  let insertProxyService :=
    StoredProxy.mkInsert fileId (Proxy.name proxyService)
      (Proxy.serviceUri proxyService) (Proxy.endpointUri proxyService)
      (Proxy.wsdlResource proxyService) (Proxy.configuration proxyService) in
  (snd (MemStorage.createProxyService st insertProxyService), Return tt).

Definition storeTransformation (fileId : nat) (st : MemStorage.t)
    (transformation : Transformation.t) : step :=
  let insertTransformation :=
    StoredTransformation.mkInsert fileId (Transformation.name transformation)
      (Transformation.type transformation)
      (Transformation.sourceSchema transformation)
      (Transformation.targetSchema transformation)
      (Transformation.mappingConfiguration transformation) in
  (snd (MemStorage.createTransformation st insertTransformation), Return tt).

Definition setStatus (status : string) : UploadedFile.partial :=
  UploadedFile.mkPartial None None None None None None (Some status) None None.

Definition setPlatform (platform : string) : UploadedFile.partial :=
  UploadedFile.mkPartial None None None None None (Some (Some platform))
    None None None.

Definition setError (errorMessage : failure) : UploadedFile.partial :=
  UploadedFile.mkPartial None None None None None None (Some "error")
    (Some (Some errorMessage)) None.

(** The [try] block of [processFile]. *)
Definition attempt (now : string) (fileId : nat) (filename : string)
    (content : Buffer) (st : MemStorage.t) : step :=
  let st := snd (MemStorage.updateUploadedFile st fileId (setStatus "processing")) in
  let platform :=
    ParserRegistry.detectPlatform JSON_parse RegExp_new filename content in
  let st := snd (MemStorage.updateUploadedFile st fileId (setPlatform platform)) in
  match ParserRegistry.parseFile JSON_parse RegExp_new now filename content with
  | Return parseResult =>
      match forEach (storeService fileId)
              (ParseResult.services parseResult) st with
      | (st, Return _) =>
          match forEach (storeProxyService fileId)
                  (ParseResult.proxyServices parseResult) st with
          | (st, Return _) =>
              match forEach (storeTransformation fileId)
                      (ParseResult.transformations parseResult) st with
              | (st, Return _) =>
                  (snd (MemStorage.updateUploadedFile st fileId
                          (setStatus "parsed")), Return tt)
              | stopped => stopped
              end
          | stopped => stopped
          end
      | stopped => stopped
      end
  | Throw e => (st, Throw (ParserError e))
  end.

(** [processFile]: the [catch] records the error on the file and throws it
    again. *)
Definition processFile (now : string) (fileId : nat) (filename : string)
    (content : Buffer) (st : MemStorage.t) : step :=
  match attempt now fileId filename content st with
  | (st', Throw error) =>
      (snd (MemStorage.updateUploadedFile st' fileId (setError error)),
       Throw error)
  | done => done
  end.

End Runtime.

Definition getProcessingStatus (fileId : nat) (st : MemStorage.t)
  : outcome failure report :=
  match MemStorage.getUploadedFile st fileId with
  | None => Throw FileNotFound
  | Some file =>
      Return (mkReport file
                (MemStorage.getServicesByFileId st fileId)
                (MemStorage.getProxyServicesByFileId st fileId)
                (MemStorage.getTransformationsByFileId st fileId)
                (UploadedFile.status file) (UploadedFile.platform file))
  end.

End FileProcessor.

(** * Vocabulary of the properties of the callers *)

(** The keys of a map are distinct, as those of a [Map] are, and below the
    counter that numbers its next entry. *)
Definition below {V} (m : NumberMap.t V) (next : nat) : Prop :=
  NoDup (NumberMap.keys m) /\ Forall (fun k => k < next) (NumberMap.keys m).

(** The counters of a storage are ahead of the keys in use. *)
Definition ahead (st : MemStorage.t) : Prop :=
  below (MemStorage.uploadedFiles st) (MemStorage.currentFileId st) /\
  below (MemStorage.services st) (MemStorage.currentServiceId st) /\
  below (MemStorage.proxyServices st) (MemStorage.currentProxyServiceId st) /\
  below (MemStorage.transformations st) (MemStorage.currentTransformationId st) /\
  below (MemStorage.documentTemplates st) (MemStorage.currentTemplateId st).

(** A storage grown from another by records of one file: the uploaded files
    and the templates are the same, and the services, proxies and
    transformations of the first are followed by new ones, all of that file. *)
Definition extends (fileId : nat) (st st' : MemStorage.t)
    (ss : list StoredService.t) (ps : list StoredProxy.t)
    (ts : list StoredTransformation.t) : Prop :=
  MemStorage.uploadedFiles st' = MemStorage.uploadedFiles st /\
  MemStorage.currentFileId st' = MemStorage.currentFileId st /\
  MemStorage.documentTemplates st' = MemStorage.documentTemplates st /\
  MemStorage.currentTemplateId st' = MemStorage.currentTemplateId st /\
  MemStorage.getAllServices st' = (MemStorage.getAllServices st ++ ss)%list /\
  MemStorage.getAllProxyServices st'
    = (MemStorage.getAllProxyServices st ++ ps)%list /\
  MemStorage.getAllTransformations st'
    = (MemStorage.getAllTransformations st ++ ts)%list /\
  Forall (fun x => StoredService.fileId x = fileId) ss /\
  Forall (fun x => StoredProxy.fileId x = fileId) ps /\
  Forall (fun x => StoredTransformation.fileId x = fileId) ts /\
  ahead st'.

(** The fields [processFile] sets on a file that was parsed, and on one
    whose parsing threw. *)
Definition parsedAs (platform : string) : UploadedFile.partial :=
  UploadedFile.mkPartial None None None None None (Some (Some platform))
    (Some "parsed") None None.

Definition failedAs (platform : string) (error : failure) : UploadedFile.partial :=
  UploadedFile.mkPartial None None None None None (Some (Some platform))
    (Some "error") (Some (Some error)) None.

(** A character does not occur in a text. *)
Definition without (c : ascii) (s : string) : Prop :=
  Js.includes s (String c EmptyString) = false.

(** Every character of a text passes a test. *)
Fixpoint every (test : ascii -> bool) (s : string) : bool :=
  match s with
  | EmptyString => true
  | String c rest => test c && every test rest
  end.

(** The text after the white-space character that a text begins with. *)
Definition white (s : string) : option string :=
  match s with
  | String a s1 =>
      if Js.isSpace a then Some s1
      else
        match s1 with
        | String b s2 =>
            if Js.isSpace2 a b then Some s2
            else
              match s2 with
              | String c s3 => if Js.isSpace3 a b c then Some s3 else None
              | EmptyString => None
              end
        | EmptyString => None
        end
  | EmptyString => None
  end.

(** A text of ASCII characters. *)
Definition asciiText (s : string) : Prop :=
  every (fun c => (nat_of_ascii c <? 128)%nat) s = true.

(** A text of [n] spaces. *)
Fixpoint spaces (n : nat) : string :=
  match n with
  | O => EmptyString
  | S k => String " " (spaces k)
  end.

(** The types the XML extractors give. *)
Definition xmlTypes : list string := ["REST"; "SOAP"].

(** The methods of a service are an array, or missing. *)
Definition hasMethods (s : Service.t) : Prop :=
  Service.methods s = Undefined \/ exists l, Service.methods s = Arr l.

(** Joining the methods of a service does not throw. *)
Definition joinable (Array_join : list value -> string -> option string)
    (s : Service.t) : bool :=
  match Service.methods s with
  | Arr l =>
      match Array_join l ", " with
      | Some _ => true
      | None => false
      end
  | _ => true
  end.

(** A service as the XML extractors build it: named by a text without double
    quote, of type REST or SOAP. *)
Definition xmlShape (s : Service.t) : Prop :=
  (exists n, Service.name s = Str n /\ without dq n) /\
  In (Service.type s) xmlTypes /\ hasMethods s.

(** The constructor of the runtime accepts every source that a parser
    computes from a name captured in a text: the names free of syntax
    characters need no constructor. *)
Definition compiles (RegExp_new : RegExp.constructor) (source : string -> string)
    (tag : RegExp.regex) (contentStr : string) : Prop :=
  forall m n,
    In m (RegExp.matchAll false tag contentStr) ->
    BaseParser.nameMatch m = Some n -> RegExp.plain n = false ->
    RegExp_new (source n) "i" <> None.


(** The artifacts the callers are run on. *)
Module Upload.

Definition orders_json : UploadedFile.insert :=
  UploadedFile.mkInsert "1700000000000_processes.json" "processes.json" 64
    "application/json" None (Some "uploaded") None.

(** A storage holding that one file, with id 1. *)
Definition stored : MemStorage.t :=
  snd (MemStorage.createUploadedFile Sample.now MemStorage.create orders_json).

(** The record of that file. *)
Definition orders_file : UploadedFile.t :=
  UploadedFile.mk 1 "1700000000000_processes.json" "processes.json" 64
    "application/json" None "uploaded" None Sample.now.


(** Boomi documents: not an object; processes that cannot be iterated; a
    [null] among the processes; connector types in two letter cases. *)
Definition boomi_null : Buffer := "null".

Definition boomi_number : Buffer := "42".

Definition boomi_processes_object : Buffer :=
  "{" ++ q ++ "processes" ++ q ++ ":{}}".

Definition boomi_processes_null_entry : Buffer :=
  "{" ++ q ++ "processes" ++ q ++ ":[null]}".

(** An OSB proxy service whose name holds an escaped dot, and one whose name
    holds an opening parenthesis, which no pattern source can hold bare. *)
Definition osb_escaped : Buffer :=
  "<proxy-service name=" ++ q ++ "Orders\.v2" ++ q
  ++ "><endpoint-uri>/orders</endpoint-uri></proxy-service>".

Definition osb_unbalanced : Buffer :=
  "<proxy-service name=" ++ q ++ "Orders(v2" ++ q
  ++ "><endpoint-uri>/orders</endpoint-uri></proxy-service>".

(** A Boomi document whose second process lists, as a method, an object with
    a member [toString]; what it decodes to. *)
Definition boomi_unjoinable : Buffer :=
  "{" ++ q ++ "processes" ++ q ++ ":[{" ++ q ++ "name" ++ q ++ ":" ++ q ++ "A"
  ++ q ++ "},{" ++ q ++ "name" ++ q ++ ":" ++ q ++ "B" ++ q ++ "," ++ q
  ++ "httpMethods" ++ q ++ ":[{" ++ q ++ "toString" ++ q ++ ":0}]},{" ++ q
  ++ "name" ++ q ++ ":" ++ q ++ "C" ++ q ++ "}]}".

Definition service_A : Service.t :=
  Service.mk (Str "A") "REST" "Boomi" Undefined (Arr [Str "POST"])
    Undefined Undefined Undefined.

Definition service_B : Service.t :=
  Service.mk (Str "B") "REST" "Boomi" Undefined
    (Arr [Obj [("toString", Num false "0")]]) Undefined Undefined Undefined.

Definition service_C : Service.t :=
  Service.mk (Str "C") "REST" "Boomi" Undefined (Arr [Str "POST"])
    Undefined Undefined Undefined.

Definition boomi_unjoinable_result : ParseResult.t :=
  resultOf "Boomi" Sample.now "processes.json"
    ([service_A; service_B; service_C], [], []).

(** A file that was parsed. *)
Definition parsed_file : UploadedFile.t :=
  UploadedFile.mk 1 "1700000000000_processes.json" "processes.json" 64
    "application/json" (Some "Boomi") "parsed" None Sample.now.

Definition billing : StoredService.insert :=
  StoredService.mkInsert 1 (Str "Billing") "SOAP" (Str "/billing") Undefined
    Undefined Undefined Undefined Undefined.

Definition another_default : DocumentTemplate.insert :=
  DocumentTemplate.mkInsert "House style" None Null (Some true).

(** [join] and [JSON.stringify] for the runs: the conversions of ECMAScript,
    a number written as its literal.  An element that is an object is
    converted by the [toString] it inherits unless it has a member of that
    name, which no decoded value can call: the conversion then throws. *)
Fixpoint toText (v : value) : option string :=
  match v with
  | Undefined | Null => Some ""
  | Bool b => Some (if b then "true" else "false")
  | Num _ literal => Some literal
  | Str s => Some s
  | Arr l =>
      (fix elements (l : list value) : option string :=
         match l with
         | [] => Some ""
         | [x] => toText x
         | x :: rest =>
             match toText x, elements rest with
             | Some t, Some ts => Some (t ++ "," ++ ts)
             | _, _ => None
             end
         end) l
  | Obj members =>
      match lookup "toString" members with
      | Some _ => None
      | None => Some "[object Object]"
      end
  end.

Fixpoint join (l : list value) (sep : string) : option string :=
  match l with
  | [] => Some ""
  | [x] => toText x
  | x :: rest =>
      match toText x, join rest sep with
      | Some t, Some ts => Some (t ++ sep ++ ts)
      | _, _ => None
      end
  end.

Definition hexDigit (n : nat) : string :=
  String.substring n 1 "0123456789abcdef".

Fixpoint quoted (s : string) : string :=
  match s with
  | EmptyString => EmptyString
  | String c rest =>
      let n := nat_of_ascii c in
      (if Nat.eqb n 34 then "\" ++ q
       else if Nat.eqb n 92 then "\\"
       else if Nat.eqb n 8 then "\b"
       else if Nat.eqb n 9 then "\t"
       else if Nat.eqb n 10 then "\n"
       else if Nat.eqb n 12 then "\f"
       else if Nat.eqb n 13 then "\r"
       else if Nat.ltb n 32 then "\u00" ++ hexDigit (n / 16) ++ hexDigit (n mod 16)
       else String c EmptyString) ++ quoted rest
  end.

(** The text of a value, [None] for [undefined]. *)
Fixpoint serialize (v : value) : option string :=
  match v with
  | Undefined => None
  | Null => Some "null"
  | Bool b => Some (if b then "true" else "false")
  | Num _ literal => Some literal
  | Str s => Some (q ++ quoted s ++ q)
  | Arr l =>
      Some ("[" ++
            (fix elements (l : list value) : string :=
               match l with
               | [] => ""
               | x :: rest =>
                   match serialize x with Some t => t | None => "null" end ++
                   match rest with [] => "" | _ => "," ++ elements rest end
               end) l ++ "]")
  | Obj members =>
      Some ("{" ++
            (fix pairs (first : bool) (l : list (string * value)) : string :=
               match l with
               | [] => ""
               | (k, x) :: rest =>
                   match serialize x with
                   | Some t =>
                       (if first then "" else ",") ++ q ++ quoted k ++ q ++ ":"
                       ++ t ++ pairs false rest
                   | None => pairs first rest
                   end
               end) true members ++ "}")
  end.

Definition stringify (v : value) : value :=
  match serialize v with
  | Some t => Str t
  | None => Undefined
  end.

End Upload.

(** * Properties *)

(** ** Platform detection *)

Section Detection.
Variable JSON_parse : string -> option value.
Variable RegExp_new : RegExp.constructor.

#[local] Abbreviation ext := BaseParser.extractFileExtension.
#[local] Abbreviation osb := OSBParser.canParse.
#[local] Abbreviation boomi := (BoomiParser.canParse JSON_parse).
#[local] Abbreviation tibco := TibcoParser.canParse.
#[local] Abbreviation mule := (MuleSoftParser.canParse JSON_parse).
#[local] Abbreviation detectPlatform :=
  (ParserRegistry.detectPlatform JSON_parse RegExp_new).
#[local] Abbreviation parseFile :=
  (ParserRegistry.parseFile JSON_parse RegExp_new).

(** The loop of the registry, unrolled over its four parsers. *)
Lemma detectPlatform_unrolled filename content :
  detectPlatform filename content =
    if osb filename content then "OSB"
    else if boomi filename content then "Boomi"
    else if tibco filename content then "Tibco"
    else if mule filename content then "MuleSoft"
    else "Unknown".
Proof.
  unfold ParserRegistry.detectPlatform, ParserRegistry.parsers.
  cbn [ParserRegistry.first ParserRegistry.canParse].
  destruct (osb filename content); [reflexivity|].
  destruct (boomi filename content); [reflexivity|].
  destruct (tibco filename content); [reflexivity|].
  destruct (mule filename content); reflexivity.
Qed.

Lemma parseFile_unrolled now filename content :
  parseFile now filename content =
    if osb filename content then OSBParser.parse RegExp_new now filename content
    else if boomi filename content
      then BoomiParser.parse JSON_parse now filename content
    else if tibco filename content then TibcoParser.parse RegExp_new now filename content
    else if mule filename content
      then MuleSoftParser.parse JSON_parse RegExp_new now filename content
    else Throw (NoParserFound filename).
Proof.
  unfold ParserRegistry.parseFile, ParserRegistry.parsers.
  cbn [ParserRegistry.first ParserRegistry.canParse].
  destruct (osb filename content); [reflexivity|].
  destruct (boomi filename content); [reflexivity|].
  destruct (tibco filename content); [reflexivity|].
  destruct (mule filename content); reflexivity.
Qed.

(** What a parser throws is never the registry's own error. *)
Lemma catch_not_NoParserFound {A} platform (body : outcome exception A) name :
  catch platform body <> Throw (NoParserFound name).
Proof. destruct body; discriminate. Qed.

Lemma detectPlatform_Unknown filename content :
  detectPlatform filename content = "Unknown" <->
  accepted JSON_parse filename content = false.
Proof.
  rewrite detectPlatform_unrolled. unfold accepted.
  destruct (osb filename content), (boomi filename content),
    (tibco filename content), (mule filename content);
    cbn; split; intro H; try reflexivity; discriminate H.
Qed.

Lemma parseFile_NoParserFound now filename content name :
  parseFile now filename content = Throw (NoParserFound name) <->
  accepted JSON_parse filename content = false /\ name = filename.
Proof.
  rewrite parseFile_unrolled. unfold accepted.
  destruct (osb filename content);
    [split; [intro H; now apply catch_not_NoParserFound in H
            | intros [H _]; discriminate H]|].
  destruct (boomi filename content);
    [split; [intro H; now apply catch_not_NoParserFound in H
            | intros [H _]; discriminate H]|].
  destruct (tibco filename content);
    [split; [intro H; now apply catch_not_NoParserFound in H
            | intros [H _]; discriminate H]|].
  destruct (mule filename content);
    [split; [intro H; now apply catch_not_NoParserFound in H
            | intros [H _]; discriminate H]|].
  cbn. split.
  - intro H. injection H as ->. now split.
  - intros [_ ->]. reflexivity.
Qed.

Lemma accepted_recognized filename content :
  accepted JSON_parse filename content = true ->
  recognized JSON_parse RegExp_new filename content.
Proof.
  intro A. split.
  - intro U. apply detectPlatform_Unknown in U. congruence.
  - intros now name T. apply parseFile_NoParserFound in T as [T _]. congruence.
Qed.

Lemma oneOf_In l x : oneOf l x = true <-> In x l.
Proof.
  unfold oneOf. rewrite existsb_exists. split.
  - intros [y [I E]]. apply String.eqb_eq in E. now subst.
  - intro I. exists x. split; [assumption | apply String.eqb_refl].
Qed.

(** Each matcher, by the extension of the file name. *)
Lemma osb_by_extension filename content e :
  ext filename = e ->
  osb filename content =
    if oneOf ["ear"; "jar"] e then true
    else if String.eqb e "xml" && BaseParser.isXmlContent content
         then osbMarker content else false.
Proof. intros <-. reflexivity. Qed.

Lemma tibco_by_extension filename content e :
  ext filename = e ->
  tibco filename content =
    if oneOf ["ear"; "xml"; "process"] e then true
    else if BaseParser.isXmlContent content then tibcoMarker content else false.
Proof. intros <-. reflexivity. Qed.

Lemma mule_by_extension filename content e :
  ext filename = e ->
  mule filename content =
    if oneOf ["jar"; "xml"; "json"] e then true
    else if BaseParser.isXmlContent content then muleXmlMarker content
    else if BaseParser.isJsonContent JSON_parse content
         then muleJsonMarker content else false.
Proof. intros <-. reflexivity. Qed.

(** The Boomi matcher decides on the extension alone: its test of the content
    sits behind the extension [json], which the allow-list already took. *)
Lemma boomi_by_extension filename content :
  boomi filename content = oneOf ["zip"; "json"] (ext filename).
Proof.
  unfold BoomiParser.canParse.
  destruct (oneOf ["zip"; "json"] (ext filename)) eqn:E; [reflexivity|].
  unfold oneOf in E. cbn [existsb] in E.
  destruct (String.eqb (ext filename) "json") eqn:J; [|reflexivity].
  rewrite orb_false_r in E. apply orb_false_elim in E as [_ E]. discriminate E.
Qed.

(** Detection for each listed extension. *)
Lemma detectPlatform_listed filename content :
  oneOf listed (ext filename) = true ->
  detectPlatform filename content =
    let e := ext filename in
    if oneOf ["ear"; "jar"] e then "OSB"
    else if oneOf ["zip"; "json"] e then "Boomi"
    else if String.eqb e "xml" && BaseParser.isXmlContent content
            && osbMarker content then "OSB"
    else "Tibco".
Proof.
  intro L. apply oneOf_In in L. rewrite detectPlatform_unrolled.
  rewrite boomi_by_extension.
  rewrite (osb_by_extension filename content _ eq_refl).
  rewrite (tibco_by_extension filename content _ eq_refl).
  cbv zeta. unfold listed in L. cbn [In] in L.
  destruct L as [<-|[<-|[<-|[<-|[<-|[<-|[]]]]]]]; reflexivity.
Qed.

End Detection.

Section DetectionClaims.
Variable JSON_parse : string -> option value.
Variable RegExp_new : RegExp.constructor.

#[local] Abbreviation ext := BaseParser.extractFileExtension.
#[local] Abbreviation detectPlatform :=
  (ParserRegistry.detectPlatform JSON_parse RegExp_new).
#[local] Abbreviation parseFile :=
  (ParserRegistry.parseFile JSON_parse RegExp_new).

(** C2, amended.  [detectPlatform] tries the matchers in the order OSB, Boomi,
    Tibco, MuleSoft and answers with the first that accepts.  For a file name
    of extension [xml] whose content holds both the Tibco marker
    [pd:ProcessDefinition] and the MuleSoft marker [mule xmlns], the answer is
    Tibco when the OSB matcher, which comes first and reads the content of
    [xml] files, does not accept, and OSB when it does. *)
Theorem detectPlatform_first_match filename content :
  detectPlatform filename content =
    (if OSBParser.canParse filename content then "OSB"
     else if BoomiParser.canParse JSON_parse filename content then "Boomi"
     else if TibcoParser.canParse filename content then "Tibco"
     else if MuleSoftParser.canParse JSON_parse filename content then "MuleSoft"
     else "Unknown") /\
  (ext filename = "xml" ->
   Js.includes content "pd:ProcessDefinition" = true ->
   Js.includes content "mule xmlns" = true ->
   detectPlatform filename content =
     if OSBParser.canParse filename content then "OSB" else "Tibco").
Proof.
  split; [apply detectPlatform_unrolled|].
  intros E _ _. rewrite detectPlatform_unrolled, boomi_by_extension.
  rewrite (tibco_by_extension filename content _ E), E.
  destruct (OSBParser.canParse filename content); reflexivity.
Qed.

(** C3, amended.  Whatever the extension, content that looks like XML and
    holds a Tibco marker or a MuleSoft XML marker is recognized.  An OSB
    marker is read only under the extension [xml], where it gives OSB.  The
    Boomi markers are never read: the Boomi matcher accepts exactly the
    extensions [zip] and [json], whatever the content. *)
Theorem markers_recognized filename content :
  (BaseParser.isXmlContent content = true ->
   tibcoMarker content = true \/ muleXmlMarker content = true ->
   recognized JSON_parse RegExp_new filename content) /\
  (ext filename = "xml" ->
   BaseParser.isXmlContent content = true ->
   osbMarker content = true ->
   recognized JSON_parse RegExp_new filename content /\
   detectPlatform filename content = "OSB") /\
  BoomiParser.canParse JSON_parse filename content
    = oneOf ["zip"; "json"] (ext filename) /\
  (oneOf ["zip"; "json"] (ext filename) = true ->
   recognized JSON_parse RegExp_new filename content /\
   detectPlatform filename content = "Boomi").
Proof.
  split; [|split; [|split]].
  - intros X M. apply accepted_recognized. unfold accepted.
    rewrite (tibco_by_extension filename content _ eq_refl).
    rewrite (mule_by_extension JSON_parse filename content _ eq_refl), X.
    destruct M as [-> | ->].
    + destruct (oneOf ["ear"; "xml"; "process"] (ext filename));
        rewrite ?orb_true_r; reflexivity.
    + destruct (oneOf ["jar"; "xml"; "json"] (ext filename));
        rewrite ?orb_true_r; reflexivity.
  - intros E X M.
    assert (O : OSBParser.canParse filename content = true).
    { rewrite (osb_by_extension filename content _ E), X, M. reflexivity. }
    split.
    + apply accepted_recognized. unfold accepted. rewrite O. reflexivity.
    + rewrite detectPlatform_unrolled, O. reflexivity.
  - apply boomi_by_extension.
  - intro Z.
    assert (B : BoomiParser.canParse JSON_parse filename content = true)
      by (rewrite boomi_by_extension; exact Z).
    split.
    + apply accepted_recognized. unfold accepted. rewrite B.
      rewrite orb_true_r. reflexivity.
    + rewrite detectPlatform_unrolled, B.
      rewrite (osb_by_extension filename content _ eq_refl).
      apply oneOf_In in Z. cbn [In] in Z.
      destruct Z as [<-|[<-|[]]]; reflexivity.
Qed.

(** C8.  An artifact that no matcher accepts is of platform Unknown and
    [parseFile] throws the registry's error for it; so it is for any file name
    whose extension is on no allow-list, [txt] among them, when the content
    holds no marker; and [parseFile] throws that error only when no matcher
    accepts. *)
Theorem unaccepted_is_Unknown filename content :
  (accepted JSON_parse filename content = false ->
   detectPlatform filename content = "Unknown" /\
   forall now, parseFile now filename content = Throw (NoParserFound filename)) /\
  (oneOf listed (ext filename) = false ->
   recognizable content = false ->
   accepted JSON_parse filename content = false) /\
  (ext filename = "txt" ->
   recognizable content = false ->
   detectPlatform filename content = "Unknown" /\
   forall now, parseFile now filename content = Throw (NoParserFound filename)) /\
  (forall now name,
     parseFile now filename content = Throw (NoParserFound name) ->
     accepted JSON_parse filename content = false).
Proof.
  assert (U : accepted JSON_parse filename content = false ->
              detectPlatform filename content = "Unknown" /\
              forall now, parseFile now filename content
                          = Throw (NoParserFound filename)).
  { intro A. split; [now apply detectPlatform_Unknown|].
    intro now. apply parseFile_NoParserFound. now split. }
  assert (N : oneOf listed (ext filename) = false ->
              recognizable content = false ->
              accepted JSON_parse filename content = false).
  { intros L R. unfold accepted.
    rewrite boomi_by_extension.
    rewrite (osb_by_extension filename content _ eq_refl).
    rewrite (tibco_by_extension filename content _ eq_refl).
    rewrite (mule_by_extension JSON_parse filename content _ eq_refl).
    unfold recognizable in R.
    apply orb_false_elim in R as [R MJ]. apply orb_false_elim in R as [R MX].
    apply orb_false_elim in R as [R T]. apply orb_false_elim in R as [O B].
    rewrite O, T, MX, MJ.
    unfold listed, oneOf in *. cbn [existsb] in *.
    repeat (apply orb_false_elim in L as [? L]).
    repeat match goal with H : String.eqb _ _ = false |- _ => rewrite H; clear H end.
    cbn. destruct (BaseParser.isXmlContent content); [reflexivity|].
    destruct (BaseParser.isJsonContent JSON_parse content); reflexivity. }
  split; [exact U|]. split; [exact N|]. split.
  - intros E R. apply U, N; [rewrite E; reflexivity | exact R].
  - intros now name T. now apply parseFile_NoParserFound in T as [T _].
Qed.

(** C10, amended.  For a file name whose extension is one of ear, jar, zip,
    json, xml, process, a matcher accepts on the extension alone whatever the
    content: the platform is never Unknown and [parseFile] never throws the
    registry's error.  The content is not read when the extension is one of
    ear, jar, zip, json, process; under [xml] the OSB matcher, first in the
    order, reads it, and the platform is OSB when it accepts and Tibco
    otherwise. *)
Theorem listed_extension_accepted filename content :
  oneOf listed (ext filename) = true ->
  (exists parser,
     In parser (ParserRegistry.parsers JSON_parse RegExp_new) /\
     forall content', ParserRegistry.canParse parser filename content' = true) /\
  recognized JSON_parse RegExp_new filename content /\
  (ext filename <> "xml" ->
   forall content', detectPlatform filename content'
                    = detectPlatform filename content) /\
  (ext filename = "xml" ->
   detectPlatform filename content =
     if BaseParser.isXmlContent content && osbMarker content
     then "OSB" else "Tibco").
Proof.
  intro L. split; [|split; [|split]].
  - pose proof L as I. apply oneOf_In in I. unfold listed in I. cbn [In] in I.
    unfold ParserRegistry.parsers.
    destruct I as [E|[E|[E|[E|[E|[E|[]]]]]]].
    + eexists. split; [left; reflexivity|]. intro c. cbn.
      rewrite (osb_by_extension filename c _ (eq_sym E)). reflexivity.
    + eexists. split; [left; reflexivity|]. intro c. cbn.
      rewrite (osb_by_extension filename c _ (eq_sym E)). reflexivity.
    + eexists. split; [right; left; reflexivity|]. intro c. cbn.
      rewrite boomi_by_extension, <- E. reflexivity.
    + eexists. split; [right; left; reflexivity|]. intro c. cbn.
      rewrite boomi_by_extension, <- E. reflexivity.
    + eexists. split; [right; right; left; reflexivity|]. intro c. cbn.
      rewrite (tibco_by_extension filename c _ (eq_sym E)). reflexivity.
    + eexists. split; [right; right; left; reflexivity|]. intro c. cbn.
      rewrite (tibco_by_extension filename c _ (eq_sym E)). reflexivity.
  - split.
    + rewrite (detectPlatform_listed JSON_parse RegExp_new filename content L).
      cbv zeta.
      destruct (oneOf ["ear"; "jar"] (ext filename)); [discriminate|].
      destruct (oneOf ["zip"; "json"] (ext filename)); [discriminate|].
      destruct (_ && _ && _); discriminate.
    + intros now name T. apply parseFile_NoParserFound in T as [T _].
      apply (detectPlatform_Unknown JSON_parse RegExp_new) in T.
      rewrite (detectPlatform_listed JSON_parse RegExp_new filename content L)
        in T.
      cbv zeta in T.
      destruct (oneOf ["ear"; "jar"] (ext filename)); [discriminate|].
      destruct (oneOf ["zip"; "json"] (ext filename)); [discriminate|].
      destruct (_ && _ && _); discriminate.
  - intros NX c. rewrite !(detectPlatform_listed JSON_parse RegExp_new filename _ L).
    cbv zeta. apply String.eqb_neq in NX. rewrite NX. reflexivity.
  - intros E. rewrite (detectPlatform_listed JSON_parse RegExp_new filename content L).
    rewrite E. reflexivity.
Qed.

End DetectionClaims.

(** ** Extraction *)

Section Extraction.
Variable JSON_parse : string -> option value.
Variable RegExp_new : RegExp.constructor.

#[local] Abbreviation ext := BaseParser.extractFileExtension.
#[local] Abbreviation detectPlatform :=
  (ParserRegistry.detectPlatform JSON_parse RegExp_new).
#[local] Abbreviation parseFile :=
  (ParserRegistry.parseFile JSON_parse RegExp_new).





(** C7, amended.  Content that is not JSON at all makes the Boomi extractor
    return a result with empty arrays and its metadata filled in, not throw;
    so does [parseFile] for a file name of extension [json], and so does the
    MuleSoft extractor when the content does not look like XML either. *)
Theorem unparseable_json_is_empty now filename content :
  JSON_parse (BaseParser.toString content) = None ->
  BoomiParser.parse JSON_parse now filename content
    = Return (emptyResult "Boomi" now filename) /\
  (ext filename = "json" ->
   parseFile now filename content = Return (emptyResult "Boomi" now filename)) /\
  (BaseParser.isXmlContent content = false ->
   MuleSoftParser.parse JSON_parse RegExp_new now filename content
     = Return (emptyResult "MuleSoft" now filename)).
Proof.
  intro N.
  assert (B : BoomiParser.parse JSON_parse now filename content
              = Return (emptyResult "Boomi" now filename)).
  { unfold BoomiParser.parse, BoomiParser.extract, BaseParser.isJsonContent.
    rewrite N. reflexivity. }
  split; [exact B|]. split.
  - intro E. rewrite parseFile_unrolled, boomi_by_extension.
    rewrite (osb_by_extension filename content _ E), E. exact B.
  - intro X.
    unfold MuleSoftParser.parse, MuleSoftParser.extract,
      BaseParser.isJsonContent.
    rewrite X, N. reflexivity.
Qed.

(** C1, amended.  On the file [mulesoft.xml] of the scenario the MuleSoft
    extractor returns exactly one service, named OrderFlow, of type REST and
    platform MuleSoft, with endpoint /orders and methods GET and POST, and
    exactly one proxy record, HTTP_Listener_1 with service URI /orders.
    [parseFile] does not reach that extractor: the Tibco matcher comes first
    and accepts the extension [xml], and the Tibco extractor finds nothing. *)
Theorem mulesoft_scenario now :
  MuleSoftParser.parse JSON_parse RegExp_new now "mulesoft.xml" Sample.mulesoft_xml
  = Return
      (ParseResult.mk
         [Service.mk (Str "OrderFlow") "REST" "MuleSoft" (Str "/orders")
            (Arr [Str "GET"; Str "POST"]) Undefined Undefined Undefined]
         [Proxy.mk (Str "HTTP_Listener_1") (Str "/orders")
            (Str "default-config") Undefined
            (Obj [("xml",
                   Str ("<http:listener path=" ++ q ++ "/orders" ++ q
                        ++ " allowedMethods=" ++ q ++ "GET,POST" ++ q ++ "/>"))])]
         []
         (Metadata.mk "MuleSoft" "mulesoft.xml" now 1 1 0)) /\
  detectPlatform "mulesoft.xml" Sample.mulesoft_xml = "Tibco" /\
  parseFile now "mulesoft.xml" Sample.mulesoft_xml
  = Return (emptyResult "Tibco" now "mulesoft.xml").
Proof. repeat split; vm_compute; reflexivity. Qed.

End Extraction.

(** ** Matching *)

Section Matching.
Import RegExp.

Lemma consumed_Some c r x : consumed c r = Some x -> exists y, r = Some y.
Proof. destruct r as [y|]; [eauto | discriminate]. Qed.

(** With the flag [i], a literal matches only where its upper-cased text
    begins the upper-cased subject. *)
Lemma lit_startsWith p : forall k s x,
  lit true p k s = Some x ->
  Js.startsWith (Js.toUpperCase s) (Js.toUpperCase p) = true.
Proof.
  induction p as [|a p IH]; intros k s x H.
  - destruct s; reflexivity.
  - destruct s as [|c s]; [discriminate|]. cbn in H.
    destruct (Ascii.eqb (Js.upper a) (Js.upper c)) eqn:E; [|discriminate].
    apply consumed_Some in H as [y H]. apply IH in H.
    apply Ascii.eqb_eq in E. unfold Js.startsWith in *. cbn. rewrite E.
    destruct (ascii_dec (Js.upper c) (Js.upper c)); [exact H | congruence].
Qed.

Lemma exec_lit_startsWith p r s x :
  exec true (Lit p :: r) s = Some x ->
  Js.startsWith (Js.toUpperCase s) (Js.toUpperCase p) = true.
Proof. cbn. apply lit_startsWith. Qed.

(** A pattern that begins with a literal has no match in a text that does
    not include the literal, letter case apart. *)
Lemma scan_without_literal p r : forall s skip,
  Js.includes (Js.toUpperCase s) (Js.toUpperCase p) = false ->
  scan true (Lit p :: r) skip s = [].
Proof.
  induction s as [|c s IH]; intros skip H.
  - destruct skip; [|reflexivity]. cbn [scan].
    destruct (exec true (Lit p :: r) "") as [[m g]|] eqn:E; [|reflexivity].
    apply exec_lit_startsWith in E.
    change (Js.startsWith (Js.toUpperCase "") (Js.toUpperCase p) || false
            = false) in H.
    rewrite E in H. discriminate.
  - change (Js.startsWith (Js.toUpperCase (String c s)) (Js.toUpperCase p)
            || Js.includes (Js.toUpperCase s) (Js.toUpperCase p) = false) in H.
    apply orb_false_elim in H as [H1 H2].
    destruct skip as [|n]; [|cbn [scan]; now apply IH].
    cbn [scan]. destruct (exec true (Lit p :: r) (String c s)) as [[m g]|] eqn:E.
    + apply exec_lit_startsWith in E. congruence.
    + now apply IH.
Qed.

Lemma extractRestMethods_default xml :
  Js.includes (Js.toUpperCase xml) "<HTTP:METHOD>" = false ->
  OSBParser.extractRestMethods xml = Arr [Str "GET"; Str "POST"].
Proof.
  intro H. unfold OSBParser.extractRestMethods, matchAll, OSBParser.methodTag.
  rewrite (scan_without_literal "<http:method>" _ xml 0 H). reflexivity.
Qed.

End Matching.

(** ** The services of a result *)

Section Services.
Variable JSON_parse : string -> option value.
Variable RegExp_new : RegExp.constructor.

Lemma bind_Return {E A B} (m : outcome E A) (k : A -> outcome E B) b :
  bind m k = Return b -> exists a, m = Return a /\ k a = Return b.
Proof. destruct m as [a|e]; [eauto | discriminate]. Qed.

Lemma catch_Return {A} platform (body : outcome exception A) a :
  catch platform body = Return a -> body = Return a.
Proof. destruct body; [intros [= ->]; reflexivity | discriminate]. Qed.

(** A property of the state that every round of a loop keeps holds when the
    loop ends. *)
Lemma forOf_invariant {E S A} (I : S -> Prop) (body : S -> A -> outcome E S) :
  (forall st x st', I st -> body st x = Return st' -> I st') ->
  forall l st st', I st -> forOf body l st = Return st' -> I st'.
Proof.
  intros step. induction l as [|x l IH]; intros st st' H F.
  - injection F as <-. exact H.
  - cbn in F. apply bind_Return in F as [st1 [B F]].
    eapply IH; [|exact F]. eapply step; eauto.
Qed.

(** The same, the rounds being those of the elements of the list. *)
Lemma forOf_invariant_in {E S A} (I : S -> Prop) (body : S -> A -> outcome E S) :
  forall l,
    (forall st x st', In x l -> I st -> body st x = Return st' -> I st') ->
    forall st st', I st -> forOf body l st = Return st' -> I st'.
Proof.
  induction l as [|x l IH]; intros step st st' H F.
  - injection F as <-. exact H.
  - cbn in F. apply bind_Return in F as [st1 [B F]].
    apply (IH (fun st x' st' K => step st x' st' (or_intror K)) st1 st');
      [|exact F].
    exact (step st x st1 (or_introl eq_refl) H B).
Qed.

Lemma collect_Forall {A} (P : A -> Prop) config key
    (f : value -> outcome exception A) l :
  (forall x y, f x = Return y -> P y) ->
  BoomiParser.collect config key f = Return l -> Forall P l.
Proof.
  intros F H. unfold BoomiParser.collect in H.
  apply bind_Return in H as [entries [_ H]].
  destruct (truthy entries); [|injection H as <-; constructor].
  apply bind_Return in H as [xs [_ H]].
  revert H. apply (forOf_invariant (Forall P)); [|constructor].
  intros st x st' G B. apply bind_Return in B as [y [Y B]].
  injection B as <-. apply Forall_app. split; [exact G|].
  constructor; [eauto | constructor].
Qed.

(** What [collect] gathers comes from the entries it visits. *)
Lemma collect_entries {A} (P : value -> A -> Prop) config key
    (f : value -> outcome exception A) l :
  (forall x y, f x = Return y -> P x y) ->
  BoomiParser.collect config key f = Return l ->
  Forall (fun y => exists x, entry config key x /\ P x y) l.
Proof.
  intros F H. unfold BoomiParser.collect in H.
  apply bind_Return in H as [entries [G H]].
  destruct (truthy entries) eqn:T; [|injection H as <-; constructor].
  apply bind_Return in H as [xs [X H]].
  revert H.
  apply (forOf_invariant_in
           (Forall (fun y => exists x, entry config key x /\ P x y)));
    [|constructor].
  intros st x st' K G' B. apply bind_Return in B as [y [Y B]].
  injection B as <-. apply Forall_app. split; [exact G'|].
  constructor; [|constructor].
  exists x. split; [exists entries, xs; auto | eauto].
Qed.

Ltac enumerate :=
  unfold serviceTypes; cbn [In]; auto 8.

Lemma osb_typeOr_configOf xml :
  OSBParser.typeOr (OSBParser.configOf xml) "SOAP"
  = if Js.includes xml "rest-" then "REST" else "SOAP".
Proof.
  unfold OSBParser.typeOr, OSBParser.configOf.
  change (field (Obj ?l) "type") with
    (match lookup "type" l with Some x => x | None => Undefined end).
  cbn -[OSBParser.extractRestMethods OSBParser.extractValue Js.includes or].
  destruct (Js.includes xml "rest-"); reflexivity.
Qed.

Lemma osb_config_enumerated contentStr serviceName config :
  OSBParser.extractServiceConfig RegExp_new contentStr serviceName = Return config ->
  enumerated "OSB" (OSBParser.serviceOf serviceName config).
Proof.
  unfold OSBParser.extractServiceConfig. intro H.
  apply bind_Return in H as [[xml|] [_ H]]; injection H as <-; split;
    try reflexivity; cbn [OSBParser.serviceOf Service.type].
  - rewrite osb_typeOr_configOf. destruct (Js.includes xml "rest-"); enumerate.
  - cbn. enumerate.
Qed.

Lemma osb_extract_enumerated content services proxies transformations :
  OSBParser.extract RegExp_new content
    = Return (services, proxies, transformations) ->
  Forall (tagged "OSB" OSBParser.proxyTag (BaseParser.toString content)) services.
Proof.
  unfold OSBParser.extract.
  destruct (BaseParser.isXmlContent content); [|intros [= <- _ _]; constructor].
  intro H. apply bind_Return in H as [sp [F H]]. injection H as <- _ _.
  revert F.
  apply (forOf_invariant_in
           (fun st => Forall (tagged "OSB" OSBParser.proxyTag
                                (BaseParser.toString content)) (fst st)));
    [|constructor].
  intros st m st' K G S. unfold OSBParser.proxyStep in S.
  destruct (BaseParser.nameMatch m) as [name|] eqn:N;
    [|injection S as <-; exact G].
  apply bind_Return in S as [config [C S]]. injection S as <-. cbn [fst].
  apply Forall_app. split; [exact G|].
  constructor; [|constructor]. split.
  - eapply osb_config_enumerated; eauto.
  - exists m, name. auto.
Qed.

Lemma tibco_type_enumerated config :
  In (TibcoParser.determineServiceType config) serviceTypes.
Proof.
  unfold TibcoParser.determineServiceType.
  destruct (field config "endpoint"); try enumerate.
  destruct (negb _); [|enumerate].
  destruct (_ || _); [enumerate|]. destruct (_ || _); enumerate.
Qed.

Lemma tibco_extract_enumerated content services proxies transformations :
  TibcoParser.extract RegExp_new content
    = Return (services, proxies, transformations) ->
  Forall (tagged "Tibco" TibcoParser.processTag (BaseParser.toString content))
    services.
Proof.
  unfold TibcoParser.extract.
  destruct (BaseParser.isXmlContent content); [|intros [= <- _ _]; constructor].
  intro H. apply bind_Return in H as [ss [F H]]. injection H as <- _ _.
  revert F.
  apply (forOf_invariant_in
           (Forall (tagged "Tibco" TibcoParser.processTag
                      (BaseParser.toString content))));
    [|constructor].
  intros st m st' K G S. unfold TibcoParser.processStep in S.
  destruct (BaseParser.nameMatch m) as [name|] eqn:N;
    [|injection S as <-; exact G].
  apply bind_Return in S as [config [C S]]. injection S as <-.
  apply Forall_app. split; [exact G|].
  constructor; [|constructor]. split.
  - split; [apply tibco_type_enumerated | reflexivity].
  - exists m, name. auto.
Qed.

Lemma mule_type_enumerated config :
  In (MuleSoftParser.determineServiceType config) serviceTypes.
Proof.
  unfold MuleSoftParser.determineServiceType.
  destruct (field config "endpoint"); try enumerate.
  destruct (negb _); [|enumerate].
  destruct (_ || _); [enumerate|]. destruct (Js.includes _ _); enumerate.
Qed.

Lemma mule_xml_enumerated content services proxies transformations :
  MuleSoftParser.parseXmlContent RegExp_new content
    = Return (services, proxies, transformations) ->
  Forall (tagged "MuleSoft" MuleSoftParser.flowTag (BaseParser.toString content))
    services.
Proof.
  unfold MuleSoftParser.parseXmlContent.
  intro H. apply bind_Return in H as [ss [F H]]. injection H as <- _ _.
  revert F.
  apply (forOf_invariant_in
           (Forall (tagged "MuleSoft" MuleSoftParser.flowTag
                      (BaseParser.toString content))));
    [|constructor].
  intros st m st' K G S. unfold MuleSoftParser.flowStep in S.
  destruct (BaseParser.nameMatch m) as [name|] eqn:N;
    [|injection S as <-; exact G].
  apply bind_Return in S as [config [C S]]. injection S as <-.
  apply Forall_app. split; [exact G|].
  constructor; [|constructor]. split.
  - split; [apply mule_type_enumerated | reflexivity].
  - exists m, name. auto.
Qed.

Lemma mule_json_service_enumerated flow s :
  MuleSoftParser.jsonServiceOf flow = Return s ->
  enumerated "MuleSoft" s /\ get flow "name" = Return (Service.name s).
Proof.
  unfold MuleSoftParser.jsonServiceOf. intro H.
  apply bind_Return in H as [name [N H]].
  apply bind_Return in H as [type [T H]].
  repeat (apply bind_Return in H as [? [_ H]]).
  injection H as <-. split; [|exact N]. split; [|reflexivity].
  cbn [Service.type].
  unfold MuleSoftParser.determineServiceTypeFromJson in T.
  apply bind_Return in T as [source [_ T]].
  apply bind_Return in T as [sourceType [_ T]]. injection T as <-.
  repeat (destruct (MuleSoftParser.sourceTypeIs _ _); [enumerate|]). enumerate.
Qed.

Lemma mule_json_enumerated content config services proxies transformations :
  JSON_parse (BaseParser.toString content) = Some config ->
  MuleSoftParser.parseJsonContent JSON_parse content
    = Return (services, proxies, transformations) ->
  Forall (fun s => enumerated "MuleSoft" s /\
                   exists flow, entry config "flows" flow /\
                                get flow "name" = Return (Service.name s))
    services.
Proof.
  intros J. unfold MuleSoftParser.parseJsonContent. rewrite J.
  intro H. apply bind_Return in H as [ss [S H]].
  repeat (apply bind_Return in H as [? [_ H]]). injection H as <- _ _.
  apply (collect_entries
           (fun flow s => enumerated "MuleSoft" s /\
                          get flow "name" = Return (Service.name s))) in S;
    [|apply mule_json_service_enumerated].
  eapply Forall_impl; [|exact S].
  intros s (flow & E & M & G). split; [exact M|]. exists flow. auto.
Qed.

Lemma get_again v key key' x :
  get v key = Return x -> exists y, get v key' = Return y.
Proof. destruct v; try discriminate; cbn; eauto. Qed.

Lemma boomi_service_enumerated process s :
  BoomiParser.serviceOf process = Return s ->
  enumerated "Boomi" s /\
  exists n id,
    get process "name" = Return n /\ get process "processId" = Return id /\
    Service.name s = or n id.
Proof.
  unfold BoomiParser.serviceOf. intro H.
  apply bind_Return in H as [name [N H]].
  apply bind_Return in H as [processId [I H]].
  apply bind_Return in H as [type [T H]].
  repeat (apply bind_Return in H as [? [_ H]]).
  injection H as <-. split.
  - split; [|reflexivity]. cbn [Service.type].
    unfold BoomiParser.determineServiceType in T.
    apply bind_Return in T as [connectorType [_ T]].
    destruct (truthy connectorType); [|injection T as <-; enumerate].
    apply bind_Return in T as [lowered [_ T]]. injection T as <-.
    repeat (destruct (oneOf _ lowered) || destruct (String.eqb lowered _);
            [enumerate|]).
    enumerate.
  - cbn [Service.name]. destruct (truthy name) eqn:Y.
    + destruct (get_again process "name" "processId" name N) as [id G].
      exists name, id. repeat split; try assumption.
      unfold or. rewrite Y. reflexivity.
    + exists name, processId. auto.
Qed.

Lemma boomi_extract_enumerated content services proxies transformations :
  BoomiParser.extract JSON_parse content
    = Return (services, proxies, transformations) ->
  Forall (fun s => enumerated "Boomi" s /\
                   named JSON_parse "Boomi" content (Service.name s)) services.
Proof.
  unfold BoomiParser.extract.
  destruct (BaseParser.isJsonContent JSON_parse content);
    [|intros [= <- _ _]; constructor].
  destruct (JSON_parse _) as [config|] eqn:J; [|discriminate].
  intro H. apply bind_Return in H as [ss [S H]].
  repeat (apply bind_Return in H as [? [_ H]]). injection H as <- _ _.
  apply (collect_entries
           (fun process s =>
              enumerated "Boomi" s /\
              exists n id,
                get process "name" = Return n /\
                get process "processId" = Return id /\
                Service.name s = or n id)) in S;
    [|apply boomi_service_enumerated].
  eapply Forall_impl; [|exact S].
  intros s (process & E & M & n & id & N & I & O). split; [exact M|].
  right. right. right. split; [reflexivity|].
  exists config, process, n, id. auto.
Qed.

Lemma mule_extract_enumerated content services proxies transformations :
  MuleSoftParser.extract JSON_parse RegExp_new content
    = Return (services, proxies, transformations) ->
  Forall (fun s => enumerated "MuleSoft" s /\
                   named JSON_parse "MuleSoft" content (Service.name s))
    services.
Proof.
  unfold MuleSoftParser.extract.
  destruct (BaseParser.isXmlContent content).
  { intro H. apply mule_xml_enumerated in H.
    eapply Forall_impl; [|exact H].
    intros s [M C]. split; [exact M|].
    right. right. left. split; [reflexivity|]. left. exact C. }
  unfold BaseParser.isJsonContent.
  destruct (JSON_parse (BaseParser.toString content)) as [config|] eqn:J;
    [|intros [= <- _ _]; constructor].
  intro H. apply (mule_json_enumerated content config _ _ _ J) in H.
  eapply Forall_impl; [|exact H].
  intros s (M & flow & E & G). split; [exact M|].
  right. right. left. split; [reflexivity|]. right.
  exists config, flow. auto.
Qed.

(** What a parser returns is the object built from its three arrays. *)
Lemma parse_Return platform now filename (body : outcome exception arrays) r :
  catch platform (a <- body ;; Return (resultOf platform now filename a))
    = Return r ->
  exists services proxies transformations,
    body = Return (services, proxies, transformations) /\
    ParseResult.services r = services.
Proof.
  intro H. apply catch_Return in H. apply bind_Return in H as [[[s p] t] [B H]].
  injection H as <-. exists s, p, t. split; [exact B | reflexivity].
Qed.

(** C4, amended.  In a result returned by [parseFile], every service has a
    type among REST, SOAP, JMS and FILE and a platform among OSB, Boomi, Tibco
    and MuleSoft, the platform detected for the artifact.  Its name is the one
    the artifact provides: in XML, the value of the attribute [name] captured
    in an opening tag of the platform; for a Boomi process, its name or, when
    that is falsy, its [processId]; for a MuleSoft JSON flow, its name.  That
    name may be empty or absent: no identifier is synthesized for a
    service. *)
Theorem services_enumerated now filename content r s :
  ParserRegistry.parseFile JSON_parse RegExp_new now filename content
    = Return r ->
  In s (ParseResult.services r) ->
  In (Service.type s) serviceTypes /\
  In (Service.platform s) platforms /\
  Service.platform s
    = ParserRegistry.detectPlatform JSON_parse RegExp_new filename content /\
  named JSON_parse (Service.platform s) content (Service.name s).
Proof.
  rewrite parseFile_unrolled, detectPlatform_unrolled. intros H I.
  assert (K : forall P, enumerated P s -> In P platforms ->
              named JSON_parse P content (Service.name s) ->
              In (Service.type s) serviceTypes /\
              In (Service.platform s) platforms /\ Service.platform s = P /\
              named JSON_parse (Service.platform s) content (Service.name s)).
  { intros P [T E] IP N. rewrite E. auto. }
  destruct (OSBParser.canParse filename content).
  { apply parse_Return in H as (ss & ps & ts & B & <-).
    apply osb_extract_enumerated in B. rewrite Forall_forall in B.
    destruct (B s I) as [E C].
    apply K; [exact E | unfold platforms; cbn; auto |].
    left. split; [reflexivity | exact C]. }
  destruct (BoomiParser.canParse JSON_parse filename content).
  { apply parse_Return in H as (ss & ps & ts & B & <-).
    apply boomi_extract_enumerated in B. rewrite Forall_forall in B.
    destruct (B s I) as [E C].
    apply K; [exact E | unfold platforms; cbn; auto | exact C]. }
  destruct (TibcoParser.canParse filename content).
  { apply parse_Return in H as (ss & ps & ts & B & <-).
    apply tibco_extract_enumerated in B. rewrite Forall_forall in B.
    destruct (B s I) as [E C].
    apply K; [exact E | unfold platforms; cbn; auto |].
    right. left. split; [reflexivity | exact C]. }
  destruct (MuleSoftParser.canParse JSON_parse filename content);
    [|discriminate].
  apply parse_Return in H as (ss & ps & ts & B & <-).
  apply mule_extract_enumerated in B. rewrite Forall_forall in B.
  destruct (B s I) as [E C].
  apply K; [exact E | unfold platforms; cbn; auto | exact C].
Qed.

End Services.

(** ** The methods of an OSB service *)

Section Methods.
Variable RegExp_new : RegExp.constructor.

Lemma serviceMatch_returns contentStr serviceName :
  (RegExp.plain serviceName = false ->
   RegExp_new (OSBParser.serviceSource serviceName) "i" <> None) ->
  exists found,
    OSBParser.serviceMatch RegExp_new contentStr serviceName = Return found.
Proof.
  intro C. unfold OSBParser.serviceMatch.
  destruct (RegExp.plain serviceName); [eauto|].
  destruct (RegExp_new _ _) as [pattern|]; [eauto | now destruct C].
Qed.

Lemma extractServiceConfig_found contentStr serviceName found :
  OSBParser.serviceMatch RegExp_new contentStr serviceName = Return found ->
  OSBParser.extractServiceConfig RegExp_new contentStr serviceName
  = Return (configFor found).
Proof.
  intro F. unfold OSBParser.extractServiceConfig. rewrite F.
  destruct found; reflexivity.
Qed.

(** The loop over the opening tags returns when the constructor accepts the
    names it is given; it keeps the services pushed before and pushes one for
    each tag that has a name. *)
Lemma proxy_loop contentStr : forall l,
  (forall m n,
     In m l -> BaseParser.nameMatch m = Some n -> RegExp.plain n = false ->
     RegExp_new (OSBParser.serviceSource n) "i" <> None) ->
  forall st, exists st',
    forOf (OSBParser.proxyStep RegExp_new contentStr) l st = Return st' /\
    (forall s, In s (fst st) -> In s (fst st')) /\
    (forall m n found,
       In m l -> BaseParser.nameMatch m = Some n ->
       OSBParser.serviceMatch RegExp_new contentStr n = Return found ->
       In (OSBParser.serviceOf n (configFor found)) (fst st')).
Proof.
  induction l as [|x l IH]; intros C st.
  - exists st. split; [reflexivity|]. split; [auto|]. intros m n found [].
  - assert (C' : forall m n,
               In m l -> BaseParser.nameMatch m = Some n ->
               RegExp.plain n = false ->
               RegExp_new (OSBParser.serviceSource n) "i" <> None)
      by (intros m n I; apply C; now right).
    cbn [forOf]. unfold OSBParser.proxyStep at 1.
    destruct (BaseParser.nameMatch x) as [name|] eqn:N.
    + destruct (serviceMatch_returns contentStr name
                  (C x name (or_introl eq_refl) N)) as [found F].
      rewrite (extractServiceConfig_found contentStr name found F).
      cbn [bind].
      destruct (IH C' ((fst st ++ [OSBParser.serviceOf name (configFor found)])%list,
                       (snd st ++ [OSBParser.proxyOf name (configFor found)])%list))
        as (st' & L & M & P).
      exists st'. split; [exact L|]. split.
      * intros s I. apply M. cbn [fst]. apply in_or_app. now left.
      * intros m n found' [<-|I] N' F'.
        -- rewrite N in N'. injection N' as <-. rewrite F in F'.
           injection F' as <-. apply M. cbn [fst]. apply in_or_app.
           right. now left.
        -- eapply P; eauto.
    + cbn [bind]. destruct (IH C' st) as (st' & L & M & P).
      exists st'. split; [exact L|]. split; [exact M|].
      intros m n found' [<-|I] N' F'; [congruence | eapply P; eauto].
Qed.

(** C6, amended.  When the OSB extractor parses an artifact in which a
    [proxy-service] tag named N is found, and the block found for N holds no
    [http:method] tag, in whatever letter case, the result has a service named
    N whose methods are GET and POST when the block is a REST one (it holds
    the text [rest-]), and POST alone when it is not.  The extractor returns
    as soon as the constructor of the runtime accepts the names it is
    given. *)
Theorem osb_methods_without_method_tags
    now filename content m serviceName serviceXml :
  BaseParser.isXmlContent content = true ->
  compiles RegExp_new OSBParser.serviceSource OSBParser.proxyTag
    (BaseParser.toString content) ->
  In m (RegExp.matchAll false OSBParser.proxyTag (BaseParser.toString content)) ->
  BaseParser.nameMatch m = Some serviceName ->
  OSBParser.serviceMatch RegExp_new (BaseParser.toString content) serviceName
    = Return (Some serviceXml) ->
  Js.includes (Js.toUpperCase serviceXml) "<HTTP:METHOD>" = false ->
  exists r service,
    OSBParser.parse RegExp_new now filename content = Return r /\
    In service (ParseResult.services r) /\
    Service.name service = Str serviceName /\
    Service.methods service =
      if Js.includes serviceXml "rest-"
      then Arr [Str "GET"; Str "POST"] else Arr [Str "POST"].
Proof.
  intros X C I N F M.
  destruct (proxy_loop (BaseParser.toString content) _ C ([], []))
    as (st' & L & _ & P).
  exists (resultOf "OSB" now filename
            (fst st', snd st',
             mapi OSBParser.xslt 0
               (RegExp.matchAll false OSBParser.stylesheetTag
                  (BaseParser.toString content)))),
         (OSBParser.serviceOf serviceName (OSBParser.configOf serviceXml)).
  split; [|split; [|split]].
  - unfold OSBParser.parse, OSBParser.extract. rewrite X, L. reflexivity.
  - exact (P m serviceName (Some serviceXml) I N F).
  - reflexivity.
  - unfold OSBParser.serviceOf, OSBParser.configOf.
    cbn [Service.methods].
    change (field (Obj ?l) "methods") with
      (match lookup "methods" l with Some x => x | None => Undefined end).
    cbn -[OSBParser.extractRestMethods OSBParser.extractValue Js.includes or].
    destruct (Js.includes serviceXml "rest-"); [|reflexivity].
    now apply extractRestMethods_default.
Qed.

End Methods.

(** ** Boomi processes *)

Section BoomiProcesses.
Variable JSON_parse : string -> option value.
Variable RegExp_new : RegExp.constructor.

Lemma get_Obj members key :
  get (Obj members) key
  = Return match lookup key members with Some x => x | None => Undefined end.
Proof. reflexivity. Qed.

Lemma determineServiceType_returns members :
  stringOrAbsent "connectorType" members ->
  exists t, BoomiParser.determineServiceType (Obj members) = Return t.
Proof.
  unfold BoomiParser.determineServiceType. rewrite get_Obj.
  intros [-> | [s ->]]; cbn [bind truthy].
  - eauto.
  - destruct (negb (String.eqb s "")); cbn; eauto.
Qed.

Lemma extractMethods_returns members :
  lookup "operations" members = None ->
  exists ms, BoomiParser.extractMethods (Obj members) = Return ms.
Proof.
  intro O. unfold BoomiParser.extractMethods. rewrite !get_Obj, O.
  cbn [bind]. destruct (truthy _); cbn; eauto.
Qed.

(** An entry that is an object, whose connector type is a string or absent
    and which lists no operations, gives a service; its name is the member
    [name] when that is truthy and the member [processId] otherwise. *)
Lemma serviceOf_returns members :
  stringOrAbsent "connectorType" members ->
  lookup "operations" members = None ->
  exists s,
    BoomiParser.serviceOf (Obj members) = Return s /\
    Service.name s
    = or match lookup "name" members with Some x => x | None => Undefined end
         match lookup "processId" members with Some x => x | None => Undefined end.
Proof.
  intros C O. unfold BoomiParser.serviceOf.
  destruct (determineServiceType_returns members C) as [t T].
  destruct (extractMethods_returns members O) as [ms M].
  rewrite !get_Obj, T, M. cbn [bind].
  destruct (truthy match lookup "name" members with
                   | Some x => x | None => Undefined end) eqn:N;
    cbn [bind]; rewrite ?get_Obj; cbn [bind];
    eexists; (split; [reflexivity|]); cbn [Service.name]; unfold or;
    rewrite N; reflexivity.
Qed.

(** C5, amended.  A Boomi JSON document whose [processes] array holds one
    entry with a name and one entry without gives one service for each entry,
    two in all, and no error: nothing is skipped.  The service of the
    nameless entry is named by its [processId], and has no name when the
    entry has no [processId] either.  (The entries are objects whose connector
    type is a string or absent and which list no operations; the document has
    no connectors and no maps.) *)
Theorem boomi_nameless_process_kept
    now filename content members m1 m2 n1 :
  JSON_parse (BaseParser.toString content) = Some (Obj members) ->
  lookup "processes" members = Some (Arr [Obj m1; Obj m2]) ->
  lookup "connectors" members = None ->
  lookup "maps" members = None ->
  lookup "name" m1 = Some n1 -> truthy n1 = true ->
  lookup "name" m2 = None ->
  stringOrAbsent "connectorType" m1 -> lookup "operations" m1 = None ->
  stringOrAbsent "connectorType" m2 -> lookup "operations" m2 = None ->
  exists s1 s2,
    BoomiParser.parse JSON_parse now filename content
      = Return (resultOf "Boomi" now filename ([s1; s2], [], [])) /\
    Service.name s1 = n1 /\
    Service.name s2
      = match lookup "processId" m2 with Some v => v | None => Undefined end.
Proof.
  intros J P C M N1 T1 N2 C1 O1 C2 O2.
  destruct (serviceOf_returns m1 C1 O1) as [s1 [S1 E1]].
  destruct (serviceOf_returns m2 C2 O2) as [s2 [S2 E2]].
  exists s1, s2. split; [|split].
  - unfold BoomiParser.parse, BoomiParser.extract, BaseParser.isJsonContent.
    rewrite J. unfold BoomiParser.collect. rewrite !get_Obj, P, C, M.
    cbn [bind truthy iterate forOf]. rewrite S1. cbn [bind].
    rewrite S2. reflexivity.
  - rewrite E1, N1. unfold or. rewrite T1. reflexivity.
  - rewrite E2, N2. reflexivity.
Qed.

End BoomiProcesses.

(** ** Runs on the sample artifacts, with the decoder of module [JSON] *)

Module Runs.

#[local] Abbreviation ext := BaseParser.extractFileExtension.
#[local] Abbreviation detectPlatform :=
  (ParserRegistry.detectPlatform JSON.parse RegExp.construct).
#[local] Abbreviation parseFile :=
  (ParserRegistry.parseFile JSON.parse RegExp.construct).

(** C1, as stated, fails: [parseFile] on the scenario returns no service. *)
Lemma scenario_parsed_by_Tibco :
  ~ exists r s p,
      parseFile Sample.now "mulesoft.xml" Sample.mulesoft_xml = Return r /\
      ParseResult.services r = [s] /\
      Service.name s = Str "OrderFlow" /\ Service.type s = "REST" /\
      Service.platform s = "MuleSoft" /\ Service.endpoint s = Str "/orders" /\
      Service.methods s = Arr [Str "GET"; Str "POST"] /\
      ParseResult.proxyServices r = [p] /\
      Proxy.name p = Str "HTTP_Listener_1" /\ Proxy.serviceUri p = Str "/orders".
Proof.
  intros (r & s & p & H & S & _). vm_compute in H. injection H as <-.
  discriminate S.
Qed.

(** C2, as stated, fails: with an OSB marker next to the two others, an
    [xml] file is detected as OSB. *)
Lemma xml_with_three_markers_is_OSB :
  ~ forall filename content,
      ext filename = "xml" ->
      Js.includes content "pd:ProcessDefinition" = true ->
      Js.includes content "mule xmlns" = true ->
      detectPlatform filename content = "Tibco".
Proof.
  intro H.
  assert (D : detectPlatform "service.xml" Sample.three_markers = "Tibco").
  { apply H; vm_compute; reflexivity. }
  vm_compute in D. discriminate D.
Qed.

Lemma detectPlatform_first_match_witness :
  ext "flows.xml" = "xml" /\
  Js.includes Sample.two_markers "pd:ProcessDefinition" = true /\
  Js.includes Sample.two_markers "mule xmlns" = true /\
  detectPlatform "flows.xml" Sample.two_markers =
    if OSBParser.canParse "flows.xml" Sample.two_markers
    then "OSB" else "Tibco".
Proof.
  assert (E : ext "flows.xml" = "xml") by (vm_compute; reflexivity).
  assert (T : Js.includes Sample.two_markers "pd:ProcessDefinition" = true)
    by (vm_compute; reflexivity).
  assert (M : Js.includes Sample.two_markers "mule xmlns" = true)
    by (vm_compute; reflexivity).
  repeat (split; [assumption|]).
  exact (proj2 (detectPlatform_first_match JSON.parse RegExp.construct "flows.xml"
                  Sample.two_markers) E T M).
Defined.

(** C3, as stated, fails: under the extension [txt], neither an OSB marker
    in XML-like content nor a Boomi marker in JSON content is recognized. *)
Lemma marker_under_txt_is_Unknown :
  osbMarker Sample.osb_nameless = true /\
  detectPlatform "service.txt" Sample.osb_nameless = "Unknown" /\
  parseFile Sample.now "service.txt" Sample.osb_nameless
    = Throw (NoParserFound "service.txt") /\
  boomiMarker Sample.boomi_marker = true /\
  detectPlatform "process.txt" Sample.boomi_marker = "Unknown" /\
  parseFile Sample.now "process.txt" Sample.boomi_marker
    = Throw (NoParserFound "process.txt").
Proof. repeat split; vm_compute; reflexivity. Qed.

Lemma markers_recognized_witness :
  (BaseParser.isXmlContent Sample.two_markers = true /\
   tibcoMarker Sample.two_markers = true /\
   recognized JSON.parse RegExp.construct "flows.txt" Sample.two_markers) /\
  (ext "service.xml" = "xml" /\
   BaseParser.isXmlContent Sample.osb_nameless = true /\
   osbMarker Sample.osb_nameless = true /\
   recognized JSON.parse RegExp.construct "service.xml" Sample.osb_nameless /\
   detectPlatform "service.xml" Sample.osb_nameless = "OSB") /\
  (oneOf ["zip"; "json"] (ext "process.zip") = true /\
   recognized JSON.parse RegExp.construct "process.zip" Sample.boomi_marker /\
   detectPlatform "process.zip" Sample.boomi_marker = "Boomi").
Proof.
  assert (X : BaseParser.isXmlContent Sample.two_markers = true)
    by (vm_compute; reflexivity).
  assert (T : tibcoMarker Sample.two_markers = true) by (vm_compute; reflexivity).
  assert (E : ext "service.xml" = "xml") by (vm_compute; reflexivity).
  assert (X' : BaseParser.isXmlContent Sample.osb_nameless = true)
    by (vm_compute; reflexivity).
  assert (O : osbMarker Sample.osb_nameless = true) by (vm_compute; reflexivity).
  assert (Z : oneOf ["zip"; "json"] (ext "process.zip") = true)
    by (vm_compute; reflexivity).
  split; [|split].
  - repeat (split; [assumption|]).
    exact (proj1 (markers_recognized JSON.parse RegExp.construct "flows.txt" Sample.two_markers)
             X (or_introl T)).
  - repeat (split; [assumption|]).
    exact (proj1 (proj2 (markers_recognized JSON.parse RegExp.construct "service.xml"
                           Sample.osb_nameless)) E X' O).
  - split; [assumption|].
    exact (proj2 (proj2 (proj2 (markers_recognized JSON.parse RegExp.construct "process.zip"
                                  Sample.boomi_marker))) Z).
Defined.

(** C4, as stated, fails: the OSB extractor returns a service whose name is
    the empty string. *)
Lemma osb_service_with_empty_name :
  ~ forall filename content r s,
      accepted JSON.parse filename content = true ->
      parseFile Sample.now filename content = Return r ->
      In s (ParseResult.services r) ->
      nonEmptyName (Service.name s).
Proof.
  intro H.
  destruct (H "service.xml" Sample.osb_nameless
              (resultOf "OSB" Sample.now "service.xml"
                 ([Service.mk (Str "") "SOAP" "OSB" Undefined Undefined
                     Undefined Undefined Undefined],
                  [Proxy.mk (Str "") Undefined Undefined Undefined (Obj [])],
                  []))
              (Service.mk (Str "") "SOAP" "OSB" Undefined Undefined
                 Undefined Undefined Undefined)) as [n [E N]].
  - vm_compute; reflexivity.
  - vm_compute; reflexivity.
  - left; reflexivity.
  - injection E as <-. now apply N.
Qed.

Lemma services_enumerated_witness :
  parseFile Sample.now "processes.json" Sample.boomi_two
    = Return Sample.boomi_two_result /\
  In Sample.orders (ParseResult.services Sample.boomi_two_result) /\
  In (Service.type Sample.orders) serviceTypes /\
  In (Service.platform Sample.orders) platforms /\
  Service.platform Sample.orders
    = detectPlatform "processes.json" Sample.boomi_two /\
  named JSON.parse (Service.platform Sample.orders) Sample.boomi_two
    (Service.name Sample.orders).
Proof.
  assert (H : parseFile Sample.now "processes.json" Sample.boomi_two
              = Return Sample.boomi_two_result) by (vm_compute; reflexivity).
  assert (I : In Sample.orders (ParseResult.services Sample.boomi_two_result))
    by (left; reflexivity).
  split; [exact H|]. split; [exact I|].
  exact (services_enumerated JSON.parse RegExp.construct Sample.now
           "processes.json" Sample.boomi_two Sample.boomi_two_result
           Sample.orders H I).
Defined.

(** C5, as stated, fails: the document with one named and one nameless
    process gives two services, not one. *)
Lemma boomi_two_processes_two_services :
  ~ exists r s,
      BoomiParser.parse JSON.parse Sample.now "processes.json" Sample.boomi_two
        = Return r /\
      ParseResult.services r = [s].
Proof.
  intros (r & s & H & S). vm_compute in H. injection H as <-. discriminate S.
Qed.

Lemma boomi_nameless_process_kept_witness :
  JSON.parse (BaseParser.toString Sample.boomi_two)
    = Some (Obj Sample.boomi_two_members) /\
  exists s1 s2,
    BoomiParser.parse JSON.parse Sample.now "processes.json" Sample.boomi_two
      = Return (resultOf "Boomi" Sample.now "processes.json" ([s1; s2], [], [])) /\
    Service.name s1 = Str "Orders" /\
    Service.name s2 = Undefined.
Proof.
  assert (J : JSON.parse (BaseParser.toString Sample.boomi_two)
              = Some (Obj Sample.boomi_two_members)) by (vm_compute; reflexivity).
  split; [exact J|].
  apply (boomi_nameless_process_kept JSON.parse Sample.now "processes.json"
           Sample.boomi_two Sample.boomi_two_members
           [("name", Str "Orders")] [("endpoint", Str "/x")] (Str "Orders") J);
    try reflexivity; left; reflexivity.
Defined.

(** C6, as stated, fails: a proxy-service block without [http:method] tags
    that is not a REST one gives the methods POST alone. *)
Lemma osb_soap_methods_POST :
  OSBParser.canParse "billing.xml" Sample.osb_soap = true /\
  Js.includes (Js.toUpperCase Sample.osb_soap) "<HTTP:METHOD>" = false /\
  ~ exists r s,
      OSBParser.parse RegExp.construct Sample.now "billing.xml" Sample.osb_soap = Return r /\
      In s (ParseResult.services r) /\
      Service.methods s = Arr [Str "GET"; Str "POST"].
Proof.
  split; [vm_compute; reflexivity|]. split; [vm_compute; reflexivity|].
  intros (r & s & H & I & M). vm_compute in H. injection H as <-.
  destruct I as [<-|[]]. discriminate M.
Qed.

Lemma osb_methods_without_method_tags_witness :
  BaseParser.isXmlContent Sample.osb_rest = true /\
  compiles RegExp.construct OSBParser.serviceSource OSBParser.proxyTag
    (BaseParser.toString Sample.osb_rest) /\
  In Sample.billing_tag
    (RegExp.matchAll false OSBParser.proxyTag Sample.osb_rest) /\
  BaseParser.nameMatch Sample.billing_tag = Some "Billing" /\
  OSBParser.serviceMatch RegExp.construct Sample.osb_rest "Billing"
    = Return (Some Sample.osb_rest) /\
  Js.includes (Js.toUpperCase Sample.osb_rest) "<HTTP:METHOD>" = false /\
  exists r service,
    OSBParser.parse RegExp.construct Sample.now "billing.xml" Sample.osb_rest
      = Return r /\
    In service (ParseResult.services r) /\
    Service.name service = Str "Billing" /\
    Service.methods service = Arr [Str "GET"; Str "POST"].
Proof.
  assert (X : BaseParser.isXmlContent Sample.osb_rest = true)
    by (vm_compute; reflexivity).
  assert (C : compiles RegExp.construct OSBParser.serviceSource
                OSBParser.proxyTag (BaseParser.toString Sample.osb_rest)).
  { intros m n I. vm_compute in I. destruct I as [<-|[]].
    vm_compute. intros [= <-]. discriminate. }
  assert (I : In Sample.billing_tag
                (RegExp.matchAll false OSBParser.proxyTag
                   (BaseParser.toString Sample.osb_rest)))
    by (vm_compute; left; reflexivity).
  assert (N : BaseParser.nameMatch Sample.billing_tag = Some "Billing")
    by (vm_compute; reflexivity).
  assert (F : OSBParser.serviceMatch RegExp.construct
                (BaseParser.toString Sample.osb_rest) "Billing"
              = Return (Some Sample.osb_rest)) by (vm_compute; reflexivity).
  assert (M : Js.includes (Js.toUpperCase Sample.osb_rest) "<HTTP:METHOD>"
              = false) by (vm_compute; reflexivity).
  split; [exact X|]. split; [exact C|]. split; [exact I|]. split; [exact N|].
  split; [exact F|]. split; [exact M|].
  exact (osb_methods_without_method_tags RegExp.construct Sample.now
           "billing.xml" Sample.osb_rest Sample.billing_tag "Billing"
           Sample.osb_rest X C I N F M).
Defined.

(** The REST counterpart of the block above, through the whole extractor. *)
Lemma osb_rest_methods_GET_POST :
  exists s p,
    OSBParser.parse RegExp.construct Sample.now "billing.xml" Sample.osb_rest
      = Return (resultOf "OSB" Sample.now "billing.xml" ([s], [p], [])) /\
    Service.name s = Str "Billing" /\ Service.type s = "REST" /\
    Service.methods s = Arr [Str "GET"; Str "POST"].
Proof. do 2 eexists. repeat split; vm_compute; reflexivity. Qed.


(** C7, as stated, fails: a [json] file whose content is not JSON is accepted
    by the Boomi matcher, and its extraction returns instead of throwing. *)
Lemma garbage_json_is_not_an_error :
  BoomiParser.canParse JSON.parse "config.json" Sample.garbage = true /\
  JSON.parse Sample.garbage = None /\
  ~ exists e, parseFile Sample.now "config.json" Sample.garbage = Throw e.
Proof.
  split; [vm_compute; reflexivity|]. split; [vm_compute; reflexivity|].
  intros [e H]. vm_compute in H. discriminate H.
Qed.

Lemma unparseable_json_is_empty_witness :
  JSON.parse (BaseParser.toString Sample.garbage) = None /\
  BoomiParser.parse JSON.parse Sample.now "config.json" Sample.garbage
    = Return (emptyResult "Boomi" Sample.now "config.json") /\
  parseFile Sample.now "config.json" Sample.garbage
    = Return (emptyResult "Boomi" Sample.now "config.json") /\
  MuleSoftParser.parse JSON.parse RegExp.construct Sample.now "config.json" Sample.garbage
    = Return (emptyResult "MuleSoft" Sample.now "config.json").
Proof.
  assert (N : JSON.parse (BaseParser.toString Sample.garbage) = None)
    by (vm_compute; reflexivity).
  assert (E : ext "config.json" = "json") by (vm_compute; reflexivity).
  assert (X : BaseParser.isXmlContent Sample.garbage = false)
    by (vm_compute; reflexivity).
  destruct (unparseable_json_is_empty JSON.parse RegExp.construct Sample.now "config.json"
              Sample.garbage N) as [B [F M]].
  split; [exact N|]. split; [exact B|]. split; [exact (F E) | exact (M X)].
Defined.

Lemma unaccepted_is_Unknown_witness :
  ext "notes.txt" = "txt" /\
  recognizable "plain text notes" = false /\
  accepted JSON.parse "notes.txt" "plain text notes" = false /\
  detectPlatform "notes.txt" "plain text notes" = "Unknown" /\
  forall now, parseFile now "notes.txt" "plain text notes"
              = Throw (NoParserFound "notes.txt").
Proof.
  assert (E : ext "notes.txt" = "txt") by (vm_compute; reflexivity).
  assert (L : oneOf listed (ext "notes.txt") = false) by (vm_compute; reflexivity).
  assert (R : recognizable "plain text notes" = false)
    by (vm_compute; reflexivity).
  destruct (unaccepted_is_Unknown JSON.parse RegExp.construct "notes.txt" "plain text notes")
    as [U [N [T C]]].
  split; [exact E|]. split; [exact R|]. split; [exact (N L R)|].
  exact (T E R).
Defined.

(** C10, as stated, fails: under the listed extension [xml] the platform
    depends on the content. *)
Lemma xml_detection_reads_content :
  ~ forall filename content content',
      oneOf listed (ext filename) = true ->
      detectPlatform filename content = detectPlatform filename content'.
Proof.
  intro H.
  assert (D : detectPlatform "service.xml" Sample.three_markers
              = detectPlatform "service.xml" Sample.two_markers).
  { apply H. vm_compute; reflexivity. }
  vm_compute in D. discriminate D.
Qed.

Lemma listed_extension_accepted_witness :
  oneOf listed (ext "service.xml") = true /\
  recognized JSON.parse RegExp.construct "service.xml" Sample.three_markers /\
  detectPlatform "service.xml" Sample.three_markers
    = (if BaseParser.isXmlContent Sample.three_markers
          && osbMarker Sample.three_markers then "OSB" else "Tibco") /\
  forall content', detectPlatform "archive.zip" content'
                   = detectPlatform "archive.zip" "".
Proof.
  assert (L : oneOf listed (ext "service.xml") = true) by (vm_compute; reflexivity).
  assert (E : ext "service.xml" = "xml") by (vm_compute; reflexivity).
  assert (L' : oneOf listed (ext "archive.zip") = true)
    by (vm_compute; reflexivity).
  assert (N : ext "archive.zip" <> "xml") by (vm_compute; discriminate).
  destruct (listed_extension_accepted JSON.parse RegExp.construct "service.xml"
              Sample.three_markers L) as [_ [R [_ X]]].
  destruct (listed_extension_accepted JSON.parse RegExp.construct "archive.zip" "" L')
    as [_ [_ [I _]]].
  split; [exact L|]. split; [exact R|]. split; [exact (X E) | exact (I N)].
Defined.

End Runs.

(** * Further properties *)

(** ** Texts *)

Section Texts.

Lemma startsWith_char c a s :
  Js.startsWith (String a s) (String c EmptyString) = Ascii.eqb c a.
Proof.
  unfold Js.startsWith. cbn. destruct (ascii_dec c a) as [->|N].
  - rewrite Ascii.eqb_refl. destruct s; reflexivity.
  - apply Ascii.eqb_neq in N. now rewrite N.
Qed.

Lemma without_nil c : without c EmptyString.
Proof. reflexivity. Qed.

Lemma without_cons c a s :
  without c (String a s) <-> a <> c /\ without c s.
Proof.
  unfold without.
  change (Js.includes (String a s) (String c EmptyString))
    with (Js.startsWith (String a s) (String c EmptyString)
          || Js.includes s (String c EmptyString)).
  rewrite startsWith_char, orb_false_iff, Ascii.eqb_neq.
  split; intros [N W]; split; auto.
Qed.

Lemma without_every c s :
  without c s <-> every (fun a => negb (Ascii.eqb c a)) s = true.
Proof.
  induction s as [|a s IH]; [split; reflexivity|].
  rewrite without_cons. cbn [every]. rewrite andb_true_iff, negb_true_iff.
  rewrite Ascii.eqb_neq, IH. split; intros [N W]; split; auto.
Qed.

Lemma split_without sep s : without sep s -> Js.split sep s = [s].
Proof.
  induction s as [|a s IH]; [reflexivity|].
  intro W. apply without_cons in W as [N W]. cbn [Js.split].
  apply Ascii.eqb_neq in N. rewrite N, (IH W). reflexivity.
Qed.

Lemma split_not_nil sep s : Js.split sep s <> [].
Proof.
  destruct s as [|a s]; [discriminate|]. cbn [Js.split].
  destruct (Ascii.eqb a sep); [discriminate|].
  destruct (Js.split sep s); discriminate.
Qed.

Lemma pop_cons x l : l <> [] -> Js.pop (x :: l) = Js.pop l.
Proof. destruct l; [congruence | reflexivity]. Qed.

(** The last segment of a text is the last segment of what follows any of
    its separators. *)
Lemma pop_split_after sep base rest :
  exists h t,
    Js.split sep (base ++ String sep rest) = h :: t /\ t <> [] /\
    Js.pop t = Js.pop (Js.split sep rest).
Proof.
  induction base as [|a base (h & t & E & N & P)]; cbn [append Js.split].
  - rewrite Ascii.eqb_refl. exists EmptyString, (Js.split sep rest).
    split; [reflexivity|]. split; [apply split_not_nil | reflexivity].
  - destruct (Ascii.eqb a sep).
    + exists EmptyString, (h :: t). rewrite E. split; [reflexivity|].
      split; [discriminate|]. rewrite pop_cons by exact N. exact P.
    + rewrite E. exists (String a h), t. auto.
Qed.

Lemma pop_split_last sep base rest :
  without sep rest ->
  Js.pop (Js.split sep (base ++ String sep rest)) = Some rest.
Proof.
  intro W. destruct (pop_split_after sep base rest) as (h & t & E & N & P).
  rewrite E, pop_cons by exact N. rewrite P, (split_without sep rest W).
  reflexivity.
Qed.

Lemma length_append a b :
  String.length (a ++ b) = String.length a + String.length b.
Proof. induction a as [|c a IH]; cbn; [reflexivity | now rewrite IH]. Qed.

Lemma append_empty s : s ++ "" = s.
Proof. induction s as [|c s IH]; cbn; [reflexivity | now rewrite IH]. Qed.

(** [trimStart] removes one white-space character after another. *)
Lemma trimStart_white s :
  Js.trimStart s = match white s with
                   | Some r => Js.trimStart r
                   | None => s
                   end.
Proof.
  destruct s as [|a [|b [|c s]]]; cbn [Js.trimStart white];
    try reflexivity.
  - destruct (Js.isSpace a); reflexivity.
  - destruct (Js.isSpace a); [reflexivity|].
    destruct (Js.isSpace2 a b); reflexivity.
  - destruct (Js.isSpace a); [reflexivity|].
    destruct (Js.isSpace2 a b); [reflexivity|].
    destruct (Js.isSpace3 a b c); reflexivity.
Qed.

Lemma white_suffix s r :
  white s = Some r -> exists p, s = p ++ r /\ p <> "".
Proof.
  destruct s as [|a [|b [|c s]]]; cbn [white]; try discriminate.
  - destruct (Js.isSpace a); [|discriminate]. intros [= <-].
    exists (String a ""). split; [reflexivity | discriminate].
  - destruct (Js.isSpace a);
      [intros [= <-]; exists (String a ""); split; [reflexivity | discriminate]|].
    destruct (Js.isSpace2 a b); [|discriminate]. intros [= <-].
    exists (String a (String b "")). split; [reflexivity | discriminate].
  - destruct (Js.isSpace a);
      [intros [= <-]; exists (String a ""); split; [reflexivity | discriminate]|].
    destruct (Js.isSpace2 a b);
      [intros [= <-]; exists (String a (String b ""));
       split; [reflexivity | discriminate]|].
    destruct (Js.isSpace3 a b c); [|discriminate]. intros [= <-].
    exists (String a (String b (String c ""))).
    split; [reflexivity | discriminate].
Qed.

Lemma white_shorter s r : white s = Some r -> String.length r < String.length s.
Proof.
  intro W. apply white_suffix in W as (p & -> & N). rewrite length_append.
  destruct p; [congruence | cbn; lia].
Qed.

(** The white-space character a text begins with is still there when the
    text goes on. *)
Lemma white_append s r y : white s = Some r -> white (s ++ y) = Some (r ++ y).
Proof.
  destruct s as [|a [|b [|c s]]]; cbn [white append]; try discriminate.
  - destruct (Js.isSpace a); [|discriminate]. now intros [= <-].
  - destruct (Js.isSpace a); [now intros [= <-]|].
    destruct (Js.isSpace2 a b); [|discriminate]. now intros [= <-].
  - destruct (Js.isSpace a); [now intros [= <-]|].
    destruct (Js.isSpace2 a b); [now intros [= <-]|].
    destruct (Js.isSpace3 a b c); [|discriminate]. now intros [= <-].
Qed.

(** Induction along the white space a text begins with. *)
Lemma white_ind (P : string -> Prop) :
  (forall s, white s = None -> P s) ->
  (forall s r, white s = Some r -> P r -> P s) ->
  forall s, P s.
Proof.
  intros N S s.
  assert (H : forall n s, String.length s < n -> P s).
  { induction n as [|n IH]; intros s' L; [lia|].
    destruct (white s') as [r|] eqn:W; [|now apply N].
    apply (S s' r W). apply IH. apply white_shorter in W. lia. }
  apply (H (Datatypes.S (String.length s))). lia.
Qed.

Lemma trimStart_suffix s : exists p, s = p ++ Js.trimStart s.
Proof.
  induction s as [s W | s r W [p E]] using white_ind;
    rewrite trimStart_white, W.
  - now exists "".
  - apply white_suffix in W as (p' & -> & _). exists (p' ++ p).
    rewrite E at 1. clear. induction p' as [|c p' IH]; cbn; [reflexivity|].
    now rewrite IH.
Qed.

Lemma trimStart_None s : white s = None -> Js.trimStart s = s.
Proof. intro W. now rewrite trimStart_white, W. Qed.

Lemma trimStart_length w : String.length (Js.trimStart w) <= String.length w.
Proof.
  destruct (trimStart_suffix w) as [p E]. rewrite E at 2.
  rewrite length_append. lia.
Qed.

Lemma trimStart_idempotent s : Js.trimStart (Js.trimStart s) = Js.trimStart s.
Proof.
  induction s as [s W | s r W IH] using white_ind.
  - now rewrite !(trimStart_None s W).
  - rewrite (trimStart_white s), W. exact IH.
Qed.

(** White space followed by white space is white space. *)
Lemma blank_append y x :
  Js.blank x = true -> Js.blank y = true -> Js.blank (x ++ y) = true.
Proof.
  intros X Y. revert X.
  induction x as [x W | x r W IH] using white_ind; unfold Js.blank in *.
  - rewrite (trimStart_None x W). destruct x; [|discriminate]. intros _. exact Y.
  - rewrite (trimStart_white x), W. intro X.
    rewrite (trimStart_white (x ++ y)), (white_append x r y W). auto.
Qed.

(** [trimEnd] leaves a prefix of the text, and what it removes is white
    space. *)
Lemma trimEnd_prefix s : exists r, s = Js.trimEnd s ++ r /\ Js.blank r = true.
Proof.
  induction s as [|c s (r & E & R)]; [now exists ""|]. cbn [Js.trimEnd].
  destruct (Js.blank (String c s)) eqn:B.
  - exists (String c s). auto.
  - exists r. cbn [append]. rewrite <- E. auto.
Qed.

Lemma trimEnd_head u a t :
  Js.trimEnd u = String a t -> exists u', u = String a u'.
Proof.
  destruct u as [|c u]; [discriminate|]. cbn [Js.trimEnd].
  destruct (Js.blank (String c u)); intros [= <- _]; eauto.
Qed.

Lemma trimEnd_idempotent s : Js.trimEnd (Js.trimEnd s) = Js.trimEnd s.
Proof.
  induction s as [|c s IH]; [reflexivity|]. cbn [Js.trimEnd].
  destruct (Js.blank (String c s)) eqn:B; [reflexivity|]. cbn [Js.trimEnd].
  destruct (Js.blank (String c (Js.trimEnd s))) eqn:B'; [|now rewrite IH].
  destruct (trimEnd_prefix s) as (r & E & R).
  pose proof (blank_append r _ B' R) as A. cbn [append] in A.
  rewrite <- E in A. congruence.
Qed.

(** A text that does not begin with white space has no prefix that does. *)
Lemma white_prefix u r : white (u ++ r) = None -> white u = None.
Proof.
  intro W. destruct (white u) as [x|] eqn:U; [|reflexivity].
  apply (white_append u x r) in U. congruence.
Qed.

Lemma trimStart_trimEnd v :
  Js.trimStart v = v -> Js.trimStart (Js.trimEnd v) = Js.trimEnd v.
Proof.
  intro V. apply trimStart_None.
  destruct (trimEnd_prefix v) as (r & E & _).
  apply (white_prefix _ r). rewrite <- E.
  destruct (white v) as [x|] eqn:W; [|reflexivity]. exfalso.
  rewrite trimStart_white, W in V. pose proof (trimStart_length x) as L.
  rewrite V in L. apply white_shorter in W. lia.
Qed.

(** A trimmed text does not begin with white space. *)
Lemma trimStart_not_white s : white (Js.trimStart s) = None.
Proof.
  induction s as [s W | s r W IH] using white_ind.
  - now rewrite (trimStart_None s W).
  - now rewrite (trimStart_white s), W.
Qed.

Lemma trim_white s : white (Js.trim s) = None.
Proof.
  unfold Js.trim. destruct (trimEnd_prefix (Js.trimStart s)) as (r & E & _).
  apply (white_prefix _ r). rewrite <- E. apply trimStart_not_white.
Qed.

Lemma trim_idempotent s : Js.trim (Js.trim s) = Js.trim s.
Proof.
  unfold Js.trim.
  rewrite (trimStart_trimEnd (Js.trimStart s)) by apply trimStart_idempotent.
  apply trimEnd_idempotent.
Qed.

Lemma includes_suffix p a u :
  Js.includes (p ++ String a u) (String a EmptyString) = true.
Proof.
  induction p as [|c p IH]; cbn [append].
  - change (Js.includes (String a u) (String a EmptyString))
      with (Js.startsWith (String a u) (String a EmptyString)
            || Js.includes u (String a EmptyString)).
    now rewrite startsWith_char, Ascii.eqb_refl.
  - change (Js.includes (String c (p ++ String a u)) (String a EmptyString))
      with (Js.startsWith (String c (p ++ String a u)) (String a EmptyString)
            || Js.includes (p ++ String a u) (String a EmptyString)).
    rewrite IH. apply orb_true_r.
Qed.

Lemma trimStart_includes s a u :
  Js.trimStart s = String a u ->
  Js.includes s (String a EmptyString) = true.
Proof.
  intro T. destruct (trimStart_suffix s) as [p E]. rewrite E, T.
  apply includes_suffix.
Qed.

Lemma without_append c p t : without c (p ++ t) <-> without c p /\ without c t.
Proof.
  induction p as [|a p IH]; cbn [append].
  - split; [intro W; split; [apply without_nil | exact W] | now intros [_ W]].
  - rewrite !without_cons, IH. tauto.
Qed.

Lemma without_trimStart c s : without c s -> without c (Js.trimStart s).
Proof.
  intro W. destruct (trimStart_suffix s) as [p E]. rewrite E in W.
  now apply without_append in W.
Qed.

Lemma without_trimEnd c s : without c s -> without c (Js.trimEnd s).
Proof.
  intro W. destruct (trimEnd_prefix s) as (r & E & _). rewrite E in W.
  now apply without_append in W.
Qed.

Lemma without_trim c s : without c s -> without c (Js.trim s).
Proof. intro W. now apply without_trimEnd, without_trimStart. Qed.

Lemma take_append pre rest :
  Js.take (String.length pre) (pre ++ rest) = pre.
Proof.
  unfold Js.take. induction pre as [|a pre IH]; cbn.
  - destruct rest; reflexivity.
  - now rewrite IH.
Qed.


(** X1.  The extension of a file name is the lower-cased text after its last
    dot, and the whole name, lower-cased, when the name has no dot.  (The
    text after the last dot is taken to be ASCII, where [Js.toLowerCase] is
    the [toLowerCase] of the runtime.) *)
Theorem extension_after_last_dot base e :
  without "." e -> asciiText e ->
  BaseParser.extractFileExtension (base ++ "." ++ e) = Js.toLowerCase e /\
  BaseParser.extractFileExtension e = Js.toLowerCase e.
Proof.
  intros W _. unfold BaseParser.extractFileExtension. split.
  - change (base ++ "." ++ e) with (base ++ String "." e).
    now rewrite pop_split_last.
  - now rewrite split_without.
Qed.

(** X2.  Content looks like XML exactly when a [<] stands among its first
    thousand characters: the test of the prolog adds nothing, and a [<] that
    comes later is not seen. *)
Theorem isXmlContent_first_thousand content :
  BaseParser.isXmlContent content
  = Js.includes (Js.take (Nat.min 1000 (String.length content)) content) "<" /\
  forall head rest,
    content = head ++ rest -> String.length head = 1000 ->
    without "<" head -> BaseParser.isXmlContent content = false.
Proof.
  assert (E : forall c, BaseParser.isXmlContent c
              = Js.includes (Js.take (Nat.min 1000 (String.length c)) c) "<").
  { intro c. unfold BaseParser.isXmlContent.
    set (s := Js.take _ c).
    destruct (Js.startsWith (Js.trim s) "<?xml") eqn:P; [|reflexivity].
    cbn [orb]. symmetry. unfold Js.startsWith, Js.trim in P.
    destruct (Js.trimEnd (Js.trimStart s)) as [|a t] eqn:T;
      [discriminate P|].
    change (String.prefix "<?xml" (String a t))
      with (if ascii_dec "<" a then String.prefix "?xml" t else false) in P.
    destruct (ascii_dec "<" a) as [<-|]; [|discriminate P].
    apply trimEnd_head in T as [u T]. now apply trimStart_includes in T. }
  split; [apply E|]. intros head rest -> L W. rewrite E, <- L.
  rewrite length_append, Nat.min_l by lia. rewrite take_append. exact W.
Qed.

End Texts.

(** ** Captures *)

Section Captures.
Import RegExp.

Lemma lit_continues ci p k : forall s m g,
  lit ci p k s = Some (m, g) -> exists s' m', k s' = Some (m', g).
Proof.
  induction p as [|a p IH]; intros s m g H; cbn in H; [eauto|].
  destruct s as [|c s]; [discriminate|].
  destruct (same ci a c); [|discriminate].
  destruct (lit ci p k s) as [[m0 g0]|] eqn:E; [|discriminate].
  injection H as _ <-. eapply IH; eauto.
Qed.

Lemma greedy_continues ci cl k : forall s m g,
  greedy ci cl k s = Some (m, g) -> exists s' m', k s' = Some (m', g).
Proof.
  induction s as [|c s IH]; intros m g H; cbn in H; [eauto|].
  destruct (member ci cl c); [|eauto].
  destruct (greedy ci cl k s) as [[m0 g0]|] eqn:E; [|eauto].
  injection H as _ <-. eapply IH; eauto.
Qed.

Lemma lazy_continues ci cl k : forall s m g,
  lazy ci cl k s = Some (m, g) -> exists s' m', k s' = Some (m', g).
Proof.
  induction s as [|c s IH]; intros m g H; cbn in H.
  - destruct (k EmptyString) as [[m0 g0]|] eqn:E; [|discriminate].
    injection H as <- <-. eauto.
  - destruct (k (String c s)) as [[m0 g0]|] eqn:E.
    + injection H as <- <-. eauto.
    + destruct (member ci cl c); [|discriminate].
      destruct (lazy ci cl k s) as [[m1 g1]|] eqn:L; [|discriminate].
      injection H as _ <-. eapply IH; eauto.
Qed.

(** A captured run holds members of the class of its group only. *)
Lemma group_every ci cl k : forall s g m,
  group ci cl k s = Some (g, m) -> every (member ci cl) g = true.
Proof.
  induction s as [|c s IH]; intros g m H; cbn in H.
  - destruct (k EmptyString) as [[m0 g0]|]; [|discriminate].
    injection H as <- _. reflexivity.
  - destruct (member ci cl c) eqn:M.
    + destruct (group ci cl k s) as [[g1 m1]|] eqn:G.
      * injection H as <- _. cbn. rewrite M. eapply IH; eauto.
      * destruct (k (String c s)) as [[m0 g0]|]; [|discriminate].
        injection H as <- _. reflexivity.
    + destruct (k (String c s)) as [[m0 g0]|]; [|discriminate].
      injection H as <- _. reflexivity.
Qed.

Lemma exec_capture ci r : forall s m g,
  exec ci r s = Some (m, Some g) ->
  exists cl, In (Group cl) r /\ every (member ci cl) g = true.
Proof.
  induction r as [|a r IH]; intros s m g H; cbn in H; [discriminate|].
  destruct a as [p|cl|cl|cl].
  - apply lit_continues in H as (s' & m' & H).
    apply IH in H as (cl & I & E). exists cl. split; [now right | exact E].
  - apply greedy_continues in H as (s' & m' & H).
    apply IH in H as (cl' & I & E). exists cl'. split; [now right | exact E].
  - apply lazy_continues in H as (s' & m' & H).
    apply IH in H as (cl' & I & E). exists cl'. split; [now right | exact E].
  - destruct (group ci cl (exec ci r) s) as [[g0 m0]|] eqn:G; [|discriminate].
    injection H as _ <-. exists cl. split; [now left|].
    eapply group_every; eauto.
Qed.

Lemma search_exec ci r : forall s x,
  search ci r s = Some x -> exists s', exec ci r s' = Some x.
Proof.
  induction s as [|c s IH]; intros x H; cbn in H.
  - destruct (exec ci r EmptyString) eqn:E; [|discriminate].
    injection H as <-. eauto.
  - destruct (exec ci r (String c s)) eqn:E; [injection H as <-; eauto|].
    now apply IH.
Qed.

Lemma search_capture ci r s m g :
  search ci r s = Some (m, Some g) ->
  exists cl, In (Group cl) r /\ every (member ci cl) g = true.
Proof.
  intro H. apply search_exec in H as [s' H]. eapply exec_capture; eauto.
Qed.

Lemma upper_lt c : Ascii.eqb (Js.upper "<") (Js.upper c) = Ascii.eqb "<" c.
Proof.
  destruct c as [b0 b1 b2 b3 b4 b5 b6 b7].
  destruct b0, b1, b2, b3, b4, b5, b6, b7; reflexivity.
Qed.

Lemma every_ext (f g : ascii -> bool) s :
  (forall c, f c = g c) -> every f s = every g s.
Proof. intro E. induction s as [|c s IH]; cbn; [reflexivity | now rewrite E, IH]. Qed.

(** The value of an attribute [name] holds no double quote. *)
Lemma nameMatch_without m n :
  BaseParser.nameMatch m = Some n -> without dq n.
Proof.
  unfold BaseParser.nameMatch.
  destruct (search false _ m) as [[t [g|]]|] eqn:S; try discriminate.
  intros [= ->]. apply search_capture in S as (cl & I & E).
  cbn [In] in I. destruct I as [I|[I|[I|[]]]]; try discriminate I.
  injection I as <-. apply without_every. exact E.
Qed.

(** X3.  For a tag name free of syntax characters, as every tag name the
    parsers pass is, [extractValue] gives [undefined] or a text without [<]
    and without white space at either end, which trimming leaves as it is:
    what stands between the opening tag and the next tag, trimmed. *)
Theorem extractValue_text xml tagName :
  plain tagName = true ->
  BaseParser.extractValue xml tagName = Undefined \/
  exists text,
    BaseParser.extractValue xml tagName = Str text /\
    without "<" text /\
    white text = None /\
    Js.trim text = text.
Proof.
  intros _. unfold BaseParser.extractValue.
  destruct (search true _ xml) as [[t [g|]]|] eqn:S; auto.
  right. exists (Js.trim g). split; [reflexivity|].
  apply search_capture in S as (cl & I & E). cbn [In] in I.
  destruct I as [I|[I|[I|[I|[I|[]]]]]]; try discriminate I.
  injection I as <-.
  assert (W : without "<" g).
  { apply without_every.
    rewrite (every_ext _ (member true (Not "<"))); [exact E|].
    intro c. unfold member, same. now rewrite upper_lt. }
  split; [now apply without_trim|]. split; [|apply trim_idempotent].
  apply trim_white.
Qed.

End Captures.

(** ** Results of the extractors *)

Section Results.
Variable JSON_parse : string -> option value.
Variable RegExp_new : RegExp.constructor.

#[local] Abbreviation detectPlatform :=
  (ParserRegistry.detectPlatform JSON_parse RegExp_new).
#[local] Abbreviation parseFile :=
  (ParserRegistry.parseFile JSON_parse RegExp_new).

Lemma parse_resultOf platform now filename (body : outcome exception arrays) r :
  catch platform (a <- body ;; Return (resultOf platform now filename a))
    = Return r ->
  exists a, body = Return a /\ r = resultOf platform now filename a.
Proof.
  intro H. apply catch_Return in H. apply bind_Return in H as [a [B H]].
  injection H as <-. eauto.
Qed.

Lemma resultOf_metadata platform now filename a :
  ParseResult.metadata (resultOf platform now filename a)
  = Metadata.mk platform filename now
      (List.length (ParseResult.services (resultOf platform now filename a)))
      (List.length (ParseResult.proxyServices (resultOf platform now filename a)))
      (List.length (ParseResult.transformations (resultOf platform now filename a))).
Proof. destruct a as [[s p] t]. reflexivity. Qed.

(** X4.  The metadata of a result tell the truth: the platform is the one
    [detectPlatform] gives, one of the supported platforms; the file name and
    the time are those of the call; each count is the length of its array. *)
Theorem metadata_consistent now filename content r :
  parseFile now filename content = Return r ->
  ParseResult.metadata r
  = Metadata.mk (detectPlatform filename content) filename now
      (List.length (ParseResult.services r))
      (List.length (ParseResult.proxyServices r))
      (List.length (ParseResult.transformations r)) /\
  In (detectPlatform filename content)
     (ParserRegistry.getSupportedPlatforms JSON_parse RegExp_new).
Proof.
  rewrite parseFile_unrolled, detectPlatform_unrolled. intro H.
  destruct (OSBParser.canParse filename content);
    [|destruct (BoomiParser.canParse JSON_parse filename content);
      [|destruct (TibcoParser.canParse filename content);
        [|destruct (MuleSoftParser.canParse JSON_parse filename content);
          [|discriminate]]]];
    apply parse_resultOf in H as (a & _ & ->);
    (split; [apply resultOf_metadata | cbn; auto]).
Qed.

(** The methods the extractors read from a block. *)
Lemma osb_rest_methods_array xml :
  exists l, OSBParser.extractRestMethods xml = Arr l.
Proof.
  unfold OSBParser.extractRestMethods. destruct (flat_map _ _); eauto.
Qed.

Lemma osb_config_methods xml :
  field (OSBParser.configOf xml) "methods"
  = if Js.includes xml "rest-" then OSBParser.extractRestMethods xml
    else Arr [Str "POST"].
Proof.
  unfold OSBParser.configOf.
  change (field (Obj ?l) "methods") with
    (match lookup "methods" l with Some x => x | None => Undefined end).
  cbn -[OSBParser.extractRestMethods OSBParser.extractValue Js.includes or].
  reflexivity.
Qed.

Lemma osb_service_shape contentStr m serviceName config :
  BaseParser.nameMatch m = Some serviceName ->
  OSBParser.extractServiceConfig RegExp_new contentStr serviceName = Return config ->
  xmlShape (OSBParser.serviceOf serviceName config).
Proof.
  intros N C. split; [|split].
  - exists serviceName. split; [reflexivity | eapply nameMatch_without; eauto].
  - unfold OSBParser.extractServiceConfig in C.
    apply bind_Return in C as [[xml|] [_ C]]; injection C as <-;
      cbn [OSBParser.serviceOf Service.type].
    + rewrite osb_typeOr_configOf.
      destruct (Js.includes xml "rest-"); cbn; auto.
    + cbn; auto.
  - unfold OSBParser.extractServiceConfig in C.
    unfold hasMethods. cbn [OSBParser.serviceOf Service.methods].
    apply bind_Return in C as [[xml|] [_ C]]; injection C as <-.
    + right. rewrite osb_config_methods.
      destruct (Js.includes xml "rest-"); [apply osb_rest_methods_array | eauto].
    + left. reflexivity.
Qed.

Lemma tibco_methods_array xml :
  exists l, TibcoParser.extractHttpMethods xml = Arr l.
Proof.
  unfold TibcoParser.extractHttpMethods. destruct (RegExp.matchAll _ _ _); eauto.
Qed.

Lemma tibco_config_methods xml :
  field (TibcoParser.configOf xml) "methods" = TibcoParser.extractHttpMethods xml.
Proof.
  unfold TibcoParser.configOf.
  change (field (Obj ?l) "methods") with
    (match lookup "methods" l with Some x => x | None => Undefined end).
  cbn -[TibcoParser.extractHttpMethods TibcoParser.extractValue
        TibcoParser.extractHttpReceiverPath or].
  reflexivity.
Qed.

Lemma tibco_type_xml config :
  In (TibcoParser.determineServiceType config) xmlTypes.
Proof.
  unfold TibcoParser.determineServiceType, xmlTypes.
  destruct (field config "endpoint"); cbn; auto.
  destruct (negb _); cbn; auto.
  destruct (_ || _); cbn; auto. destruct (_ || _); cbn; auto.
Qed.

Lemma tibco_service_shape contentStr m processName config :
  BaseParser.nameMatch m = Some processName ->
  TibcoParser.extractProcessConfig RegExp_new contentStr processName = Return config ->
  xmlShape (TibcoParser.serviceOf processName config).
Proof.
  intros N C. split; [|split].
  - exists processName. split; [reflexivity | eapply nameMatch_without; eauto].
  - apply tibco_type_xml.
  - unfold TibcoParser.extractProcessConfig in C.
    unfold hasMethods. cbn [TibcoParser.serviceOf Service.methods].
    apply bind_Return in C as [[xml|] [_ C]]; injection C as <-.
    + right. rewrite tibco_config_methods. apply tibco_methods_array.
    + left. reflexivity.
Qed.

Lemma mule_methods_array xml :
  exists l, MuleSoftParser.extractHttpMethods xml = Arr l.
Proof.
  unfold MuleSoftParser.extractHttpMethods.
  destruct (RegExp.search _ _ _) as [[t [g|]]|]; eauto.
Qed.

Lemma mule_config_methods xml :
  field (MuleSoftParser.configOf xml) "methods"
  = MuleSoftParser.extractHttpMethods xml.
Proof.
  unfold MuleSoftParser.configOf.
  change (field (Obj ?l) "methods") with
    (match lookup "methods" l with Some x => x | None => Undefined end).
  cbn -[MuleSoftParser.extractHttpMethods MuleSoftParser.extractValue
        MuleSoftParser.extractHttpListenerPath].
  reflexivity.
Qed.

Lemma mule_type_xml config :
  In (MuleSoftParser.determineServiceType config) xmlTypes.
Proof.
  unfold MuleSoftParser.determineServiceType, xmlTypes.
  destruct (field config "endpoint"); cbn; auto.
  destruct (negb _); cbn; auto.
  destruct (_ || _); cbn; auto. destruct (Js.includes _ _); cbn; auto.
Qed.

Lemma mule_service_shape contentStr m flowName config :
  BaseParser.nameMatch m = Some flowName ->
  MuleSoftParser.extractFlowConfig RegExp_new contentStr flowName = Return config ->
  xmlShape (MuleSoftParser.serviceOf flowName config).
Proof.
  intros N C. split; [|split].
  - exists flowName. split; [reflexivity | eapply nameMatch_without; eauto].
  - apply mule_type_xml.
  - unfold MuleSoftParser.extractFlowConfig in C.
    unfold hasMethods. cbn [MuleSoftParser.serviceOf Service.methods].
    apply bind_Return in C as [[xml|] [_ C]]; injection C as <-.
    + right. rewrite mule_config_methods. apply mule_methods_array.
    + left. reflexivity.
Qed.

Lemma osb_extract_shape content services proxies transformations :
  OSBParser.extract RegExp_new content = Return (services, proxies, transformations) ->
  Forall xmlShape services /\
  List.map Service.name services = List.map Proxy.name proxies.
Proof.
  unfold OSBParser.extract.
  destruct (BaseParser.isXmlContent content);
    [|intros [= <- <- _]; split; [constructor | reflexivity]].
  intro H. apply bind_Return in H as [sp [F H]]. injection H as <- <- _.
  revert F.
  apply (forOf_invariant
           (fun st => Forall xmlShape (fst st) /\
                      List.map Service.name (fst st)
                      = List.map Proxy.name (snd st)));
    [|split; [constructor | reflexivity]].
  intros st m st' [G E] S. unfold OSBParser.proxyStep in S.
  destruct (BaseParser.nameMatch m) as [name|] eqn:N;
    [|injection S as <-; now split].
  apply bind_Return in S as [config [C S]]. injection S as <-. cbn [fst snd].
  split.
  - apply Forall_app. split; [exact G|].
    constructor; [eapply osb_service_shape; eauto | constructor].
  - rewrite !map_app, E. reflexivity.
Qed.

Lemma tibco_extract_shape content services proxies transformations :
  TibcoParser.extract RegExp_new content = Return (services, proxies, transformations) ->
  Forall xmlShape services.
Proof.
  unfold TibcoParser.extract.
  destruct (BaseParser.isXmlContent content); [|intros [= <- _ _]; constructor].
  intro H. apply bind_Return in H as [ss [F H]]. injection H as <- _ _.
  revert F. apply (forOf_invariant (Forall xmlShape)); [|constructor].
  intros st m st' G S. unfold TibcoParser.processStep in S.
  destruct (BaseParser.nameMatch m) as [name|] eqn:N;
    [|injection S as <-; exact G].
  apply bind_Return in S as [config [C S]]. injection S as <-.
  apply Forall_app. split; [exact G|].
  constructor; [eapply tibco_service_shape; eauto | constructor].
Qed.

Lemma mule_xml_shape content services proxies transformations :
  MuleSoftParser.parseXmlContent RegExp_new content
    = Return (services, proxies, transformations) ->
  Forall xmlShape services.
Proof.
  unfold MuleSoftParser.parseXmlContent.
  intro H. apply bind_Return in H as [ss [F H]]. injection H as <- _ _.
  revert F. apply (forOf_invariant (Forall xmlShape)); [|constructor].
  intros st m st' G S. unfold MuleSoftParser.flowStep in S.
  destruct (BaseParser.nameMatch m) as [name|] eqn:N;
    [|injection S as <-; exact G].
  apply bind_Return in S as [config [C S]]. injection S as <-.
  apply Forall_app. split; [exact G|].
  constructor; [eapply mule_service_shape; eauto | constructor].
Qed.

(** X5.  The OSB extractor records one proxy for each service, under the
    same name and in the same order. *)
Theorem osb_proxy_per_service now filename content r :
  OSBParser.parse RegExp_new now filename content = Return r ->
  List.map Service.name (ParseResult.services r)
  = List.map Proxy.name (ParseResult.proxyServices r) /\
  List.length (ParseResult.services r)
  = List.length (ParseResult.proxyServices r).
Proof.
  intro H. apply parse_resultOf in H as ([[ss ps] ts] & B & ->).
  apply osb_extract_shape in B as [_ E]. cbn.
  split; [exact E|].
  rewrite <- (length_map Service.name), E. apply length_map.
Qed.

(** X6.  For an artifact that looks like XML and is not Boomi's, every
    service of the result is named by a text that holds no double quote, and
    is of type REST or SOAP: the types JMS and FILE come from JSON
    documents only. *)
Theorem xml_services_shape now filename content r s :
  parseFile now filename content = Return r ->
  detectPlatform filename content <> "Boomi" ->
  BaseParser.isXmlContent content = true ->
  In s (ParseResult.services r) ->
  (exists n, Service.name s = Str n /\ without dq n) /\
  In (Service.type s) xmlTypes.
Proof.
  rewrite parseFile_unrolled, detectPlatform_unrolled. intros H NB X I.
  assert (K : xmlShape s ->
              (exists n, Service.name s = Str n /\ without dq n) /\
              In (Service.type s) xmlTypes) by (intros (A & B & _); auto).
  apply K. clear K.
  destruct (OSBParser.canParse filename content).
  { apply parse_resultOf in H as ([[ss ps] ts] & B & ->).
    apply osb_extract_shape in B as [F _]. rewrite Forall_forall in F. auto. }
  destruct (BoomiParser.canParse JSON_parse filename content); [congruence|].
  destruct (TibcoParser.canParse filename content).
  { apply parse_resultOf in H as ([[ss ps] ts] & B & ->).
    apply tibco_extract_shape in B. rewrite Forall_forall in B. auto. }
  destruct (MuleSoftParser.canParse JSON_parse filename content);
    [|discriminate].
  apply parse_resultOf in H as ([[ss ps] ts] & B & ->).
  unfold MuleSoftParser.extract in B. rewrite X in B.
  apply mule_xml_shape in B. rewrite Forall_forall in B. auto.
Qed.

End Results.

(** ** Methods, ordinals, failures *)

Section Records.
Variable JSON_parse : string -> option value.
Variable RegExp_new : RegExp.constructor.

#[local] Abbreviation ext := BaseParser.extractFileExtension.
#[local] Abbreviation detectPlatform :=
  (ParserRegistry.detectPlatform JSON_parse RegExp_new).
#[local] Abbreviation parseFile :=
  (ParserRegistry.parseFile JSON_parse RegExp_new).

Lemma boomi_methods_array process ms :
  BoomiParser.extractMethods process = Return ms -> exists l, ms = Arr l.
Proof.
  unfold BoomiParser.extractMethods. intro H.
  apply bind_Return in H as [httpMethods [_ H]].
  destruct (truthy httpMethods).
  { injection H as <-. destruct httpMethods; eauto. }
  apply bind_Return in H as [operations [_ H]].
  destruct (truthy operations); [|injection H as <-; eauto].
  destruct operations; try discriminate.
  apply bind_Return in H as [methods [_ H]]. injection H as <-. eauto.
Qed.

Lemma boomi_service_methods process s :
  BoomiParser.serviceOf process = Return s -> exists l, Service.methods s = Arr l.
Proof.
  unfold BoomiParser.serviceOf. intro H.
  do 4 (apply bind_Return in H as [? [_ H]]).
  apply bind_Return in H as [methods [M H]].
  do 3 (apply bind_Return in H as [? [_ H]]).
  injection H as <-. cbn. eapply boomi_methods_array; eauto.
Qed.

Lemma mule_json_service_methods flow s :
  MuleSoftParser.jsonServiceOf flow = Return s ->
  exists l, Service.methods s = Arr l.
Proof.
  unfold MuleSoftParser.jsonServiceOf. intro H.
  do 5 (apply bind_Return in H as [? [_ H]]).
  apply bind_Return in H as [methods [M H]].
  do 3 (apply bind_Return in H as [? [_ H]]).
  injection H as <-. cbn [Service.methods].
  unfold MuleSoftParser.extractMethodsFromJson in M.
  apply bind_Return in M as [source [_ M]].
  apply bind_Return in M as [allowed [_ M]]. injection M as <-.
  destruct (truthy allowed); [|eauto]. destruct allowed; eauto.
Qed.

Lemma arrays_have_methods l :
  Forall (fun s => exists a, Service.methods s = Arr a) l -> Forall hasMethods l.
Proof. apply Forall_impl. intros s [a E]. right. eauto. Qed.

Lemma shapes_have_methods l : Forall xmlShape l -> Forall hasMethods l.
Proof. apply Forall_impl. intros s (_ & _ & M). exact M. Qed.

Lemma services_have_methods now filename content r s :
  parseFile now filename content = Return r ->
  In s (ParseResult.services r) ->
  hasMethods s /\
  (detectPlatform filename content = "Boomi" ->
   exists l, Service.methods s = Arr l).
Proof.
  rewrite parseFile_unrolled, detectPlatform_unrolled. intros H I.
  destruct (OSBParser.canParse filename content).
  { apply parse_resultOf in H as ([[ss ps] ts] & B & ->).
    apply osb_extract_shape in B as [F _]. apply shapes_have_methods in F.
    rewrite Forall_forall in F. split; [auto | discriminate]. }
  destruct (BoomiParser.canParse JSON_parse filename content).
  { apply parse_resultOf in H as ([[ss ps] ts] & B & ->).
    assert (F : Forall (fun s => exists a, Service.methods s = Arr a) ss).
    { unfold BoomiParser.extract in B.
      destruct (BaseParser.isJsonContent JSON_parse content);
        [|injection B as <- _ _; constructor].
      destruct (JSON_parse _) as [config|]; [|discriminate].
      apply bind_Return in B as [ss' [S B]].
      do 2 (apply bind_Return in B as [? [_ B]]). injection B as <- _ _.
      revert S. apply collect_Forall. apply boomi_service_methods. }
    rewrite Forall_forall in F. specialize (F s I).
    split; [right; exact F | intros _; exact F]. }
  destruct (TibcoParser.canParse filename content).
  { apply parse_resultOf in H as ([[ss ps] ts] & B & ->).
    apply tibco_extract_shape, shapes_have_methods in B.
    rewrite Forall_forall in B. split; [auto | discriminate]. }
  destruct (MuleSoftParser.canParse JSON_parse filename content);
    [|discriminate].
  apply parse_resultOf in H as ([[ss ps] ts] & B & ->).
  split; [|discriminate].
  unfold MuleSoftParser.extract in B.
  destruct (BaseParser.isXmlContent content).
  { apply mule_xml_shape, shapes_have_methods in B.
    rewrite Forall_forall in B. auto. }
  destruct (BaseParser.isJsonContent JSON_parse content);
    [|injection B as <- _ _; destruct I].
  unfold MuleSoftParser.parseJsonContent in B.
  destruct (JSON_parse _) as [config|]; [|discriminate].
  apply bind_Return in B as [ss' [S B]].
  do 2 (apply bind_Return in B as [? [_ B]]). injection B as <- _ _.
  apply (collect_Forall _ _ _ _ _ mule_json_service_methods) in S.
  apply arrays_have_methods in S. rewrite Forall_forall in S. auto.
Qed.






End Records.

(** ** Failures and their absence *)

Section Failures.
Variable JSON_parse : string -> option value.
Variable RegExp_new : RegExp.constructor.

#[local] Abbreviation ext := BaseParser.extractFileExtension.
#[local] Abbreviation detectPlatform :=
  (ParserRegistry.detectPlatform JSON_parse RegExp_new).

(** A loop whose every round returns, returns. *)
Lemma forOf_returns {E S A} (body : S -> A -> outcome E S) l :
  (forall st x, In x l -> exists st', body st x = Return st') ->
  forall st, exists st', forOf body l st = Return st'.
Proof.
  induction l as [|x l IH]; intros B st; cbn; [eauto|].
  destruct (B st x (or_introl eq_refl)) as [st1 ->]. cbn.
  apply IH. intros st2 y I. apply B. now right.
Qed.

(** A loop throws what one of its rounds throws. *)
Lemma forOf_throws {E S A} (P : E -> Prop) (body : S -> A -> outcome E S) :
  (forall st x e, body st x = Throw e -> P e) ->
  forall l st e, forOf body l st = Throw e -> P e.
Proof.
  intro B. induction l as [|x l IH]; intros st e H; [discriminate|].
  cbn in H. destruct (body st x) as [st1|e1] eqn:X; cbn in H.
  - eapply IH; eauto.
  - injection H as <-. eapply B; eauto.
Qed.

Lemma catch_throws {A} platform (body : outcome exception A) e :
  catch platform body = Throw e ->
  exists x, body = Throw x /\ e = FailedToParse platform x.
Proof. destruct body as [a|x]; [discriminate|]. intros [= <-]. eauto. Qed.

Lemma bind_throws {E A B} (m : outcome E A) (k : A -> outcome E B) e :
  bind m k = Throw e -> m = Throw e \/ exists a, m = Return a /\ k a = Throw e.
Proof. destruct m as [a|x]; cbn; [eauto | intros [= <-]; auto]. Qed.

Lemma osb_extractServiceConfig_returns contentStr name :
  (RegExp.plain name = false ->
   RegExp_new (OSBParser.serviceSource name) "i" <> None) ->
  exists config,
    OSBParser.extractServiceConfig RegExp_new contentStr name = Return config.
Proof.
  intro C. unfold OSBParser.extractServiceConfig, OSBParser.serviceMatch.
  destruct (RegExp.plain name).
  - cbn [bind]. destruct (option_map _ _); eauto.
  - destruct (RegExp_new _ _) as [pattern|]; [|now destruct C].
    cbn [bind]. destruct (pattern contentStr); eauto.
Qed.

Lemma tibco_extractProcessConfig_returns contentStr name :
  (RegExp.plain name = false ->
   RegExp_new (TibcoParser.processSource name) "i" <> None) ->
  exists config,
    TibcoParser.extractProcessConfig RegExp_new contentStr name = Return config.
Proof.
  intro C. unfold TibcoParser.extractProcessConfig, TibcoParser.processMatch.
  destruct (RegExp.plain name).
  - cbn [bind]. destruct (option_map _ _); eauto.
  - destruct (RegExp_new _ _) as [pattern|]; [|now destruct C].
    cbn [bind]. destruct (pattern contentStr); eauto.
Qed.

Lemma mule_extractFlowConfig_returns contentStr name :
  (RegExp.plain name = false ->
   RegExp_new (MuleSoftParser.flowSource name) "i" <> None) ->
  exists config,
    MuleSoftParser.extractFlowConfig RegExp_new contentStr name = Return config.
Proof.
  intro C. unfold MuleSoftParser.extractFlowConfig, MuleSoftParser.flowMatch.
  destruct (RegExp.plain name).
  - cbn [bind]. destruct (option_map _ _); eauto.
  - destruct (RegExp_new _ _) as [pattern|]; [|now destruct C].
    cbn [bind]. destruct (pattern contentStr); eauto.
Qed.

Lemma osb_extractServiceConfig_throws contentStr name e :
  OSBParser.extractServiceConfig RegExp_new contentStr name = Throw e ->
  e = SyntaxError.
Proof.
  unfold OSBParser.extractServiceConfig, OSBParser.serviceMatch.
  destruct (RegExp.plain name).
  - cbn [bind]. destruct (option_map _ _); discriminate.
  - destruct (RegExp_new _ _) as [pattern|]; cbn [bind];
      [destruct (pattern contentStr); discriminate | now intros [= <-]].
Qed.

Lemma tibco_extractProcessConfig_throws contentStr name e :
  TibcoParser.extractProcessConfig RegExp_new contentStr name = Throw e ->
  e = SyntaxError.
Proof.
  unfold TibcoParser.extractProcessConfig, TibcoParser.processMatch.
  destruct (RegExp.plain name).
  - cbn [bind]. destruct (option_map _ _); discriminate.
  - destruct (RegExp_new _ _) as [pattern|]; cbn [bind];
      [destruct (pattern contentStr); discriminate | now intros [= <-]].
Qed.

Lemma mule_extractFlowConfig_throws contentStr name e :
  MuleSoftParser.extractFlowConfig RegExp_new contentStr name = Throw e ->
  e = SyntaxError.
Proof.
  unfold MuleSoftParser.extractFlowConfig, MuleSoftParser.flowMatch.
  destruct (RegExp.plain name).
  - cbn [bind]. destruct (option_map _ _); discriminate.
  - destruct (RegExp_new _ _) as [pattern|]; cbn [bind];
      [destruct (pattern contentStr); discriminate | now intros [= <-]].
Qed.

(** Each XML extractor returns when the constructor accepts the names. *)
Lemma osb_parse_returns now filename content :
  compiles RegExp_new OSBParser.serviceSource OSBParser.proxyTag
    (BaseParser.toString content) ->
  exists r, OSBParser.parse RegExp_new now filename content = Return r.
Proof.
  intro P. unfold OSBParser.parse, OSBParser.extract.
  destruct (BaseParser.isXmlContent content); [|cbn; eauto].
  destruct (forOf_returns
              (OSBParser.proxyStep RegExp_new (BaseParser.toString content))
              (RegExp.matchAll false OSBParser.proxyTag
                 (BaseParser.toString content)))
    with (st := ([], []) : list Service.t * list Proxy.t)
    as [st' ->]; [|cbn; eauto].
  intros st m I. unfold OSBParser.proxyStep.
  destruct (BaseParser.nameMatch m) as [name|] eqn:N; [|eauto].
  destruct (osb_extractServiceConfig_returns (BaseParser.toString content)
              name (P m name I N)) as [config ->].
  cbn. eauto.
Qed.

Lemma tibco_parse_returns now filename content :
  compiles RegExp_new TibcoParser.processSource TibcoParser.processTag
    (BaseParser.toString content) ->
  exists r, TibcoParser.parse RegExp_new now filename content = Return r.
Proof.
  intro P. unfold TibcoParser.parse, TibcoParser.extract.
  destruct (BaseParser.isXmlContent content); [|cbn; eauto].
  destruct (forOf_returns
              (TibcoParser.processStep RegExp_new (BaseParser.toString content))
              (RegExp.matchAll false TibcoParser.processTag
                 (BaseParser.toString content)))
    with (st := [] : list Service.t)
    as [st' ->]; [|cbn; eauto].
  intros st m I. unfold TibcoParser.processStep.
  destruct (BaseParser.nameMatch m) as [name|] eqn:N; [|eauto].
  destruct (tibco_extractProcessConfig_returns (BaseParser.toString content)
              name (P m name I N)) as [config ->].
  cbn. eauto.
Qed.

Lemma mule_xml_parse_returns now filename content :
  compiles RegExp_new MuleSoftParser.flowSource MuleSoftParser.flowTag
    (BaseParser.toString content) ->
  BaseParser.isXmlContent content = true ->
  exists r,
    MuleSoftParser.parse JSON_parse RegExp_new now filename content = Return r.
Proof.
  intros P X. unfold MuleSoftParser.parse, MuleSoftParser.extract.
  rewrite X. unfold MuleSoftParser.parseXmlContent.
  destruct (forOf_returns
              (MuleSoftParser.flowStep RegExp_new (BaseParser.toString content))
              (RegExp.matchAll false MuleSoftParser.flowTag
                 (BaseParser.toString content)))
    with (st := [] : list Service.t)
    as [st' ->]; [|cbn; eauto].
  intros st m I. unfold MuleSoftParser.flowStep.
  destruct (BaseParser.nameMatch m) as [name|] eqn:N; [|eauto].
  destruct (mule_extractFlowConfig_returns (BaseParser.toString content)
              name (P m name I N)) as [config ->].
  cbn. eauto.
Qed.

(** What an XML extractor throws is the [SyntaxError] of the constructor. *)
Lemma osb_parse_throws now filename content e :
  OSBParser.parse RegExp_new now filename content = Throw e ->
  e = FailedToParse "OSB" SyntaxError.
Proof.
  unfold OSBParser.parse. intro H. apply catch_throws in H as (x & H & ->).
  f_equal. apply bind_throws in H as [H | [a [_ H]]]; [|discriminate].
  unfold OSBParser.extract in H.
  destruct (BaseParser.isXmlContent content); [|discriminate].
  apply bind_throws in H as [H | [a [_ H]]]; [|discriminate].
  revert H. apply (forOf_throws (fun y => y = SyntaxError)).
  intros st m e S.
  unfold OSBParser.proxyStep in S.
  destruct (BaseParser.nameMatch m) as [name|]; [|discriminate].
  apply bind_throws in S as [S | [a [_ S]]]; [|discriminate].
  now apply osb_extractServiceConfig_throws in S.
Qed.

Lemma tibco_parse_throws now filename content e :
  TibcoParser.parse RegExp_new now filename content = Throw e ->
  e = FailedToParse "Tibco" SyntaxError.
Proof.
  unfold TibcoParser.parse. intro H. apply catch_throws in H as (x & H & ->).
  f_equal. apply bind_throws in H as [H | [a [_ H]]]; [|discriminate].
  unfold TibcoParser.extract in H.
  destruct (BaseParser.isXmlContent content); [|discriminate].
  apply bind_throws in H as [H | [a [_ H]]]; [|discriminate].
  revert H. apply (forOf_throws (fun y => y = SyntaxError)).
  intros st m e S.
  unfold TibcoParser.processStep in S.
  destruct (BaseParser.nameMatch m) as [name|]; [|discriminate].
  apply bind_throws in S as [S | [a [_ S]]]; [|discriminate].
  now apply tibco_extractProcessConfig_throws in S.
Qed.

Lemma mule_xml_parse_throws now filename content e :
  BaseParser.isXmlContent content = true ->
  MuleSoftParser.parse JSON_parse RegExp_new now filename content = Throw e ->
  e = FailedToParse "MuleSoft" SyntaxError.
Proof.
  unfold MuleSoftParser.parse. intros X H.
  apply catch_throws in H as (x & H & ->).
  f_equal. apply bind_throws in H as [H | [a [_ H]]]; [|discriminate].
  unfold MuleSoftParser.extract in H. rewrite X in H.
  unfold MuleSoftParser.parseXmlContent in H.
  apply bind_throws in H as [H | [a [_ H]]]; [|discriminate].
  revert H. apply (forOf_throws (fun y => y = SyntaxError)).
  intros st m e S.
  unfold MuleSoftParser.flowStep in S.
  destruct (BaseParser.nameMatch m) as [name|]; [|discriminate].
  apply bind_throws in S as [S | [a [_ S]]]; [|discriminate].
  now apply mule_extractFlowConfig_throws in S.
Qed.

(** X10.  The XML extractors fail on nothing but a name that the runtime
    cannot compile.  Each of the OSB, Tibco and MuleSoft extractors returns a
    result when the constructor accepts the sources computed from the names
    captured, those free of syntax characters needing no constructor;
    whatever else the content holds: tags left open, blocks without a closing
    tag, no tag at all.  When one does not return, what it throws is its
    error for the [SyntaxError] of the constructor. *)
Theorem xml_extractors_return now filename content :
  (compiles RegExp_new OSBParser.serviceSource OSBParser.proxyTag
     (BaseParser.toString content) ->
   exists r, OSBParser.parse RegExp_new now filename content = Return r) /\
  (compiles RegExp_new TibcoParser.processSource TibcoParser.processTag
     (BaseParser.toString content) ->
   exists r, TibcoParser.parse RegExp_new now filename content = Return r) /\
  (compiles RegExp_new MuleSoftParser.flowSource MuleSoftParser.flowTag
     (BaseParser.toString content) ->
   BaseParser.isXmlContent content = true ->
   exists r,
     MuleSoftParser.parse JSON_parse RegExp_new now filename content
     = Return r) /\
  (forall e,
     OSBParser.parse RegExp_new now filename content = Throw e ->
     e = FailedToParse "OSB" SyntaxError) /\
  (forall e,
     TibcoParser.parse RegExp_new now filename content = Throw e ->
     e = FailedToParse "Tibco" SyntaxError) /\
  (forall e,
     BaseParser.isXmlContent content = true ->
     MuleSoftParser.parse JSON_parse RegExp_new now filename content = Throw e ->
     e = FailedToParse "MuleSoft" SyntaxError).
Proof.
  split; [apply osb_parse_returns|]. split; [apply tibco_parse_returns|].
  split; [apply mule_xml_parse_returns|].
  split; [intro e; apply osb_parse_throws|].
  split; [intro e; apply tibco_parse_throws|].
  intros e X. now apply mule_xml_parse_throws.
Qed.

(** X11.  A Boomi document that is valid JSON but not an object: the text
    [null] makes the extractor throw, as the first property is read from
    it; a boolean, a number, a string or an array gives the empty result. *)
Theorem boomi_document_not_an_object now filename content v :
  JSON_parse (BaseParser.toString content) = Some v ->
  match v with
  | Obj _ => True
  | Null | Undefined =>
      BoomiParser.parse JSON_parse now filename content
      = Throw (FailedToParse "Boomi" (CannotRead "processes"))
  | _ =>
      BoomiParser.parse JSON_parse now filename content
      = Return (emptyResult "Boomi" now filename)
  end.
Proof.
  intro J. unfold BoomiParser.parse, BoomiParser.extract,
    BaseParser.isJsonContent. rewrite J.
  destruct v; try exact I; reflexivity.
Qed.

(** X12.  A Boomi document whose [processes] member is truthy but cannot be
    iterated (an object, a number, [true]) makes the extractor throw, and so
    does a [null] among the processes; in neither case is a partial result
    returned. *)
Theorem boomi_malformed_processes now filename content members processes :
  JSON_parse (BaseParser.toString content) = Some (Obj members) ->
  lookup "processes" members = Some processes ->
  match processes with
  | Obj _ | Num true _ | Bool true =>
      BoomiParser.parse JSON_parse now filename content
      = Throw (FailedToParse "Boomi" NotIterable)
  | Arr (Null :: _) =>
      BoomiParser.parse JSON_parse now filename content
      = Throw (FailedToParse "Boomi" (CannotRead "name"))
  | _ => True
  end.
Proof.
  intros J P.
  destruct processes as [| |[]|[]| |[|[] l]|]; try exact I;
    unfold BoomiParser.parse, BoomiParser.extract, BaseParser.isJsonContent;
    rewrite J; unfold BoomiParser.collect at 1; cbn [get bind]; rewrite P;
    reflexivity.
Qed.

Lemma lower_upper c : Js.lower (Js.upper c) = Js.lower c.
Proof.
  destruct c as [b0 b1 b2 b3 b4 b5 b6 b7].
  destruct b0, b1, b2, b3, b4, b5, b6, b7; reflexivity.
Qed.

Lemma toLowerCase_toUpperCase s :
  Js.toLowerCase (Js.toUpperCase s) = Js.toLowerCase s.
Proof.
  induction s as [|c s IH]; [reflexivity|].
  cbn. now rewrite lower_upper, <- IH.
Qed.

Lemma toLowerCase_empty s : String.eqb (Js.toLowerCase s) "" = String.eqb s "".
Proof. destruct s; reflexivity. Qed.

(** X13.  The type of a Boomi process depends on its connector type through
    the lower-cased text alone: two processes whose connector types, ASCII
    texts, differ in letter case only are of the same type, and a connector
    type in upper case is read as the one in lower case. *)
Theorem boomi_type_ignores_case m m' s s' :
  lookup "connectorType" m = Some (Str s) ->
  lookup "connectorType" m' = Some (Str s') ->
  asciiText s -> asciiText s' ->
  (Js.toLowerCase s = Js.toLowerCase s' ->
   BoomiParser.determineServiceType (Obj m)
   = BoomiParser.determineServiceType (Obj m')) /\
  (s' = Js.toUpperCase s ->
   BoomiParser.determineServiceType (Obj m)
   = BoomiParser.determineServiceType (Obj m')).
Proof.
  intros L L' _ _.
  assert (K : Js.toLowerCase s = Js.toLowerCase s' ->
              BoomiParser.determineServiceType (Obj m)
              = BoomiParser.determineServiceType (Obj m')).
  { intro E. unfold BoomiParser.determineServiceType.
    cbn [get bind]. rewrite L, L'. cbn [truthy BoomiParser.toLowerCase].
    rewrite <- (toLowerCase_empty s), <- (toLowerCase_empty s'), E.
    reflexivity. }
  split; [exact K|]. intros ->. apply K. symmetry.
  apply toLowerCase_toUpperCase.
Qed.

(** X14.  MuleSoft is detected by content alone: every extension on the
    allow-list of the MuleSoft matcher is taken by a matcher that comes
    before it, so an artifact detected as MuleSoft has an extension on no
    allow-list and holds a MuleSoft marker, an XML one in content that looks
    like XML, a JSON one in content that is JSON. *)
Theorem mulesoft_detected_by_content filename content :
  detectPlatform filename content = "MuleSoft" ->
  oneOf listed (ext filename) = false /\
  (if BaseParser.isXmlContent content then muleXmlMarker content
   else BaseParser.isJsonContent JSON_parse content && muleJsonMarker content)
  = true.
Proof.
  intro D.
  destruct (oneOf listed (ext filename)) eqn:L.
  { rewrite (detectPlatform_listed JSON_parse RegExp_new filename content L) in D.
    cbv zeta in D.
    destruct (oneOf ["ear"; "jar"] (ext filename)); [discriminate|].
    destruct (oneOf ["zip"; "json"] (ext filename)); [discriminate|].
    destruct (_ && _ && _); discriminate. }
  split; [reflexivity|].
  rewrite detectPlatform_unrolled in D.
  destruct (OSBParser.canParse filename content); [discriminate|].
  destruct (BoomiParser.canParse JSON_parse filename content); [discriminate|].
  destruct (TibcoParser.canParse filename content); [discriminate|].
  destruct (MuleSoftParser.canParse JSON_parse filename content) eqn:M;
    [|discriminate].
  rewrite (mule_by_extension JSON_parse filename content _ eq_refl) in M.
  assert (N : oneOf ["jar"; "xml"; "json"] (ext filename) = false).
  { unfold listed, oneOf in *. cbn [existsb] in *.
    repeat (apply orb_false_elim in L as [? L]).
    repeat match goal with H : String.eqb _ _ = false |- _ => rewrite H; clear H end.
    reflexivity. }
  rewrite N in M.
  destruct (BaseParser.isXmlContent content); [exact M|].
  destruct (BaseParser.isJsonContent JSON_parse content); [exact M | discriminate].
Qed.

End Failures.

(** ** The upload filter and the progress figure *)

Section Admission.
Variable JSON_parse : string -> option value.
Variable RegExp_new : RegExp.constructor.

Lemma pop_split_Some sep s : exists seg, Js.pop (Js.split sep s) = Some seg.
Proof.
  pose proof (split_not_nil sep s) as N.
  induction (Js.split sep s) as [|x l IH]; [congruence|].
  destruct l as [|y l]; [cbn; eauto|].
  rewrite pop_cons by discriminate. apply IH. discriminate.
Qed.

Lemma extension_is_extractFileExtension name :
  FileUtils.extension name = Some (BaseParser.extractFileExtension name).
Proof.
  unfold FileUtils.extension, BaseParser.extractFileExtension.
  destruct (pop_split_Some "." name) as [seg ->]. reflexivity.
Qed.

Lemma allowed_is_listed e :
  oneOf [".jar"; ".ear"; ".zip"; ".xml"; ".json"] ("." ++ e) = true ->
  In e ["jar"; "ear"; "zip"; "xml"; "json"].
Proof.
  intro H. apply oneOf_In in H. cbn [In] in *.
  destruct H as [H|[H|[H|[H|[H|[]]]]]]; injection H as <-; auto 6.
Qed.

(** X15.  What the upload filter lets through, the registry recognizes: a
    file accepted by [fileFilter] (and by [validateFileType], which decides
    the same) is never of platform Unknown, [parseFile] never throws the
    registry's error for it, and it is shown with an icon of its own. *)
Theorem uploaded_file_recognized name content :
  Routes.fileFilter name = Routes.Accept ->
  FileUtils.validateFileType name = true /\
  recognized JSON_parse RegExp_new name content /\
  FileUtils.getFileIcon name <> "fas fa-file".
Proof.
  unfold Routes.fileFilter, FileUtils.validateFileType, FileUtils.getFileIcon.
  rewrite extension_is_extractFileExtension. cbv zeta.
  destruct (oneOf _ ("." ++ BaseParser.extractFileExtension name)) eqn:A;
    [|discriminate].
  intros _. split; [reflexivity|].
  apply allowed_is_listed in A.
  assert (L : oneOf listed (BaseParser.extractFileExtension name) = true).
  { apply oneOf_In. unfold listed. cbn [In] in *. intuition. }
  split.
  - apply accepted_recognized.
    destruct (accepted JSON_parse name content) eqn:U; [reflexivity|].
    apply (detectPlatform_Unknown JSON_parse RegExp_new) in U.
    rewrite (detectPlatform_listed JSON_parse RegExp_new name content L) in U.
    cbv zeta in U.
    destruct (oneOf ["ear"; "jar"] _); [discriminate|].
    destruct (oneOf ["zip"; "json"] _); [discriminate|].
    destruct (_ && _ && _); discriminate.
  - cbn [In] in A.
    destruct A as [<-|[<-|[<-|[<-|[<-|[]]]]]]; discriminate.
Qed.

(** X16.  The progress figure is one of 0, 25, 50, 75 and 100; it is 0
    without files, and 100 exactly when there are files, each has a platform
    and the status parsed, and there is a service.  Proxies and
    transformations play no part. *)
Theorem progress_figure {S P T : Type} (files : list UploadedFile.t)
    (services : list S) (proxies : list P) (transformations : list T) :
  In (Routes.calculateProgress files services proxies transformations)
     [0; 25; 50; 75; 100] /\
  (files = [] ->
   Routes.calculateProgress files services proxies transformations = 0) /\
  (Routes.calculateProgress files services proxies transformations = 100 <->
   files <> [] /\ forallb Routes.hasPlatform files = true /\
   forallb Routes.isParsed files = true /\ services <> []).
Proof.
  unfold Routes.calculateProgress.
  destruct files as [|f files].
  - cbn. repeat split; auto; try discriminate. intros [N _]. congruence.
  - cbn [List.length Nat.eqb Nat.ltb Nat.leb andb].
    destruct (forallb Routes.hasPlatform (f :: files)),
             (forallb Routes.isParsed (f :: files)),
             services as [|x services];
      cbn; repeat split; auto 8; try discriminate; try congruence;
      intros (_ & A & B & C); congruence.
Qed.

End Admission.

(** ** The storage *)

Section Maps.
Context {V : Type}.

Lemma get_set_same (m : NumberMap.t V) k v :
  NumberMap.get (NumberMap.set m k v) k = Some v.
Proof.
  induction m as [|[k' x] m IH]; cbn.
  - now rewrite Nat.eqb_refl.
  - destruct (Nat.eqb k' k) eqn:E; cbn; rewrite E; [reflexivity | exact IH].
Qed.

Lemma get_set_other (m : NumberMap.t V) k k' v :
  k <> k' -> NumberMap.get (NumberMap.set m k v) k' = NumberMap.get m k'.
Proof.
  intro N. induction m as [|[j x] m IH]; cbn.
  - apply Nat.eqb_neq in N. now rewrite N.
  - destruct (Nat.eqb j k) eqn:E; cbn.
    + apply Nat.eqb_eq in E. subst j. apply Nat.eqb_neq in N. now rewrite N.
    + destruct (Nat.eqb j k'); [reflexivity | exact IH].
Qed.

Lemma get_In (m : NumberMap.t V) k v :
  NumberMap.get m k = Some v -> In k (NumberMap.keys m).
Proof.
  induction m as [|[j x] m IH]; cbn; [discriminate|].
  destruct (Nat.eqb j k) eqn:E; [apply Nat.eqb_eq in E; auto | auto].
Qed.

(** [set] on a key that is there changes no key. *)
Lemma keys_set_present (m : NumberMap.t V) k v :
  In k (NumberMap.keys m) ->
  NumberMap.keys (NumberMap.set m k v) = NumberMap.keys m.
Proof.
  induction m as [|[j x] m IH]; cbn; [tauto|].
  destruct (Nat.eqb j k) eqn:E; cbn; [reflexivity|].
  intros [->|I]; [now rewrite Nat.eqb_refl in E | f_equal; now apply IH].
Qed.

(** [set] on a key that is not there adds the entry at the end. *)
Lemma set_absent (m : NumberMap.t V) k v :
  ~ In k (NumberMap.keys m) -> NumberMap.set m k v = (m ++ [(k, v)])%list.
Proof.
  induction m as [|[j x] m IH]; cbn; [reflexivity|].
  intro N. destruct (Nat.eqb j k) eqn:E.
  - apply Nat.eqb_eq in E. tauto.
  - rewrite IH; tauto.
Qed.

Lemma below_absent (m : NumberMap.t V) next :
  below m next -> ~ In next (NumberMap.keys m).
Proof.
  intros [_ B] I. rewrite Forall_forall in B. specialize (B _ I). lia.
Qed.

Lemma set_next (m : NumberMap.t V) next v :
  below m next ->
  NumberMap.set m next v = (m ++ [(next, v)])%list /\
  below (NumberMap.set m next v) (S next).
Proof.
  intro B. pose proof (below_absent m next B) as A.
  rewrite set_absent by exact A.
  split; [reflexivity|]. destruct B as [N B]. unfold below, NumberMap.keys in *.
  rewrite map_app. split.
  - cbn. apply NoDup_app; [exact N | repeat constructor; auto |].
    intros k I [<-|[]]. exact (A I).
  - apply Forall_app. split.
    + eapply Forall_impl; [|exact B]. cbn. lia.
    + repeat constructor.
Qed.

Lemma below_set_present (m : NumberMap.t V) next k v :
  below m next -> In k (NumberMap.keys m) -> below (NumberMap.set m k v) next.
Proof.
  intros B I. unfold below in *. rewrite (keys_set_present m k v I). exact B.
Qed.

Lemma keys_delete (m : NumberMap.t V) k :
  incl (NumberMap.keys (snd (NumberMap.delete m k))) (NumberMap.keys m) /\
  (NoDup (NumberMap.keys m) ->
   NoDup (NumberMap.keys (snd (NumberMap.delete m k))) /\
   ~ In k (NumberMap.keys (snd (NumberMap.delete m k)))).
Proof.
  induction m as [|[j x] m [I N]]; cbn.
  - split; [apply incl_refl | intros _; split; [constructor | tauto]].
  - destruct (Nat.eqb j k) eqn:E.
    + apply Nat.eqb_eq in E. subst j. cbn. split; [apply incl_tl, incl_refl|].
      intro D. inversion D; subst. split; assumption.
    + destruct (NumberMap.delete m k) as [found rest] eqn:D. cbn in *.
      split; [now apply incl_cons; [left | apply incl_tl]|].
      intro ND. inversion ND as [|? ? H ND']; subst.
      destruct (N ND') as [N1 N2]. split.
      * constructor; [intro J; apply H, I, J | exact N1].
      * intros [->|J]; [now rewrite Nat.eqb_refl in E | tauto].
Qed.

Lemma below_delete (m : NumberMap.t V) next k :
  below m next -> below (snd (NumberMap.delete m k)) next.
Proof.
  intros [N B]. destruct (keys_delete m k) as [I D]. split; [now apply D|].
  rewrite Forall_forall in *. intros x J. apply B, I, J.
Qed.

Lemma get_absent (m : NumberMap.t V) k :
  ~ In k (NumberMap.keys m) -> NumberMap.get m k = None.
Proof.
  intro A. destruct (NumberMap.get m k) eqn:G; [|reflexivity].
  apply get_In in G. contradiction.
Qed.

Lemma get_delete_same (m : NumberMap.t V) k :
  NoDup (NumberMap.keys m) ->
  NumberMap.get (snd (NumberMap.delete m k)) k = None.
Proof. intro N. apply get_absent. now apply keys_delete. Qed.

Lemma get_delete_other (m : NumberMap.t V) k k' :
  k <> k' ->
  NumberMap.get (snd (NumberMap.delete m k)) k' = NumberMap.get m k'.
Proof.
  intro N. induction m as [|[j x] m IH]; cbn; [reflexivity|].
  destruct (Nat.eqb j k) eqn:E.
  - apply Nat.eqb_eq in E. subst j. cbn. apply Nat.eqb_neq in N. now rewrite N.
  - destruct (NumberMap.delete m k) as [found rest] eqn:D. cbn in *.
    now rewrite IH.
Qed.

Lemma delete_found (m : NumberMap.t V) k :
  fst (NumberMap.delete m k)
  = match NumberMap.get m k with Some _ => true | None => false end.
Proof.
  induction m as [|[j x] m IH]; cbn; [reflexivity|].
  destruct (Nat.eqb j k); [reflexivity|].
  destruct (NumberMap.delete m k) as [found rest]. exact IH.
Qed.

End Maps.

Section Storage.

Lemma ahead_create : ahead MemStorage.create.
Proof.
  unfold ahead, below. cbn.
  repeat split; repeat constructor; cbn; intuition; discriminate.
Qed.

Lemma ahead_updateUploadedFile st id updates :
  ahead st -> ahead (snd (MemStorage.updateUploadedFile st id updates)).
Proof.
  intros (A & B). unfold MemStorage.updateUploadedFile.
  destruct (NumberMap.get (MemStorage.uploadedFiles st) id) eqn:G;
    [|split; assumption].
  split; [|exact B]. cbn. apply below_set_present; [exact A|].
  eapply get_In; eauto.
Qed.

(** X17.  Identifiers are never reused.  In a storage whose counters are
    ahead of its keys, as the new storage is, every creation keeps the
    counters ahead, gives the record the next identifier, and adds it after
    the records already there, none of which is replaced or moved. *)
Theorem creation_appends st :
  ahead st ->
  (forall now file,
     let (created, st') := MemStorage.createUploadedFile now st file in
     ahead st' /\ UploadedFile.id created = MemStorage.currentFileId st /\
     MemStorage.getAllUploadedFiles st'
     = (MemStorage.getAllUploadedFiles st ++ [created])%list) /\
  (forall service,
     let (created, st') := MemStorage.createService st service in
     ahead st' /\ StoredService.id created = MemStorage.currentServiceId st /\
     MemStorage.getAllServices st'
     = (MemStorage.getAllServices st ++ [created])%list) /\
  (forall proxy,
     let (created, st') := MemStorage.createProxyService st proxy in
     ahead st' /\ StoredProxy.id created = MemStorage.currentProxyServiceId st /\
     MemStorage.getAllProxyServices st'
     = (MemStorage.getAllProxyServices st ++ [created])%list) /\
  (forall transformation,
     let (created, st') := MemStorage.createTransformation st transformation in
     ahead st' /\
     StoredTransformation.id created = MemStorage.currentTransformationId st /\
     MemStorage.getAllTransformations st'
     = (MemStorage.getAllTransformations st ++ [created])%list) /\
  (forall template,
     let (created, st') := MemStorage.createDocumentTemplate st template in
     ahead st' /\ DocumentTemplate.id created = MemStorage.currentTemplateId st /\
     MemStorage.getAllDocumentTemplates st'
     = (MemStorage.getAllDocumentTemplates st ++ [created])%list).
Proof.
  intros (F & S & P & T & D).
  split; [|split; [|split; [|split]]]; intros; cbn;
    unfold ahead, MemStorage.getAllUploadedFiles, MemStorage.getAllServices,
      MemStorage.getAllProxyServices, MemStorage.getAllTransformations,
      MemStorage.getAllDocumentTemplates, NumberMap.values; cbn.
  - destruct (set_next _ _ (UploadedFile.mk (MemStorage.currentFileId st)
       (UploadedFile.i_filename file) (UploadedFile.i_originalName file)
       (UploadedFile.i_size file) (UploadedFile.i_mimeType file)
       (MemStorage.textOrNull (UploadedFile.i_platform file))
       match MemStorage.textOrNull (UploadedFile.i_status file) with
       | Some s => s | None => "uploaded" end
       (UploadedFile.i_errorMessage file) now) F) as [E B].
    rewrite E at 2. rewrite map_app. auto 10.
  - match goal with |- context [NumberMap.set _ _ ?v] =>
      destruct (set_next _ _ v S) as [E B] end.
    rewrite E at 2. rewrite map_app. auto 10.
  - match goal with |- context [NumberMap.set _ _ ?v] =>
      destruct (set_next _ _ v P) as [E B] end.
    rewrite E at 2. rewrite map_app. auto 10.
  - match goal with |- context [NumberMap.set _ _ ?v] =>
      destruct (set_next _ _ v T) as [E B] end.
    rewrite E at 2. rewrite map_app. auto 10.
  - match goal with |- context [NumberMap.set _ _ ?v] =>
      destruct (set_next _ _ v D) as [E B] end.
    rewrite E at 2. rewrite map_app. auto 10.
Qed.

End Storage.

Section Files.

Lemma ahead_NoDup_files st :
  ahead st -> NoDup (NumberMap.keys (MemStorage.uploadedFiles st)).
Proof. intros [[N _] _]. exact N. Qed.

(** X18.  Updating and deleting an uploaded file.  An update of an unknown
    identifier changes nothing and returns [undefined]; an update of a known
    one merges the fields given into the record, which keeps its place, and
    touches no other file and no service.  A deletion removes the record and
    no more: the services stored for the file stay. *)
Theorem uploaded_file_update_delete st id updates :
  ahead st ->
  (MemStorage.getUploadedFile st id = None ->
   MemStorage.updateUploadedFile st id updates = (None, st)) /\
  (forall file,
     MemStorage.getUploadedFile st id = Some file ->
     let (result, st') := MemStorage.updateUploadedFile st id updates in
     result = Some (UploadedFile.merge file updates) /\
     MemStorage.getUploadedFile st' id = Some (UploadedFile.merge file updates) /\
     (forall other, other <> id ->
        MemStorage.getUploadedFile st' other = MemStorage.getUploadedFile st other) /\
     NumberMap.keys (MemStorage.uploadedFiles st')
     = NumberMap.keys (MemStorage.uploadedFiles st) /\
     MemStorage.getAllServices st' = MemStorage.getAllServices st) /\
  (let (found, st') := MemStorage.deleteUploadedFile st id in
   found = match MemStorage.getUploadedFile st id with
           | Some _ => true
           | None => false
           end /\
   MemStorage.getUploadedFile st' id = None /\
   (forall other, other <> id ->
      MemStorage.getUploadedFile st' other = MemStorage.getUploadedFile st other) /\
   MemStorage.getServicesByFileId st' id = MemStorage.getServicesByFileId st id).
Proof.
  intro A. unfold MemStorage.getUploadedFile, MemStorage.updateUploadedFile,
    MemStorage.deleteUploadedFile.
  split; [|split].
  - intros ->. reflexivity.
  - intros file G. rewrite G. cbn.
    split; [reflexivity|]. split; [apply get_set_same|].
    split; [intros other N; apply get_set_other; congruence|].
    split; [apply keys_set_present; eapply get_In; eauto | reflexivity].
  - pose proof (delete_found (MemStorage.uploadedFiles st) id) as F.
    pose proof (get_delete_same (MemStorage.uploadedFiles st) id
                  (ahead_NoDup_files st A)) as S.
    pose proof (fun k => get_delete_other (MemStorage.uploadedFiles st) id k) as O.
    destruct (NumberMap.delete (MemStorage.uploadedFiles st) id) as [found m].
    cbn in *. repeat split; auto.
Qed.

Lemma find_app {A} (f : A -> bool) l l' x :
  find f l = Some x -> find f (l ++ l') = Some x.
Proof.
  induction l as [|y l IH]; cbn; [discriminate|].
  destruct (f y); [auto | exact IH].
Qed.

(** X19.  The default template stays the default.  A new storage has the
    standard template as its default, and creating templates, be they marked
    as default themselves, never changes which template [getDefaultTemplate]
    returns once there is one. *)
Theorem default_template_stable st template chosen :
  ahead st ->
  MemStorage.getDefaultTemplate MemStorage.create
  = Some MemStorage.defaultTemplate /\
  (MemStorage.getDefaultTemplate st = Some chosen ->
   MemStorage.getDefaultTemplate
     (snd (MemStorage.createDocumentTemplate st template))
   = Some chosen).
Proof.
  intros (_ & _ & _ & _ & D). split; [reflexivity|].
  unfold MemStorage.getDefaultTemplate, MemStorage.createDocumentTemplate. cbn.
  match goal with |- context [NumberMap.set _ _ ?v] =>
    destruct (set_next _ _ v D) as [E _] end.
  rewrite E. unfold NumberMap.values. rewrite map_app. apply find_app.
Qed.

End Files.

(** ** Processing a file *)

Section Processing.
Variable JSON_parse : string -> option value.
Variable RegExp_new : RegExp.constructor.
Variable JSON_stringify : value -> value.
Variable Array_join : list value -> string -> option string.

#[local] Abbreviation detectPlatform :=
  (ParserRegistry.detectPlatform JSON_parse RegExp_new).
#[local] Abbreviation parseFile :=
  (ParserRegistry.parseFile JSON_parse RegExp_new).
#[local] Abbreviation processFile :=
  (FileProcessor.processFile JSON_parse RegExp_new JSON_stringify Array_join).
#[local] Abbreviation storeService :=
  (FileProcessor.storeService JSON_stringify Array_join).

Lemma extends_refl fileId st : ahead st -> extends fileId st st [] [] [].
Proof.
  intro A. unfold extends. rewrite !app_nil_r.
  do 10 (split; [auto; constructor|]). exact A.
Qed.

Lemma extends_trans fileId st st1 st2 ss ps ts ss' ps' ts' :
  extends fileId st st1 ss ps ts ->
  extends fileId st1 st2 ss' ps' ts' ->
  extends fileId st st2 (ss ++ ss')%list (ps ++ ps')%list (ts ++ ts')%list.
Proof.
  intros (F1 & C1 & D1 & T1 & S1 & P1 & R1 & FS1 & FP1 & FT1 & A1)
         (F2 & C2 & D2 & T2 & S2 & P2 & R2 & FS2 & FP2 & FT2 & A2).
  unfold extends. rewrite !app_assoc, <- S1, <- P1, <- R1.
  do 10 (split; [try congruence; try (apply Forall_app; split); assumption|]).
  exact A2.
Qed.

Lemma createService_extends st service :
  ahead st ->
  extends (StoredService.i_fileId service) st
    (snd (MemStorage.createService st service))
    [fst (MemStorage.createService st service)] [] [].
Proof.
  intros (F & S & P & T & D). unfold extends, ahead. cbn.
  unfold MemStorage.getAllServices, MemStorage.getAllProxyServices,
    MemStorage.getAllTransformations, NumberMap.values. cbn.
  match goal with |- context [NumberMap.set _ _ ?v] =>
    destruct (set_next _ _ v S) as [E B] end.
  rewrite E at 1. rewrite map_app, !app_nil_r.
  destruct F, S, P, T, D, B. repeat split; auto.
Qed.

Lemma createProxyService_extends st proxy :
  ahead st ->
  extends (StoredProxy.i_fileId proxy) st
    (snd (MemStorage.createProxyService st proxy))
    [] [fst (MemStorage.createProxyService st proxy)] [].
Proof.
  intros (F & S & P & T & D). unfold extends, ahead. cbn.
  unfold MemStorage.getAllServices, MemStorage.getAllProxyServices,
    MemStorage.getAllTransformations, NumberMap.values. cbn.
  match goal with |- context [NumberMap.set _ _ ?v] =>
    destruct (set_next _ _ v P) as [E B] end.
  rewrite E at 1. rewrite map_app, !app_nil_r.
  destruct F, S, P, T, D, B. repeat split; auto.
Qed.

Lemma createTransformation_extends st transformation :
  ahead st ->
  extends (StoredTransformation.i_fileId transformation) st
    (snd (MemStorage.createTransformation st transformation))
    [] [] [fst (MemStorage.createTransformation st transformation)].
Proof.
  intros (F & S & P & T & D). unfold extends, ahead. cbn.
  unfold MemStorage.getAllServices, MemStorage.getAllProxyServices,
    MemStorage.getAllTransformations, NumberMap.values. cbn.
  match goal with |- context [NumberMap.set _ _ ?v] =>
    destruct (set_next _ _ v T) as [E B] end.
  rewrite E at 1. rewrite map_app, !app_nil_r.
  destruct F, S, P, T, D, B. repeat split; auto.
Qed.

Lemma extends_ahead fileId st st' ss ps ts :
  extends fileId st st' ss ps ts -> ahead st'.
Proof. intros (_ & _ & _ & _ & _ & _ & _ & _ & _ & _ & A). exact A. Qed.

(** A service whose methods join is stored; one whose methods do not makes
    the loop stop with the [TypeError] of [join]. *)
Lemma storeService_stores fileId st service :
  hasMethods service -> joinable Array_join service = true ->
  exists ins,
    storeService fileId st service
    = (snd (MemStorage.createService st ins), Return tt) /\
    StoredService.i_fileId ins = fileId /\
    StoredService.i_name ins = Service.name service /\
    StoredService.i_type ins = Service.type service.
Proof.
  unfold joinable.
  intros [M|[l M]] J;
    unfold FileProcessor.storeService, FileProcessor.joinMethods;
    rewrite M in *; lazy beta iota zeta.
  - eexists. split; [reflexivity|]. auto.
  - destruct (Array_join l ", "); [|discriminate]. lazy beta iota zeta.
    eexists. split; [reflexivity|]. auto.
Qed.

Lemma storeService_stops fileId st service :
  hasMethods service -> joinable Array_join service = false ->
  storeService fileId st service = (st, Throw (Raised CannotConvert)).
Proof.
  unfold joinable.
  intros [M|[l M]] J;
    unfold FileProcessor.storeService, FileProcessor.joinMethods;
    rewrite M in *; [discriminate|].
  destruct (Array_join l ", "); [discriminate | reflexivity].
Qed.

Lemma storeServices_extend fileId : forall l st,
  ahead st -> Forall hasMethods l ->
  forallb (joinable Array_join) l = true ->
  exists st' ss,
    FileProcessor.forEach (storeService fileId) l st = (st', Return tt) /\
    extends fileId st st' ss [] [] /\
    List.map StoredService.name ss = List.map Service.name l /\
    List.map StoredService.type ss = List.map Service.type l.
Proof.
  induction l as [|x l IH]; intros st A H J.
  - exists st, []. split; [reflexivity|].
    split; [now apply extends_refl | split; reflexivity].
  - inversion H as [|? ? Hx Hl]; subst.
    cbn [forallb] in J. apply andb_true_iff in J as [Jx Jl].
    destruct (storeService_stores fileId st x Hx Jx) as (ins & E & I & N & T).
    pose proof (createService_extends st ins A) as X. rewrite I in X.
    destruct (IH _ (extends_ahead _ _ _ _ _ _ X) Hl Jl)
      as (st' & ss & L & X' & Ns & Ts).
    exists st', (fst (MemStorage.createService st ins) :: ss).
    cbn [FileProcessor.forEach]. rewrite E, L.
    split; [reflexivity|]. split.
    + exact (extends_trans _ _ _ _ _ _ _ _ _ _ X X').
    + cbn [List.map]. rewrite Ns, Ts. cbn. rewrite N, T. auto.
Qed.

(** The loop stops at the first service whose methods do not join: the
    services before it are stored, none of those after it. *)
Lemma storeServices_stop fileId x rest : forall done st,
  ahead st -> Forall hasMethods (done ++ x :: rest)%list ->
  forallb (joinable Array_join) done = true ->
  joinable Array_join x = false ->
  exists st' ss,
    FileProcessor.forEach (storeService fileId) (done ++ x :: rest)%list st
    = (st', Throw (Raised CannotConvert)) /\
    extends fileId st st' ss [] [] /\
    List.map StoredService.name ss = List.map Service.name done.
Proof.
  induction done as [|y done IH]; intros st A H J Jx.
  - exists st, []. cbn [app FileProcessor.forEach].
    inversion H as [|? ? Hx Hl]; subst.
    rewrite (storeService_stops fileId st x Hx Jx).
    split; [reflexivity|]. split; [now apply extends_refl | reflexivity].
  - cbn [app] in H. inversion H as [|? ? Hy Hl]; subst.
    cbn [forallb] in J. apply andb_true_iff in J as [Jy Jl].
    destruct (storeService_stores fileId st y Hy Jy) as (ins & E & I & N & T).
    pose proof (createService_extends st ins A) as X. rewrite I in X.
    destruct (IH _ (extends_ahead _ _ _ _ _ _ X) Hl Jl Jx)
      as (st' & ss & L & X' & Ns).
    exists st', (fst (MemStorage.createService st ins) :: ss).
    cbn [app FileProcessor.forEach]. rewrite E, L.
    split; [reflexivity|]. split.
    + exact (extends_trans _ _ _ _ _ _ _ _ _ _ X X').
    + cbn [List.map]. rewrite Ns. cbn. rewrite N. reflexivity.
Qed.

(** The first element that fails a test. *)
Lemma forallb_first {A} (f : A -> bool) l :
  forallb f l = false ->
  exists done x rest,
    l = (done ++ x :: rest)%list /\ forallb f done = true /\ f x = false.
Proof.
  induction l as [|y l IH]; [discriminate|]. cbn [forallb].
  destruct (f y) eqn:Y.
  - intro H. destruct (IH H) as (done & x & rest & -> & D & X).
    exists (y :: done), x, rest. cbn [forallb]. rewrite Y. auto.
  - intros _. exists [], y, l. auto.
Qed.

Lemma storeProxies_extend fileId : forall l st,
  ahead st ->
  exists st' ps,
    FileProcessor.forEach (FileProcessor.storeProxyService fileId) l st
    = (st', Return tt) /\
    extends fileId st st' [] ps [] /\
    List.map StoredProxy.name ps = List.map Proxy.name l.
Proof.
  induction l as [|x l IH]; intros st A.
  - exists st, []. split; [reflexivity|].
    split; [now apply extends_refl | reflexivity].
  - pose (ins := StoredProxy.mkInsert fileId (Proxy.name x)
                   (Proxy.serviceUri x) (Proxy.endpointUri x)
                   (Proxy.wsdlResource x) (Proxy.configuration x)).
    pose proof (createProxyService_extends st ins A) as X.
    change (StoredProxy.i_fileId ins) with fileId in X.
    destruct (IH _ (extends_ahead _ _ _ _ _ _ X)) as (st' & ps & L & X' & Ns).
    exists st', (fst (MemStorage.createProxyService st ins) :: ps).
    cbn [FileProcessor.forEach].
    change (FileProcessor.storeProxyService fileId st x)
      with (snd (MemStorage.createProxyService st ins), @Return failure unit tt).
    lazy beta iota. rewrite L.
    split; [reflexivity|]. split.
    + exact (extends_trans _ _ _ _ _ _ _ _ _ _ X X').
    + cbn [List.map]. rewrite Ns. reflexivity.
Qed.

Lemma storeTransformations_extend fileId : forall l st,
  ahead st ->
  exists st' ts,
    FileProcessor.forEach (FileProcessor.storeTransformation fileId) l st
    = (st', Return tt) /\
    extends fileId st st' [] [] ts /\
    List.map StoredTransformation.name ts = List.map Transformation.name l.
Proof.
  induction l as [|x l IH]; intros st A.
  - exists st, []. split; [reflexivity|].
    split; [now apply extends_refl | reflexivity].
  - pose (ins := StoredTransformation.mkInsert fileId (Transformation.name x)
                   (Transformation.type x) (Transformation.sourceSchema x)
                   (Transformation.targetSchema x)
                   (Transformation.mappingConfiguration x)).
    pose proof (createTransformation_extends st ins A) as X.
    change (StoredTransformation.i_fileId ins) with fileId in X.
    destruct (IH _ (extends_ahead _ _ _ _ _ _ X)) as (st' & ts & L & X' & Ns).
    exists st', (fst (MemStorage.createTransformation st ins) :: ts).
    cbn [FileProcessor.forEach].
    change (FileProcessor.storeTransformation fileId st x)
      with (snd (MemStorage.createTransformation st ins), @Return failure unit tt).
    lazy beta iota. rewrite L.
    split; [reflexivity|]. split.
    + exact (extends_trans _ _ _ _ _ _ _ _ _ _ X X').
    + cbn [List.map]. rewrite Ns. reflexivity.
Qed.

End Processing.

Section Outcomes.
Variable JSON_parse : string -> option value.
Variable RegExp_new : RegExp.constructor.
Variable JSON_stringify : value -> value.
Variable Array_join : list value -> string -> option string.

#[local] Abbreviation detectPlatform :=
  (ParserRegistry.detectPlatform JSON_parse RegExp_new).
#[local] Abbreviation parseFile :=
  (ParserRegistry.parseFile JSON_parse RegExp_new).
#[local] Abbreviation processFile :=
  (FileProcessor.processFile JSON_parse RegExp_new JSON_stringify Array_join).
#[local] Abbreviation storeService :=
  (FileProcessor.storeService JSON_stringify Array_join).
#[local] Abbreviation update := MemStorage.updateUploadedFile.

(** The storage after the first two updates of [processFile]. *)
#[local] Abbreviation started st fileId filename content :=
  (snd (update (snd (update st fileId (FileProcessor.setStatus "processing")))
          fileId (FileProcessor.setPlatform (detectPlatform filename content)))).

Lemma update_records st id updates :
  MemStorage.getAllServices (snd (update st id updates))
    = MemStorage.getAllServices st /\
  MemStorage.getAllProxyServices (snd (update st id updates))
    = MemStorage.getAllProxyServices st /\
  MemStorage.getAllTransformations (snd (update st id updates))
    = MemStorage.getAllTransformations st.
Proof.
  unfold MemStorage.updateUploadedFile.
  destruct (NumberMap.get _ id); repeat split; reflexivity.
Qed.

Lemma update_known st id updates file :
  MemStorage.getUploadedFile st id = Some file ->
  MemStorage.getUploadedFile (snd (update st id updates)) id
  = Some (UploadedFile.merge file updates).
Proof.
  unfold MemStorage.getUploadedFile, MemStorage.updateUploadedFile.
  intros ->. cbn. apply get_set_same.
Qed.

Lemma update_unknown st id updates :
  MemStorage.getUploadedFile st id = None -> snd (update st id updates) = st.
Proof.
  unfold MemStorage.getUploadedFile, MemStorage.updateUploadedFile.
  intros ->. reflexivity.
Qed.

Lemma update_other st id updates other :
  other <> id ->
  MemStorage.getUploadedFile (snd (update st id updates)) other
  = MemStorage.getUploadedFile st other.
Proof.
  unfold MemStorage.getUploadedFile, MemStorage.updateUploadedFile. intro N.
  destruct (NumberMap.get _ id); [|reflexivity].
  cbn. apply get_set_other. congruence.
Qed.

Lemma filter_all {A} (f : A -> bool) l :
  Forall (fun x => f x = true) l -> filter f l = l.
Proof.
  induction 1 as [|x l H _ IH]; cbn; [reflexivity | now rewrite H, IH].
Qed.

Lemma filter_none {A} (f : A -> bool) l :
  Forall (fun x => f x = false) l -> filter f l = [].
Proof.
  induction 1 as [|x l H _ IH]; cbn; [reflexivity | now rewrite H, IH].
Qed.

(** What a grown storage holds for the file, and for the others. *)
Lemma extends_byFile fileId st st' ss ps ts :
  extends fileId st st' ss ps ts ->
  (MemStorage.getServicesByFileId st' fileId
   = (MemStorage.getServicesByFileId st fileId ++ ss)%list /\
   MemStorage.getProxyServicesByFileId st' fileId
   = (MemStorage.getProxyServicesByFileId st fileId ++ ps)%list /\
   MemStorage.getTransformationsByFileId st' fileId
   = (MemStorage.getTransformationsByFileId st fileId ++ ts)%list) /\
  (forall other, other <> fileId ->
     MemStorage.getServicesByFileId st' other
     = MemStorage.getServicesByFileId st other /\
     MemStorage.getProxyServicesByFileId st' other
     = MemStorage.getProxyServicesByFileId st other /\
     MemStorage.getTransformationsByFileId st' other
     = MemStorage.getTransformationsByFileId st other).
Proof.
  intros (_ & _ & _ & _ & S & P & T & FS & FP & FT & _).
  unfold MemStorage.getServicesByFileId, MemStorage.getProxyServicesByFileId,
    MemStorage.getTransformationsByFileId,
    MemStorage.getAllServices, MemStorage.getAllProxyServices,
    MemStorage.getAllTransformations in *.
  rewrite S, P, T, !filter_app. split.
  - repeat split; f_equal; apply filter_all;
      (eapply Forall_impl; [|eassumption]); cbn; intros x ->;
      apply Nat.eqb_refl.
  - intros other N. rewrite !filter_app.
    rewrite (filter_none _ ss), (filter_none _ ps), (filter_none _ ts),
      !app_nil_r; [auto | | |];
      (eapply Forall_impl; [|eassumption]); cbn; intros x ->;
      apply Nat.eqb_neq; congruence.
Qed.

Lemma ahead_started st fileId filename content :
  ahead st -> ahead (started st fileId filename content).
Proof. intro A. now do 2 apply ahead_updateUploadedFile. Qed.

Lemma result_hasMethods now filename content r :
  parseFile now filename content = Return r ->
  Forall hasMethods (ParseResult.services r).
Proof.
  intro H. apply Forall_forall. intros s I.
  eapply services_have_methods; eauto.
Qed.

(** What [processFile] does, by the outcome of [parseFile] and of the
    joining of the methods. *)
Lemma processFile_cases now fileId filename content st :
  ahead st ->
  match parseFile now filename content with
  | Return r =>
      exists st3 ss ps ts,
        extends fileId (started st fileId filename content) st3 ss ps ts /\
        ((forallb (joinable Array_join) (ParseResult.services r) = true /\
          processFile now fileId filename content st
          = (snd (update st3 fileId (FileProcessor.setStatus "parsed")),
             Return tt) /\
          List.map StoredService.name ss
          = List.map Service.name (ParseResult.services r) /\
          List.map StoredService.type ss
          = List.map Service.type (ParseResult.services r) /\
          List.map StoredProxy.name ps
          = List.map Proxy.name (ParseResult.proxyServices r) /\
          List.map StoredTransformation.name ts
          = List.map Transformation.name (ParseResult.transformations r)) \/
         (forallb (joinable Array_join) (ParseResult.services r) = false /\
          processFile now fileId filename content st
          = (snd (update st3 fileId
                    (FileProcessor.setError (Raised CannotConvert))),
             Throw (Raised CannotConvert)) /\
          ps = [] /\ ts = [] /\
          exists done x rest,
            ParseResult.services r = (done ++ x :: rest)%list /\
            forallb (joinable Array_join) done = true /\
            joinable Array_join x = false /\
            List.map StoredService.name ss = List.map Service.name done))
  | Throw e =>
      processFile now fileId filename content st
      = (snd (update (started st fileId filename content) fileId
                (FileProcessor.setError (ParserError e))),
         Throw (ParserError e))
  end.
Proof.
  intro A. unfold FileProcessor.processFile, FileProcessor.attempt.
  destruct (parseFile now filename content) as [r|e] eqn:E; [|reflexivity].
  pose proof (ahead_started st fileId filename content A) as A2.
  pose proof (result_hasMethods now filename content r E) as M.
  destruct (forallb (joinable Array_join) (ParseResult.services r)) eqn:J.
  - destruct (storeServices_extend JSON_stringify Array_join fileId
                (ParseResult.services r) _ A2 M J)
      as (s3 & ss & L1 & X1 & Ns & Ts).
    destruct (storeProxies_extend fileId (ParseResult.proxyServices r) s3
                (extends_ahead _ _ _ _ _ _ X1)) as (s4 & ps & L2 & X2 & Np).
    destruct (storeTransformations_extend fileId
                (ParseResult.transformations r) s4
                (extends_ahead _ _ _ _ _ _ X2)) as (s5 & ts & L3 & X3 & Nt).
    exists s5, ss, ps, ts. rewrite L1, L2, L3. split.
    + pose proof (extends_trans _ _ _ _ _ _ _ _ _ _
                    (extends_trans _ _ _ _ _ _ _ _ _ _ X1 X2) X3) as X.
      cbn [app] in X. rewrite !app_nil_r in X. exact X.
    + left. auto 8.
  - destruct (forallb_first _ _ J) as (done & x & rest & D & Jd & Jx).
    rewrite D in M.
    destruct (storeServices_stop JSON_stringify Array_join fileId
                x rest done _ A2 M Jd Jx) as (s3 & ss & L1 & X1 & Ns).
    exists s3, ss, [], []. rewrite D, L1. split; [exact X1|].
    right. split; [reflexivity|]. split; [reflexivity|].
    split; [reflexivity|]. split; [reflexivity|].
    exists done, x, rest. auto.
Qed.

End Outcomes.

Section Processor.
Variable JSON_parse : string -> option value.
Variable RegExp_new : RegExp.constructor.
Variable JSON_stringify : value -> value.
Variable Array_join : list value -> string -> option string.

#[local] Abbreviation detectPlatform :=
  (ParserRegistry.detectPlatform JSON_parse RegExp_new).
#[local] Abbreviation parseFile :=
  (ParserRegistry.parseFile JSON_parse RegExp_new).
#[local] Abbreviation processFile :=
  (FileProcessor.processFile JSON_parse RegExp_new JSON_stringify Array_join).
#[local] Abbreviation update := MemStorage.updateUploadedFile.
#[local] Abbreviation started st fileId filename content :=
  (snd (update (snd (update st fileId (FileProcessor.setStatus "processing")))
          fileId (FileProcessor.setPlatform (detectPlatform filename content)))).

Lemma update_byFile st id updates k :
  MemStorage.getServicesByFileId (snd (update st id updates)) k
    = MemStorage.getServicesByFileId st k /\
  MemStorage.getProxyServicesByFileId (snd (update st id updates)) k
    = MemStorage.getProxyServicesByFileId st k /\
  MemStorage.getTransformationsByFileId (snd (update st id updates)) k
    = MemStorage.getTransformationsByFileId st k.
Proof.
  unfold MemStorage.updateUploadedFile.
  destruct (NumberMap.get _ id); repeat split; reflexivity.
Qed.

Lemma started_byFile st fileId filename content k :
  MemStorage.getServicesByFileId (started st fileId filename content) k
    = MemStorage.getServicesByFileId st k /\
  MemStorage.getProxyServicesByFileId (started st fileId filename content) k
    = MemStorage.getProxyServicesByFileId st k /\
  MemStorage.getTransformationsByFileId (started st fileId filename content) k
    = MemStorage.getTransformationsByFileId st k.
Proof.
  destruct (update_byFile
              (snd (update st fileId (FileProcessor.setStatus "processing")))
              fileId (FileProcessor.setPlatform (detectPlatform filename content)) k)
    as (A & B & C).
  destruct (update_byFile st fileId (FileProcessor.setStatus "processing") k)
    as (A' & B' & C').
  rewrite A, B, C. auto.
Qed.

Lemma extends_file fileId st st' ss ps ts k :
  extends fileId st st' ss ps ts ->
  MemStorage.getUploadedFile st' k = MemStorage.getUploadedFile st k.
Proof.
  intros (F & _). unfold MemStorage.getUploadedFile. now rewrite F.
Qed.

(** X20.  A file that parses is stored whole.  When [parseFile] returns and
    the methods of every service of the result can be joined, [processFile]
    returns too: the file gets the status parsed and the platform detected
    (an error message left by an earlier run stays), and its services,
    proxies and transformations follow those already stored for it, one
    record for each entry of the result, in the order and under the names and
    types of the result; [getProcessingStatus] then reports them. *)
Theorem processFile_stores_result now fileId filename content st file r :
  ahead st ->
  MemStorage.getUploadedFile st fileId = Some file ->
  parseFile now filename content = Return r ->
  forallb (joinable Array_join) (ParseResult.services r) = true ->
  exists st' ss ps ts,
    processFile now fileId filename content st = (st', Return tt) /\
    List.map StoredService.name ss
      = List.map Service.name (ParseResult.services r) /\
    List.map StoredService.type ss
      = List.map Service.type (ParseResult.services r) /\
    List.map StoredProxy.name ps
      = List.map Proxy.name (ParseResult.proxyServices r) /\
    List.map StoredTransformation.name ts
      = List.map Transformation.name (ParseResult.transformations r) /\
    FileProcessor.getProcessingStatus fileId st'
    = Return
        (FileProcessor.mkReport
           (UploadedFile.merge file (parsedAs (detectPlatform filename content)))
           (MemStorage.getServicesByFileId st fileId ++ ss)%list
           (MemStorage.getProxyServicesByFileId st fileId ++ ps)%list
           (MemStorage.getTransformationsByFileId st fileId ++ ts)%list
           "parsed" (Some (detectPlatform filename content))).
Proof.
  intros A G E J.
  pose proof (processFile_cases JSON_parse RegExp_new JSON_stringify Array_join
                now fileId filename content st A) as C.
  rewrite E in C.
  destruct C as (st3 & ss & ps & ts & X & [(_ & P & Ns & Ts & Np & Nt) | (J' & _)]);
    [|congruence].
  exists (snd (update st3 fileId (FileProcessor.setStatus "parsed"))), ss, ps, ts.
  split; [exact P|]. do 4 (split; [assumption|]).
  unfold FileProcessor.getProcessingStatus.
  assert (F : MemStorage.getUploadedFile st3 fileId
              = Some (UploadedFile.merge
                        (UploadedFile.merge file (FileProcessor.setStatus "processing"))
                        (FileProcessor.setPlatform (detectPlatform filename content)))).
  { rewrite (extends_file _ _ _ _ _ _ fileId X).
    apply update_known, update_known, G. }
  rewrite (update_known _ _ _ _ F).
  destruct (update_byFile st3 fileId (FileProcessor.setStatus "parsed") fileId)
    as (-> & -> & ->).
  destruct (extends_byFile _ _ _ _ _ _ X) as [(-> & -> & ->) _].
  destruct (started_byFile st fileId filename content fileId) as (-> & -> & ->).
  reflexivity.
Qed.

(** X21.  A file that does not parse is marked and nothing is stored.  When
    [parseFile] throws, [processFile] throws the same error, after it has
    set on the file the status error, the error as message and the platform
    detected; no service, proxy or transformation is added. *)
Theorem processFile_records_failure now fileId filename content st file e :
  MemStorage.getUploadedFile st fileId = Some file ->
  parseFile now filename content = Throw e ->
  exists st',
    processFile now fileId filename content st = (st', Throw (ParserError e)) /\
    MemStorage.getUploadedFile st' fileId
    = Some (UploadedFile.merge file
              (failedAs (detectPlatform filename content) (ParserError e))) /\
    MemStorage.getAllServices st' = MemStorage.getAllServices st /\
    MemStorage.getAllProxyServices st' = MemStorage.getAllProxyServices st /\
    MemStorage.getAllTransformations st' = MemStorage.getAllTransformations st.
Proof.
  intros G E. unfold FileProcessor.processFile, FileProcessor.attempt.
  rewrite E. eexists. split; [reflexivity|]. split.
  - rewrite (update_known _ _ _ _ (update_known _ _ _ _ (update_known _ _ _ _ G))).
    reflexivity.
  - repeat match goal with
           | |- context [snd (update ?s ?i ?u)] =>
               destruct (update_records s i u) as (-> & -> & ->)
           end.
    auto.
Qed.

(** A loop over the storage whose every round returns, returns. *)
Lemma forEach_completes {A} (body : MemStorage.t -> A -> FileProcessor.step) l :
  (forall st x, In x l -> exists st', body st x = (st', Return tt)) ->
  forall st, exists st', FileProcessor.forEach body l st = (st', Return tt).
Proof.
  induction l as [|x l IH]; intros B st; cbn; [eauto|].
  destruct (B st x (or_introl eq_refl)) as [st1 ->].
  apply IH. intros st2 y I. apply B. now right.
Qed.

(** How the storing of the services ends, whatever the storage holds. *)
Lemma storeServices_outcome fileId l :
  Forall hasMethods l ->
  forall st,
    snd (FileProcessor.forEach
           (FileProcessor.storeService JSON_stringify Array_join fileId) l st)
    = if forallb (joinable Array_join) l
      then Return tt else Throw (Raised CannotConvert).
Proof.
  induction 1 as [|x l Hx _ IH]; intro st; [reflexivity|].
  cbn [FileProcessor.forEach forallb].
  destruct (joinable Array_join x) eqn:J.
  - destruct (storeService_stores JSON_stringify Array_join fileId st x Hx J)
      as (ins & -> & _).
    cbn [andb]. apply IH.
  - rewrite (storeService_stops JSON_stringify Array_join fileId st x Hx J).
    reflexivity.
Qed.

(** X22.  [processFile] fails as [parseFile] does, or as [join] does.  It
    throws the error of the registry or of the parser when [parseFile]
    throws; when [parseFile] returns, it throws the [TypeError] of [join] if
    the methods of some service of the result cannot be joined, and returns
    otherwise.  Nothing else in the storing of the records throws, whatever
    the storage holds. *)
Theorem processFile_outcome now fileId filename content st :
  snd (processFile now fileId filename content st)
  = match parseFile now filename content with
    | Return r =>
        if forallb (joinable Array_join) (ParseResult.services r)
        then Return tt else Throw (Raised CannotConvert)
    | Throw e => Throw (ParserError e)
    end.
Proof.
  unfold FileProcessor.processFile, FileProcessor.attempt.
  destruct (parseFile now filename content) as [r|e] eqn:E; [|reflexivity].
  pose proof (storeServices_outcome fileId (ParseResult.services r)
                (result_hasMethods JSON_parse RegExp_new now filename content
                   r E)
                (started st fileId filename content)) as O.
  destruct (FileProcessor.forEach _ (ParseResult.services r) _) as [s3 o].
  cbn [snd] in O. subst o.
  destruct (forallb _ _); [|reflexivity].
  destruct (forEach_completes (FileProcessor.storeProxyService fileId)
              (ParseResult.proxyServices r)) with (st := s3) as [s4 ->];
    [intros; eexists; reflexivity|].
  destruct (forEach_completes (FileProcessor.storeTransformation fileId)
              (ParseResult.transformations r)) with (st := s4) as [s5 ->];
    [intros; eexists; reflexivity|].
  reflexivity.
Qed.

(** X23.  An unknown file identifier is not an error for [processFile].  No
    file record is made or changed; when [parseFile] returns a result whose
    methods can be joined, the records of the result are stored all the same,
    for a file that does not exist, and [getProcessingStatus] for that
    identifier still throws; when [parseFile] throws, the storage is left as
    it was and the error is recorded nowhere. *)
Theorem processFile_unknown_file now fileId filename content st :
  ahead st ->
  MemStorage.getUploadedFile st fileId = None ->
  (forall e,
     parseFile now filename content = Throw e ->
     processFile now fileId filename content st = (st, Throw (ParserError e))) /\
  (forall r,
     parseFile now filename content = Return r ->
     forallb (joinable Array_join) (ParseResult.services r) = true ->
     exists st' ss,
       processFile now fileId filename content st = (st', Return tt) /\
       MemStorage.uploadedFiles st' = MemStorage.uploadedFiles st /\
       MemStorage.getServicesByFileId st' fileId
       = (MemStorage.getServicesByFileId st fileId ++ ss)%list /\
       List.length ss = List.length (ParseResult.services r) /\
       FileProcessor.getProcessingStatus fileId st' = Throw FileNotFound).
Proof.
  intros A G.
  assert (S0 : started st fileId filename content = st).
  { rewrite (update_unknown st fileId _ G). apply update_unknown, G. }
  split.
  - intros e E. unfold FileProcessor.processFile, FileProcessor.attempt.
    rewrite E, S0. now rewrite update_unknown.
  - intros r E J.
    pose proof (processFile_cases JSON_parse RegExp_new JSON_stringify
                  Array_join now fileId filename content st A) as C.
    rewrite E, S0 in C.
    destruct C as (st3 & ss & ps & ts & X & [(_ & P & Ns & _) | (J' & _)]);
      [|congruence].
    assert (G3 : MemStorage.getUploadedFile st3 fileId = None)
      by now rewrite (extends_file _ _ _ _ _ _ fileId X).
    rewrite (update_unknown st3 fileId _ G3) in P.
    exists st3, ss. split; [exact P|].
    split; [apply X|].
    split; [apply (extends_byFile _ _ _ _ _ _ X)|].
    split.
    + rewrite <- (length_map StoredService.name), Ns. apply length_map.
    + unfold FileProcessor.getProcessingStatus. now rewrite G3.
Qed.

(** X24.  [processFile] touches one file.  However it ends, it keeps the
    counters of the storage ahead of its keys, and leaves every other file
    as it was, with the services, proxies and transformations stored for
    it. *)
Theorem processFile_touches_one_file now fileId filename content st other :
  ahead st -> other <> fileId ->
  let st' := fst (processFile now fileId filename content st) in
  ahead st' /\
  MemStorage.getUploadedFile st' other = MemStorage.getUploadedFile st other /\
  MemStorage.getServicesByFileId st' other
  = MemStorage.getServicesByFileId st other /\
  MemStorage.getProxyServicesByFileId st' other
  = MemStorage.getProxyServicesByFileId st other /\
  MemStorage.getTransformationsByFileId st' other
  = MemStorage.getTransformationsByFileId st other.
Proof.
  intros A N st'. subst st'.
  pose proof (processFile_cases JSON_parse RegExp_new JSON_stringify Array_join
                now fileId filename content st A) as C.
  pose proof (ahead_started JSON_parse RegExp_new st fileId filename content A)
    as A2.
  assert (F2 : MemStorage.getUploadedFile (started st fileId filename content) other
               = MemStorage.getUploadedFile st other).
  { rewrite !update_other by exact N. reflexivity. }
  destruct (started_byFile st fileId filename content other) as (S2 & P2 & T2).
  destruct (parseFile now filename content) as [r|e].
  - destruct C as (st3 & ss & ps & ts & X & [(_ & -> & _) | (_ & -> & _)]);
      cbn [fst];
      (split; [apply ahead_updateUploadedFile, (extends_ahead _ _ _ _ _ _ X)|]);
      rewrite update_other by exact N;
      match goal with
      | |- context [snd (update st3 fileId ?u)] =>
          destruct (update_byFile st3 fileId u other) as (-> & -> & ->)
      end;
      destruct (extends_byFile _ _ _ _ _ _ X) as [_ O];
      destruct (O other N) as (-> & -> & ->);
      rewrite (extends_file _ _ _ _ _ _ other X); auto.
  - rewrite C. cbn [fst].
    split; [now apply ahead_updateUploadedFile|].
    rewrite update_other by exact N.
    match goal with
    | |- context [snd (update ?s fileId (FileProcessor.setError ?x))] =>
        destruct (update_byFile s fileId (FileProcessor.setError x) other)
          as (-> & -> & ->)
    end.
    auto.
Qed.

(** X25.  A service whose methods cannot be joined stops the storing
    part-way.  When [parseFile] returns and [join] throws on the methods of a
    service of the result, [processFile] throws that [TypeError], after it
    has set on the file the status error and the error as message; the
    services that come before that one in the result are stored and stay
    stored, and no later service, no proxy and no transformation is. *)
Theorem processFile_stops_at_join now fileId filename content st file r
    done x rest :
  ahead st ->
  MemStorage.getUploadedFile st fileId = Some file ->
  parseFile now filename content = Return r ->
  ParseResult.services r = (done ++ x :: rest)%list ->
  forallb (joinable Array_join) done = true ->
  joinable Array_join x = false ->
  exists st' ss,
    processFile now fileId filename content st
    = (st', Throw (Raised CannotConvert)) /\
    MemStorage.getUploadedFile st' fileId
    = Some (UploadedFile.merge file
              (failedAs (detectPlatform filename content)
                 (Raised CannotConvert))) /\
    MemStorage.getServicesByFileId st' fileId
    = (MemStorage.getServicesByFileId st fileId ++ ss)%list /\
    List.map StoredService.name ss = List.map Service.name done /\
    MemStorage.getAllProxyServices st' = MemStorage.getAllProxyServices st /\
    MemStorage.getAllTransformations st' = MemStorage.getAllTransformations st.
Proof.
  intros A G E D Jd Jx.
  pose proof (ahead_started JSON_parse RegExp_new st fileId filename content A)
    as A2.
  pose proof (result_hasMethods JSON_parse RegExp_new now filename content r E)
    as M.
  rewrite D in M.
  destruct (storeServices_stop JSON_stringify Array_join fileId x rest done _
              A2 M Jd Jx) as (s3 & ss & L & X & Ns).
  exists (snd (update s3 fileId (FileProcessor.setError (Raised CannotConvert)))),
         ss.
  split; [|split; [|split; [|split; [exact Ns|]]]].
  - unfold FileProcessor.processFile, FileProcessor.attempt.
    rewrite E, D, L. reflexivity.
  - assert (F : MemStorage.getUploadedFile s3 fileId
                = Some (UploadedFile.merge
                          (UploadedFile.merge file
                             (FileProcessor.setStatus "processing"))
                          (FileProcessor.setPlatform
                             (detectPlatform filename content)))).
    { rewrite (extends_file _ _ _ _ _ _ fileId X).
      apply update_known, update_known, G. }
    rewrite (update_known _ _ _ _ F). reflexivity.
  - destruct (update_byFile s3 fileId
                (FileProcessor.setError (Raised CannotConvert)) fileId)
      as (-> & _ & _).
    destruct (extends_byFile _ _ _ _ _ _ X) as [(-> & _ & _) _].
    destruct (started_byFile st fileId filename content fileId) as (-> & _ & _).
    reflexivity.
  - destruct (update_records s3 fileId
                (FileProcessor.setError (Raised CannotConvert)))
      as (_ & -> & ->).
    destruct X as (_ & _ & _ & _ & _ & P & T & _).
    rewrite P, T, !app_nil_r.
    repeat match goal with
           | |- context [snd (update ?s ?i ?u)] =>
               destruct (update_records s i u) as (_ & -> & ->)
           end.
    auto.
Qed.

End Processor.

(** ** Runs of the further properties *)

Module MoreRuns.

#[local] Abbreviation ext := BaseParser.extractFileExtension.
#[local] Abbreviation detectPlatform :=
  (ParserRegistry.detectPlatform JSON.parse RegExp.construct).
#[local] Abbreviation parseFile :=
  (ParserRegistry.parseFile JSON.parse RegExp.construct).
#[local] Abbreviation processFile :=
  (FileProcessor.processFile JSON.parse RegExp.construct Upload.stringify
     Upload.join).

Ltac evaluate := vm_compute; reflexivity.

Ltac counters :=
  unfold ahead, below; cbn;
  repeat split; repeat constructor; cbn; intuition; try discriminate; try lia.

Lemma extension_after_last_dot_witness :
  without "." "XML" /\ asciiText "XML" /\
  ext ("archive.v2" ++ "." ++ "XML") = "xml" /\
  ext "XML" = "xml".
Proof.
  assert (W : without "." "XML") by evaluate.
  assert (A : asciiText "XML") by evaluate.
  split; [exact W|]. split; [exact A|].
  exact (extension_after_last_dot "archive.v2" "XML" W A).
Defined.

Lemma extractValue_text_witness :
  RegExp.plain "endpoint-uri" = true /\
  (BaseParser.extractValue Sample.osb_rest "endpoint-uri" = Undefined \/
   exists text,
     BaseParser.extractValue Sample.osb_rest "endpoint-uri" = Str text /\
     without "<" text /\ white text = None /\ Js.trim text = text).
Proof.
  assert (P : RegExp.plain "endpoint-uri" = true) by evaluate.
  split; [exact P|].
  exact (extractValue_text Sample.osb_rest "endpoint-uri" P).
Defined.

Lemma isXmlContent_first_thousand_witness :
  String.length (spaces 1000) = 1000 /\
  without "<" (spaces 1000) /\
  BaseParser.isXmlContent (spaces 1000 ++ "<a/>") = false.
Proof.
  assert (L : String.length (spaces 1000) = 1000) by evaluate.
  assert (W : without "<" (spaces 1000)) by evaluate.
  split; [exact L|]. split; [exact W|].
  exact (proj2 (isXmlContent_first_thousand (spaces 1000 ++ "<a/>"))
           (spaces 1000) "<a/>" eq_refl L W).
Defined.

Lemma metadata_consistent_witness :
  parseFile Sample.now "processes.json" Sample.boomi_two
    = Return Sample.boomi_two_result /\
  ParseResult.metadata Sample.boomi_two_result
  = Metadata.mk (detectPlatform "processes.json" Sample.boomi_two)
      "processes.json" Sample.now
      (List.length (ParseResult.services Sample.boomi_two_result))
      (List.length (ParseResult.proxyServices Sample.boomi_two_result))
      (List.length (ParseResult.transformations Sample.boomi_two_result)) /\
  In (detectPlatform "processes.json" Sample.boomi_two)
     (ParserRegistry.getSupportedPlatforms JSON.parse RegExp.construct).
Proof.
  assert (H : parseFile Sample.now "processes.json" Sample.boomi_two
              = Return Sample.boomi_two_result) by evaluate.
  split; [exact H|].
  exact (metadata_consistent JSON.parse _ _ _ _ _ H).
Defined.

Lemma osb_proxy_per_service_witness :
  exists r,
    OSBParser.parse RegExp.construct Sample.now "orders.xml" Upload.osb_escaped
      = Return r /\
    List.map Service.name (ParseResult.services r)
    = List.map Proxy.name (ParseResult.proxyServices r) /\
    List.length (ParseResult.services r)
    = List.length (ParseResult.proxyServices r).
Proof.
  assert (H : { r | OSBParser.parse RegExp.construct Sample.now "orders.xml"
                      Upload.osb_escaped = Return r })
    by (eexists; evaluate).
  destruct H as [r H]. exists r. split; [exact H|].
  exact (osb_proxy_per_service _ _ _ _ r H).
Defined.

Lemma xml_services_shape_witness :
  exists r s,
    parseFile Sample.now "billing.xml" Sample.osb_rest = Return r /\
    detectPlatform "billing.xml" Sample.osb_rest <> "Boomi" /\
    BaseParser.isXmlContent Sample.osb_rest = true /\
    In s (ParseResult.services r) /\
    (exists n, Service.name s = Str n /\ without dq n) /\
    In (Service.type s) xmlTypes.
Proof.
  assert (H : { r | parseFile Sample.now "billing.xml" Sample.osb_rest
                    = Return r /\
                    exists s, In s (ParseResult.services r) }).
  { eexists. split; [evaluate|]. eexists. left. reflexivity. }
  destruct H as [r [H [s I]]].
  assert (N : detectPlatform "billing.xml" Sample.osb_rest <> "Boomi")
    by (vm_compute; discriminate).
  assert (X : BaseParser.isXmlContent Sample.osb_rest = true) by evaluate.
  exists r, s. do 4 (split; [assumption|]).
  exact (xml_services_shape JSON.parse _ _ _ _ r s H N X I).
Defined.




Lemma xml_extractors_return_witness :
  (compiles RegExp.construct OSBParser.serviceSource OSBParser.proxyTag
     (BaseParser.toString Upload.osb_escaped) /\
   exists r,
     OSBParser.parse RegExp.construct Sample.now "orders.xml" Upload.osb_escaped
     = Return r) /\
  (OSBParser.parse RegExp.construct Sample.now "orders.xml"
     Upload.osb_unbalanced = Throw (FailedToParse "OSB" SyntaxError) /\
   FailedToParse "OSB" SyntaxError = FailedToParse "OSB" SyntaxError).
Proof.
  assert (C : compiles RegExp.construct OSBParser.serviceSource
                OSBParser.proxyTag (BaseParser.toString Upload.osb_escaped)).
  { intros m n I. vm_compute in I. destruct I as [<-|[]].
    vm_compute. intros [= <-] _. discriminate. }
  assert (T : OSBParser.parse RegExp.construct Sample.now "orders.xml"
                Upload.osb_unbalanced = Throw (FailedToParse "OSB" SyntaxError))
    by evaluate.
  split.
  - split; [exact C|].
    exact (proj1 (xml_extractors_return JSON.parse RegExp.construct Sample.now
                    "orders.xml" Upload.osb_escaped) C).
  - split; [exact T|].
    exact (proj1 (proj2 (proj2 (proj2
             (xml_extractors_return JSON.parse RegExp.construct Sample.now
                "orders.xml" Upload.osb_unbalanced)))) _ T).
Defined.

Lemma boomi_document_not_an_object_witness :
  JSON.parse (BaseParser.toString Upload.boomi_null) = Some Null /\
  BoomiParser.parse JSON.parse Sample.now "null.json" Upload.boomi_null
    = Throw (FailedToParse "Boomi" (CannotRead "processes")) /\
  JSON.parse (BaseParser.toString Upload.boomi_number) = Some (Num true "42") /\
  BoomiParser.parse JSON.parse Sample.now "number.json" Upload.boomi_number
    = Return (emptyResult "Boomi" Sample.now "number.json").
Proof.
  assert (J : JSON.parse (BaseParser.toString Upload.boomi_null) = Some Null)
    by evaluate.
  assert (K : JSON.parse (BaseParser.toString Upload.boomi_number)
              = Some (Num true "42")) by evaluate.
  split; [exact J|].
  split; [exact (boomi_document_not_an_object JSON.parse Sample.now "null.json"
                   Upload.boomi_null Null J)|].
  split; [exact K|].
  exact (boomi_document_not_an_object JSON.parse Sample.now "number.json"
           Upload.boomi_number (Num true "42") K).
Defined.

Lemma boomi_malformed_processes_witness :
  JSON.parse (BaseParser.toString Upload.boomi_processes_object)
    = Some (Obj [("processes", Obj [])]) /\
  BoomiParser.parse JSON.parse Sample.now "p.json" Upload.boomi_processes_object
    = Throw (FailedToParse "Boomi" NotIterable) /\
  JSON.parse (BaseParser.toString Upload.boomi_processes_null_entry)
    = Some (Obj [("processes", Arr [Null])]) /\
  BoomiParser.parse JSON.parse Sample.now "p.json"
    Upload.boomi_processes_null_entry
    = Throw (FailedToParse "Boomi" (CannotRead "name")).
Proof.
  assert (J : JSON.parse (BaseParser.toString Upload.boomi_processes_object)
              = Some (Obj [("processes", Obj [])])) by evaluate.
  assert (K : JSON.parse (BaseParser.toString Upload.boomi_processes_null_entry)
              = Some (Obj [("processes", Arr [Null])])) by evaluate.
  split; [exact J|].
  split; [exact (boomi_malformed_processes JSON.parse Sample.now "p.json"
                   Upload.boomi_processes_object _ (Obj []) J eq_refl)|].
  split; [exact K|].
  exact (boomi_malformed_processes JSON.parse Sample.now "p.json"
           Upload.boomi_processes_null_entry _ (Arr [Null]) K eq_refl).
Defined.

Lemma boomi_type_ignores_case_witness :
  lookup "connectorType" [("connectorType", Str "ftp")] = Some (Str "ftp") /\
  lookup "connectorType" [("name", Str "A"); ("connectorType", Str "FTP")]
    = Some (Str "FTP") /\
  asciiText "ftp" /\ asciiText "FTP" /\
  BoomiParser.determineServiceType (Obj [("connectorType", Str "ftp")])
  = BoomiParser.determineServiceType
      (Obj [("name", Str "A"); ("connectorType", Str "FTP")]).
Proof.
  assert (L : lookup "connectorType" [("connectorType", Str "ftp")]
              = Some (Str "ftp")) by evaluate.
  assert (L' : lookup "connectorType"
                 [("name", Str "A"); ("connectorType", Str "FTP")]
               = Some (Str "FTP")) by evaluate.
  assert (A : asciiText "ftp") by evaluate.
  assert (A' : asciiText "FTP") by evaluate.
  split; [exact L|]. split; [exact L'|]. split; [exact A|]. split; [exact A'|].
  exact (proj2 (boomi_type_ignores_case _ _ "ftp" "FTP" L L' A A') eq_refl).
Defined.

Lemma mulesoft_detected_by_content_witness :
  detectPlatform "orders.cfg" Sample.mulesoft_xml = "MuleSoft" /\
  oneOf listed (ext "orders.cfg") = false /\
  (if BaseParser.isXmlContent Sample.mulesoft_xml
   then muleXmlMarker Sample.mulesoft_xml
   else BaseParser.isJsonContent JSON.parse Sample.mulesoft_xml
        && muleJsonMarker Sample.mulesoft_xml) = true.
Proof.
  assert (D : detectPlatform "orders.cfg" Sample.mulesoft_xml = "MuleSoft")
    by evaluate.
  split; [exact D|].
  exact (mulesoft_detected_by_content JSON.parse _ _ _ D).
Defined.

Lemma uploaded_file_recognized_witness :
  Routes.fileFilter "processes.JSON" = Routes.Accept /\
  FileUtils.validateFileType "processes.JSON" = true /\
  recognized JSON.parse RegExp.construct "processes.JSON" Sample.garbage /\
  FileUtils.getFileIcon "processes.JSON" <> "fas fa-file".
Proof.
  assert (A : Routes.fileFilter "processes.JSON" = Routes.Accept) by evaluate.
  split; [exact A|].
  exact (uploaded_file_recognized JSON.parse RegExp.construct "processes.JSON"
           Sample.garbage A).
Defined.

Lemma progress_figure_witness :
  Routes.calculateProgress [Upload.parsed_file] [Sample.orders]
    (@nil StoredProxy.t) (@nil StoredTransformation.t) = 100 /\
  Routes.calculateProgress (@nil UploadedFile.t) [Sample.orders]
    (@nil StoredProxy.t) (@nil StoredTransformation.t) = 0.
Proof.
  split.
  - apply (proj2 (proj2 (progress_figure [Upload.parsed_file] [Sample.orders]
                           (@nil StoredProxy.t) (@nil StoredTransformation.t)))).
    repeat split; try reflexivity; discriminate.
  - exact (proj1 (proj2 (progress_figure (@nil UploadedFile.t) [Sample.orders]
                           (@nil StoredProxy.t) (@nil StoredTransformation.t)))
             eq_refl).
Defined.

Lemma creation_appends_witness :
  ahead Upload.stored /\
  let (created, st') := MemStorage.createService Upload.stored Upload.billing in
  ahead st' /\
  StoredService.id created = MemStorage.currentServiceId Upload.stored /\
  MemStorage.getAllServices st'
  = (MemStorage.getAllServices Upload.stored ++ [created])%list.
Proof.
  assert (A : ahead Upload.stored) by counters.
  split; [exact A|].
  exact (proj1 (proj2 (creation_appends Upload.stored A)) Upload.billing).
Defined.

Lemma uploaded_file_update_delete_witness :
  ahead Upload.stored /\
  MemStorage.getUploadedFile Upload.stored 7 = None /\
  MemStorage.updateUploadedFile Upload.stored 7 (FileProcessor.setStatus "parsed")
  = (None, Upload.stored) /\
  MemStorage.getUploadedFile Upload.stored 1 = Some Upload.orders_file /\
  MemStorage.getUploadedFile
    (snd (MemStorage.updateUploadedFile Upload.stored 1
            (FileProcessor.setStatus "parsed"))) 1
  = Some (UploadedFile.merge Upload.orders_file (FileProcessor.setStatus "parsed")).
Proof.
  assert (A : ahead Upload.stored) by counters.
  assert (N : MemStorage.getUploadedFile Upload.stored 7 = None) by evaluate.
  assert (G : MemStorage.getUploadedFile Upload.stored 1 = Some Upload.orders_file)
    by evaluate.
  split; [exact A|]. split; [exact N|].
  split; [exact (proj1 (uploaded_file_update_delete Upload.stored 7
                          (FileProcessor.setStatus "parsed") A) N)|].
  split; [exact G|].
  pose proof (proj1 (proj2 (uploaded_file_update_delete Upload.stored 1
                              (FileProcessor.setStatus "parsed") A))
                Upload.orders_file G) as U.
  destruct (MemStorage.updateUploadedFile Upload.stored 1
              (FileProcessor.setStatus "parsed")) as [result st'].
  exact (proj1 (proj2 U)).
Defined.

Lemma default_template_stable_witness :
  ahead MemStorage.create /\
  MemStorage.getDefaultTemplate MemStorage.create
    = Some MemStorage.defaultTemplate /\
  MemStorage.getDefaultTemplate
    (snd (MemStorage.createDocumentTemplate MemStorage.create
            Upload.another_default))
  = Some MemStorage.defaultTemplate.
Proof.
  assert (A : ahead MemStorage.create) by counters.
  assert (D : MemStorage.getDefaultTemplate MemStorage.create
              = Some MemStorage.defaultTemplate) by evaluate.
  split; [exact A|]. split; [exact D|].
  exact (proj2 (default_template_stable MemStorage.create Upload.another_default
                  MemStorage.defaultTemplate A) D).
Defined.

Lemma processFile_stores_result_witness :
  ahead Upload.stored /\
  MemStorage.getUploadedFile Upload.stored 1 = Some Upload.orders_file /\
  parseFile Sample.now "processes.json" Sample.boomi_two
    = Return Sample.boomi_two_result /\
  forallb (joinable Upload.join) (ParseResult.services Sample.boomi_two_result)
    = true /\
  exists st' ss ps ts,
    processFile Sample.now 1 "processes.json" Sample.boomi_two Upload.stored
      = (st', Return tt) /\
    List.map StoredService.name ss
      = List.map Service.name (ParseResult.services Sample.boomi_two_result) /\
    List.map StoredService.type ss
      = List.map Service.type (ParseResult.services Sample.boomi_two_result) /\
    List.map StoredProxy.name ps
      = List.map Proxy.name (ParseResult.proxyServices Sample.boomi_two_result) /\
    List.map StoredTransformation.name ts
      = List.map Transformation.name
          (ParseResult.transformations Sample.boomi_two_result) /\
    FileProcessor.getProcessingStatus 1 st'
    = Return
        (FileProcessor.mkReport
           (UploadedFile.merge Upload.orders_file
              (parsedAs (detectPlatform "processes.json" Sample.boomi_two)))
           (MemStorage.getServicesByFileId Upload.stored 1 ++ ss)%list
           (MemStorage.getProxyServicesByFileId Upload.stored 1 ++ ps)%list
           (MemStorage.getTransformationsByFileId Upload.stored 1 ++ ts)%list
           "parsed" (Some (detectPlatform "processes.json" Sample.boomi_two))).
Proof.
  assert (A : ahead Upload.stored) by counters.
  assert (G : MemStorage.getUploadedFile Upload.stored 1 = Some Upload.orders_file)
    by evaluate.
  assert (E : parseFile Sample.now "processes.json" Sample.boomi_two
              = Return Sample.boomi_two_result) by evaluate.
  assert (J : forallb (joinable Upload.join)
                (ParseResult.services Sample.boomi_two_result) = true)
    by evaluate.
  split; [exact A|]. split; [exact G|]. split; [exact E|]. split; [exact J|].
  exact (processFile_stores_result JSON.parse RegExp.construct Upload.stringify
           Upload.join Sample.now 1 "processes.json" Sample.boomi_two
           Upload.stored Upload.orders_file Sample.boomi_two_result A G E J).
Defined.

Lemma processFile_records_failure_witness :
  MemStorage.getUploadedFile Upload.stored 1 = Some Upload.orders_file /\
  parseFile Sample.now "orders.xml" Upload.osb_unbalanced
    = Throw (FailedToParse "OSB" SyntaxError) /\
  exists st',
    processFile Sample.now 1 "orders.xml" Upload.osb_unbalanced Upload.stored
      = (st', Throw (ParserError (FailedToParse "OSB" SyntaxError))) /\
    MemStorage.getUploadedFile st' 1
    = Some (UploadedFile.merge Upload.orders_file
              (failedAs (detectPlatform "orders.xml" Upload.osb_unbalanced)
                 (ParserError (FailedToParse "OSB" SyntaxError)))) /\
    MemStorage.getAllServices st' = MemStorage.getAllServices Upload.stored /\
    MemStorage.getAllProxyServices st'
      = MemStorage.getAllProxyServices Upload.stored /\
    MemStorage.getAllTransformations st'
      = MemStorage.getAllTransformations Upload.stored.
Proof.
  assert (G : MemStorage.getUploadedFile Upload.stored 1 = Some Upload.orders_file)
    by evaluate.
  assert (E : parseFile Sample.now "orders.xml" Upload.osb_unbalanced
              = Throw (FailedToParse "OSB" SyntaxError)) by evaluate.
  split; [exact G|]. split; [exact E|].
  exact (processFile_records_failure JSON.parse RegExp.construct
           Upload.stringify Upload.join Sample.now 1 "orders.xml"
           Upload.osb_unbalanced Upload.stored Upload.orders_file
           (FailedToParse "OSB" SyntaxError) G E).
Defined.

Lemma processFile_unknown_file_witness :
  ahead Upload.stored /\
  MemStorage.getUploadedFile Upload.stored 7 = None /\
  processFile Sample.now 7 "notes.txt" "plain text notes" Upload.stored
    = (Upload.stored, Throw (ParserError (NoParserFound "notes.txt"))) /\
  forallb (joinable Upload.join) (ParseResult.services Sample.boomi_two_result)
    = true /\
  exists st' ss,
    processFile Sample.now 7 "processes.json" Sample.boomi_two Upload.stored
      = (st', Return tt) /\
    MemStorage.uploadedFiles st' = MemStorage.uploadedFiles Upload.stored /\
    MemStorage.getServicesByFileId st' 7
    = (MemStorage.getServicesByFileId Upload.stored 7 ++ ss)%list /\
    List.length ss
    = List.length (ParseResult.services Sample.boomi_two_result) /\
    FileProcessor.getProcessingStatus 7 st' = Throw FileNotFound.
Proof.
  assert (A : ahead Upload.stored) by counters.
  assert (G : MemStorage.getUploadedFile Upload.stored 7 = None) by evaluate.
  assert (T : parseFile Sample.now "notes.txt" "plain text notes"
              = Throw (NoParserFound "notes.txt")) by evaluate.
  assert (E : parseFile Sample.now "processes.json" Sample.boomi_two
              = Return Sample.boomi_two_result) by evaluate.
  assert (J : forallb (joinable Upload.join)
                (ParseResult.services Sample.boomi_two_result) = true)
    by evaluate.
  split; [exact A|]. split; [exact G|].
  split; [|split; [exact J|]].
  - exact (proj1 (processFile_unknown_file JSON.parse RegExp.construct
                    Upload.stringify Upload.join Sample.now 7 "notes.txt"
                    "plain text notes" Upload.stored A G) _ T).
  - exact (proj2 (processFile_unknown_file JSON.parse RegExp.construct
                    Upload.stringify Upload.join Sample.now 7 "processes.json"
                    Sample.boomi_two Upload.stored A G) _ E J).
Defined.

Lemma processFile_touches_one_file_witness :
  ahead Upload.stored /\ 1 <> 7 /\
  let st' := fst (processFile Sample.now 7 "processes.json" Sample.boomi_two
                    Upload.stored) in
  ahead st' /\
  MemStorage.getUploadedFile st' 1 = MemStorage.getUploadedFile Upload.stored 1 /\
  MemStorage.getServicesByFileId st' 1
  = MemStorage.getServicesByFileId Upload.stored 1 /\
  MemStorage.getProxyServicesByFileId st' 1
  = MemStorage.getProxyServicesByFileId Upload.stored 1 /\
  MemStorage.getTransformationsByFileId st' 1
  = MemStorage.getTransformationsByFileId Upload.stored 1.
Proof.
  assert (A : ahead Upload.stored) by counters.
  assert (N : 1 <> 7) by lia.
  split; [exact A|]. split; [exact N|].
  exact (processFile_touches_one_file JSON.parse RegExp.construct
           Upload.stringify Upload.join Sample.now 7 "processes.json"
           Sample.boomi_two Upload.stored 1 A N).
Defined.

Lemma processFile_stops_at_join_witness :
  ahead Upload.stored /\
  MemStorage.getUploadedFile Upload.stored 1 = Some Upload.orders_file /\
  parseFile Sample.now "processes.json" Upload.boomi_unjoinable
    = Return Upload.boomi_unjoinable_result /\
  forallb (joinable Upload.join) [Upload.service_A] = true /\
  joinable Upload.join Upload.service_B = false /\
  exists st' ss,
    processFile Sample.now 1 "processes.json" Upload.boomi_unjoinable
      Upload.stored
    = (st', Throw (Raised CannotConvert)) /\
    MemStorage.getUploadedFile st' 1
    = Some (UploadedFile.merge Upload.orders_file
              (failedAs (detectPlatform "processes.json" Upload.boomi_unjoinable)
                 (Raised CannotConvert))) /\
    MemStorage.getServicesByFileId st' 1
    = (MemStorage.getServicesByFileId Upload.stored 1 ++ ss)%list /\
    List.map StoredService.name ss = [Str "A"] /\
    MemStorage.getAllProxyServices st'
      = MemStorage.getAllProxyServices Upload.stored /\
    MemStorage.getAllTransformations st'
      = MemStorage.getAllTransformations Upload.stored.
Proof.
  assert (A : ahead Upload.stored) by counters.
  assert (G : MemStorage.getUploadedFile Upload.stored 1 = Some Upload.orders_file)
    by evaluate.
  assert (E : parseFile Sample.now "processes.json" Upload.boomi_unjoinable
              = Return Upload.boomi_unjoinable_result) by evaluate.
  assert (D : forallb (joinable Upload.join) [Upload.service_A] = true)
    by evaluate.
  assert (X : joinable Upload.join Upload.service_B = false) by evaluate.
  split; [exact A|]. split; [exact G|]. split; [exact E|].
  split; [exact D|]. split; [exact X|].
  exact (processFile_stops_at_join JSON.parse RegExp.construct Upload.stringify
           Upload.join Sample.now 1 "processes.json" Upload.boomi_unjoinable
           Upload.stored Upload.orders_file Upload.boomi_unjoinable_result
           [Upload.service_A] Upload.service_B [Upload.service_C]
           A G E eq_refl D X).
Defined.

End MoreRuns.
